(** * StellarSplit: the split calculation and validation engine

    A shallow embedding of
    - [backend/src/modules/splits/dto/calculate-split.dto.ts] (the DTOs),
    - [split.validator.ts] (class [SplitValidator]) and
    - [split-calculation.service.ts] (class [SplitCalculationService]),
    followed by the properties of the engine.

    The source is embedded twice, line for line.

    - Over exact rationals ([Q]): this first embedding carries the
      structural properties of the engine, whose statements speak of
      participants, payloads, errors and signs and of no computed amount.
      It reads every amount of a request as a number: NaN, which no JSON
      body carries, is outside it.
    - Over IEEE 754 doubles (module [Ieee], on the primitives of module
      [Double]): the second embedding computes what the code computes, bit
      for bit, and carries every property that depends on an amount. *)

From Stdlib Require Import QArith Qround Qabs ZArith List String Ascii Bool Floats.
From Stdlib Require Import Lia Lqa Permutation.
Import ListNotations.
Local Open Scope Q_scope.

(** ** JavaScript primitives used by the engine *)

Module Js.

Definition number : Type := Q.

(** [Math.round(x)]: the integer nearest to [x]; of two equally near
    integers, the one closer to plus infinity. *)
Definition Math_round (x : number) : number := inject_Z (Qfloor (x + (1 # 2))).

Definition Math_abs (x : number) : number := Qabs x.

(** [x < y], [x > y], [x <= y], [x === y] on numbers. *)
Definition lt (x y : number) : bool := negb (Qle_bool y x).
Definition gt (x y : number) : bool := lt y x.
Definition le (x y : number) : bool := Qle_bool x y.
Definition strict_eq (x y : number) : bool := Qeq_bool x y.

(** [x || d] on an optional number: [undefined] and [0] are falsy. *)
Definition or_num (x : option number) (d : number) : number :=
  match x with
  | Some v => if strict_eq v 0 then d else v
  | None => d
  end.

(** [x || d] where a present [x] is always truthy (arrays, enum strings). *)
Definition or_else {A : Type} (x : option A) (d : A) : A :=
  match x with
  | Some v => v
  | None => d
  end.

(** Truthiness of an optional array: every array, also the empty one, is
    truthy; [undefined] is falsy. *)
Definition truthy {A : Type} (x : option A) : bool :=
  match x with
  | Some _ => true
  | None => false
  end.

(** [arr.length] as a number. *)
Definition length_num {A : Type} (l : list A) : number :=
  inject_Z (Z.of_nat (List.length l)).

(** [arr.includes(x)] on an array of strings. *)
Definition includes (l : list string) (x : string) : bool :=
  existsb (String.eqb x) l.

(** [new Set(arr).size]. *)
Definition Set_size (l : list string) : nat :=
  List.length (nodup string_dec l).

(** The characters removed by [String.prototype.trim] (white space and
    line terminators), a string being read as its UTF-8 bytes: U+0009 to
    U+000D and U+0020 on one byte, U+00A0 on two, U+1680, U+2000 to
    U+200A, U+2028, U+2029, U+202F, U+205F, U+3000 and U+FEFF on three. *)
Definition is_white_space1 (c : N) : bool :=
  ((9 <=? c) && (c <=? 13) || (c =? 32))%N.

Definition is_white_space2 (c d : N) : bool :=
  ((c =? 194) && (d =? 160))%N.

Definition is_white_space3 (c d e : N) : bool :=
  ((c =? 225) && (d =? 154) && (e =? 128)
   || (c =? 226) && (d =? 128)
      && ((128 <=? e) && (e <=? 138) || (e =? 168) || (e =? 169) || (e =? 175))
   || (c =? 226) && (d =? 129) && (e =? 159)
   || (c =? 227) && (d =? 128) && (e =? 128)
   || (c =? 239) && (d =? 187) && (e =? 191))%N.

Fixpoint white_space_only (bytes : list N) : bool :=
  match bytes with
  | [] => true
  | c :: r =>
      if is_white_space1 c then white_space_only r
      else
        match r with
        | [] => false
        | d :: r' =>
            if is_white_space2 c d then white_space_only r'
            else
              match r' with
              | [] => false
              | e :: r'' => is_white_space3 c d e && white_space_only r''
              end
        end
  end.

(** [s.trim() === ''] *)
Definition trim_is_empty (s : string) : bool :=
  white_space_only (map N_of_ascii (list_ascii_of_string s)).

(** [Map<string, V>]: keys in insertion order, [set] on a present key
    keeps its position. *)
Module Map.
Section WithValue.
Context {V : Type}.

Definition t : Type := list (string * V).

Definition empty : t := [].

Fixpoint get (m : t) (k : string) : option V :=
  match m with
  | [] => None
  | (k', v) :: r => if String.eqb k' k then Some v else get r k
  end.

Definition has (m : t) (k : string) : bool :=
  match get m k with
  | Some _ => true
  | None => false
  end.

Fixpoint set (m : t) (k : string) (v : V) : t :=
  match m with
  | [] => [(k, v)]
  | (k', v') :: r =>
      if String.eqb k' k then (k', v) :: r else (k', v') :: set r k v
  end.

Definition values (m : t) : list V := map snd m.
End WithValue.
Arguments t : clear implicits.
End Map.

End Js.

(** ** calculate-split.dto.ts *)

Inductive SplitType : Type := EQUAL | ITEMIZED | PERCENTAGE | CUSTOM.

Module TipDistributionType.
Inductive t : Type := EQUAL | PROPORTIONAL.

Definition eqb (a b : t) : bool :=
  match a, b with
  | EQUAL, EQUAL | PROPORTIONAL, PROPORTIONAL => true
  | _, _ => false
  end.
End TipDistributionType.

Module ItemDto.
Record t : Type := mk
  { name : string;
    price : Q;
    participantIds : list string }.
End ItemDto.

Module PercentageSplitDto.
Record t : Type := mk
  { participantId : string;
    percentage : Q }.
End PercentageSplitDto.

Module CustomSplitDto.
Record t : Type := mk
  { participantId : string;
    amount : Q }.
End CustomSplitDto.

Module CalculateSplitDto.
Record t : Type := mk
  { splitType : SplitType;
    subtotal : Q;
    tax : option Q;
    tip : option Q;
    tipDistribution : option TipDistributionType.t;
    participantIds : list string;
    items : option (list ItemDto.t);
    percentages : option (list PercentageSplitDto.t);
    customAmounts : option (list CustomSplitDto.t) }.

End CalculateSplitDto.

Module ParticipantShareDto.
Record t : Type := mk
  { participantId : string;
    subtotal : Q;
    tax : Q;
    tip : Q;
    total : Q;
    items : option (list string) }.

(** [{ ...share, total: v }] *)
Definition with_total (share : t) (v : Q) : t :=
  {| participantId := participantId share;
     subtotal := subtotal share;
     tax := tax share;
     tip := tip share;
     total := v;
     items := items share |}.
End ParticipantShareDto.

Module SplitCalculationResultDto.
Record t : Type := mk
  { splitType : SplitType;
    originalSubtotal : Q;
    originalTax : Q;
    originalTip : Q;
    grandTotal : Q;
    shares : list ParticipantShareDto.t;
    roundingAdjustment : Q }.
End SplitCalculationResultDto.

(** ** Exceptions

    One constructor per [throw new BadRequestException(...)] of the
    validator, carrying the values its message interpolates. *)

Inductive BadRequestException : Type :=
| AtLeastOneParticipantRequired
| DuplicateParticipantIds
| SubtotalNegative
| TaxNegative
| TipNegative
| TotalMustBeGreaterThanZero
| EqualSplitExtraPayload
| ItemizedRequiresItem
| ItemizedExtraPayload
| ItemMustHaveName (index : nat)
| ItemInvalidPrice (name : string) (price : Q)
| ItemWithoutParticipant (name : string)
| ItemForeignParticipant (name participantId : string)
| ItemDuplicateParticipants (name : string)
| ItemsSumMismatch (itemsTotal subtotal : Q)
| PercentageRequiresConfiguration
| PercentageExtraPayload
| PercentageForeignParticipant (participantId : string)
| PercentageDuplicateEntry (participantId : string)
| PercentageOutOfRange (percentage : Q) (participantId : string)
| PercentageTotalMismatch (totalPercentage : Q)
| PercentageMissing (participantId : string)
| CustomRequiresConfiguration
| CustomExtraPayload
| CustomForeignParticipant (participantId : string)
| CustomDuplicateEntry (participantId : string)
| CustomNegativeAmount (amount : Q) (participantId : string)
| CustomSumMismatch (totalCustom subtotal : Q)
| CustomMissing (participantId : string)
| CalculatedTotalMismatch (calculatedTotal expectedTotal : Q)
| RoundingAdjustmentExceedsThreshold (roundingAdjustment : Q).

(** A call either returns a value or throws. *)
Inductive outcome (A : Type) : Type :=
| Returns (a : A)
| Throws (e : BadRequestException).
Arguments Returns {A} a.
Arguments Throws {A} e.

Definition bind {A B : Type} (c : outcome A) (k : A -> outcome B) : outcome B :=
  match c with
  | Returns a => k a
  | Throws e => Throws e
  end.

Declare Scope outcome_scope.
Delimit Scope outcome_scope with outcome.
Notation "x <- c ;; k" := (bind c (fun x => k))
  (at level 61, c at next level, right associativity) : outcome_scope.
Notation "c ;; k" := (bind c (fun _ => k))
  (at level 61, right associativity) : outcome_scope.
Local Open Scope outcome_scope.

(** [if (b) throw e;] *)
Definition throw_if (b : bool) (e : BadRequestException) : outcome unit :=
  if b then Throws e else Returns tt.

(** [arr.forEach((x, index) => ...)] with a body that may throw. *)
Fixpoint forEach_from {A : Type} (f : A -> nat -> outcome unit) (l : list A)
  (index : nat) : outcome unit :=
  match l with
  | [] => Returns tt
  | x :: r => f x index ;; forEach_from f r (S index)
  end.

Definition forEach {A : Type} (f : A -> outcome unit) (l : list A) : outcome unit :=
  forEach_from (fun x _ => f x) l 0%nat.

(** [arr.forEach] whose body updates a local of type [S] and may throw. *)
Fixpoint forEach_state {A S : Type} (f : S -> A -> outcome S) (l : list A)
  (s : S) : outcome S :=
  match l with
  | [] => Returns s
  | x :: r => s' <- f s x ;; forEach_state f r s'
  end.

(** [arr.reduce((sum, x) => sum + f(x), 0)] *)
Definition reduce_sum {A : Type} (f : A -> Q) (l : list A) : Q :=
  fold_left (fun sum x => sum + f x) l 0.

(** ** split.validator.ts *)

Module SplitValidator.
Import CalculateSplitDto.

(** Validates basic requirements common to all split types. *)
Definition validateBasicRequirements (dto : CalculateSplitDto.t) : outcome unit :=
  throw_if (List.length (participantIds dto) =? 0)%nat
    AtLeastOneParticipantRequired ;;
  throw_if (negb (Js.Set_size (participantIds dto) =? List.length (participantIds dto))%nat)
    DuplicateParticipantIds ;;
  throw_if (Js.lt (subtotal dto) 0) SubtotalNegative ;;
  throw_if (match tax dto with Some t => Js.lt t 0 | None => false end)
    TaxNegative ;;
  throw_if (match tip dto with Some t => Js.lt t 0 | None => false end)
    TipNegative ;;
  let total := subtotal dto + Js.or_num (tax dto) 0 + Js.or_num (tip dto) 0 in
  throw_if (Js.le total 0 && (0 <? List.length (participantIds dto))%nat)
    TotalMustBeGreaterThanZero.

(** Validates equal split requirements. *)
Definition validateEqualSplit (dto : CalculateSplitDto.t) : outcome unit :=
  throw_if (Js.truthy (items dto) || Js.truthy (percentages dto)
            || Js.truthy (customAmounts dto))
    EqualSplitExtraPayload.

(** The body of [dto.items.forEach((item, index) => ...)]. *)
Definition validateItem (dto : CalculateSplitDto.t) (item : ItemDto.t)
  (index : nat) : outcome unit :=
  throw_if (Js.trim_is_empty (ItemDto.name item)) (ItemMustHaveName index) ;;
  throw_if (Js.lt (ItemDto.price item) 0)
    (ItemInvalidPrice (ItemDto.name item) (ItemDto.price item)) ;;
  throw_if (List.length (ItemDto.participantIds item) =? 0)%nat
    (ItemWithoutParticipant (ItemDto.name item)) ;;
  forEach
    (fun participantId =>
       throw_if (negb (Js.includes (participantIds dto) participantId))
         (ItemForeignParticipant (ItemDto.name item) participantId))
    (ItemDto.participantIds item) ;;
  throw_if (negb (Js.Set_size (ItemDto.participantIds item)
                  =? List.length (ItemDto.participantIds item))%nat)
    (ItemDuplicateParticipants (ItemDto.name item)).

(** Validates itemized split requirements. *)
Definition validateItemizedSplit (dto : CalculateSplitDto.t) : outcome unit :=
  match items dto with
  | None => Throws ItemizedRequiresItem
  | Some its =>
      throw_if (List.length its =? 0)%nat ItemizedRequiresItem ;;
      throw_if (Js.truthy (percentages dto) || Js.truthy (customAmounts dto))
        ItemizedExtraPayload ;;
      forEach_from (validateItem dto) its 0%nat ;;
      let itemsTotal := reduce_sum ItemDto.price its in
      let tolerance := 1 # 100 in
      throw_if (Js.gt (Js.Math_abs (itemsTotal - subtotal dto)) tolerance)
        (ItemsSumMismatch itemsTotal (subtotal dto))
  end.

(** The body of [dto.percentages.forEach((pct) => ...)], which fills
    [percentageMap]. *)
Definition validatePercentageEntry (dto : CalculateSplitDto.t)
  (percentageMap : Js.Map.t Q) (pct : PercentageSplitDto.t)
  : outcome (Js.Map.t Q) :=
  let participantId := PercentageSplitDto.participantId pct in
  let percentage := PercentageSplitDto.percentage pct in
  throw_if (negb (Js.includes (participantIds dto) participantId))
    (PercentageForeignParticipant participantId) ;;
  throw_if (Js.Map.has percentageMap participantId)
    (PercentageDuplicateEntry participantId) ;;
  throw_if (Js.lt percentage 0 || Js.gt percentage 100)
    (PercentageOutOfRange percentage participantId) ;;
  Returns (Js.Map.set percentageMap participantId percentage).

(** Validates percentage split requirements. *)
Definition validatePercentageSplit (dto : CalculateSplitDto.t) : outcome unit :=
  match percentages dto with
  | None => Throws PercentageRequiresConfiguration
  | Some pcts =>
      throw_if (List.length pcts =? 0)%nat PercentageRequiresConfiguration ;;
      throw_if (Js.truthy (items dto) || Js.truthy (customAmounts dto))
        PercentageExtraPayload ;;
      percentageMap <- forEach_state (validatePercentageEntry dto) pcts Js.Map.empty ;;
      let totalPercentage := reduce_sum (fun pct => pct) (Js.Map.values percentageMap) in
      let tolerance := 1 # 100 in
      throw_if (Js.gt (Js.Math_abs (totalPercentage - 100)) tolerance)
        (PercentageTotalMismatch totalPercentage) ;;
      forEach
        (fun participantId =>
           throw_if (negb (Js.Map.has percentageMap participantId))
             (PercentageMissing participantId))
        (participantIds dto)
  end.

(** The body of [dto.customAmounts.forEach((custom) => ...)], which fills
    [amountMap]. *)
Definition validateCustomEntry (dto : CalculateSplitDto.t)
  (amountMap : Js.Map.t Q) (custom : CustomSplitDto.t)
  : outcome (Js.Map.t Q) :=
  let participantId := CustomSplitDto.participantId custom in
  let amount := CustomSplitDto.amount custom in
  throw_if (negb (Js.includes (participantIds dto) participantId))
    (CustomForeignParticipant participantId) ;;
  throw_if (Js.Map.has amountMap participantId)
    (CustomDuplicateEntry participantId) ;;
  throw_if (Js.lt amount 0) (CustomNegativeAmount amount participantId) ;;
  Returns (Js.Map.set amountMap participantId amount).

(** Validates custom split requirements. *)
Definition validateCustomSplit (dto : CalculateSplitDto.t) : outcome unit :=
  match customAmounts dto with
  | None => Throws CustomRequiresConfiguration
  | Some customs =>
      throw_if (List.length customs =? 0)%nat CustomRequiresConfiguration ;;
      throw_if (Js.truthy (items dto) || Js.truthy (percentages dto))
        CustomExtraPayload ;;
      amountMap <- forEach_state (validateCustomEntry dto) customs Js.Map.empty ;;
      let totalCustom := reduce_sum (fun amt => amt) (Js.Map.values amountMap) in
      let tolerance := 1 # 100 in
      throw_if (Js.gt (Js.Math_abs (totalCustom - subtotal dto)) tolerance)
        (CustomSumMismatch totalCustom (subtotal dto)) ;;
      forEach
        (fun participantId =>
           throw_if (negb (Js.Map.has amountMap participantId))
             (CustomMissing participantId))
        (participantIds dto)
  end.

(** Main validation method: the basic requirements, then the checks of
    the declared split type. *)
Definition validate (dto : CalculateSplitDto.t) : outcome unit :=
  validateBasicRequirements dto ;;
  match splitType dto with
  | EQUAL => validateEqualSplit dto
  | ITEMIZED => validateItemizedSplit dto
  | PERCENTAGE => validatePercentageSplit dto
  | CUSTOM => validateCustomSplit dto
  end.

(** Validates the result: totals match and the rounding adjustment stays
    within one cent per participant. *)
Definition validateResult (dto : CalculateSplitDto.t)
  (calculatedTotal roundingAdjustment : Q) : outcome unit :=
  let expectedTotal := subtotal dto + Js.or_num (tax dto) 0 + Js.or_num (tip dto) 0 in
  let tolerance := 1 # 100 in
  throw_if (Js.gt (Js.Math_abs (calculatedTotal - expectedTotal)) tolerance)
    (CalculatedTotalMismatch calculatedTotal expectedTotal) ;;
  let maxAdjustment := Js.length_num (participantIds dto) * (1 # 100) in
  throw_if (Js.gt (Js.Math_abs roundingAdjustment) maxAdjustment)
    (RoundingAdjustmentExceedsThreshold roundingAdjustment).

End SplitValidator.

(** ** split-calculation.service.ts *)

Module SplitCalculationService.
Import CalculateSplitDto.

(** Round to 2 decimal places: [Math.round(value * 100) / 100]. *)
Definition round (value : Q) : Q := Js.Math_round (value * 100) / 100.

(** Distribute tax proportionally based on subtotal share. *)
Definition distributeTax (participantSubtotal totalSubtotal totalTax : Q) : Q :=
  if Js.strict_eq totalTax 0 || Js.strict_eq totalSubtotal 0 then 0
  else
    let proportion := participantSubtotal / totalSubtotal in
    round (totalTax * proportion).

(** Distribute tip either equally or proportionally. *)
Definition distributeTip (participantSubtotal totalSubtotal totalTip : Q)
  (distribution : TipDistributionType.t) (participantCount : Q) : Q :=
  if Js.strict_eq totalTip 0 then 0
  else if TipDistributionType.eqb distribution TipDistributionType.EQUAL then
    round (totalTip / participantCount)
  else if Js.strict_eq totalSubtotal 0 then
    round (totalTip / participantCount)
  else
    let proportion := participantSubtotal / totalSubtotal in
    round (totalTip * proportion).

(** Calculate equal split - divide everything evenly. *)
Definition calculateEqualSplit (dto : CalculateSplitDto.t)
  : list ParticipantShareDto.t :=
  let participantCount := Js.length_num (participantIds dto) in
  let subtotalPerPerson := subtotal dto / participantCount in
  map
    (fun participantId =>
       let subtotal := round subtotalPerPerson in
       let tax := distributeTax subtotal (CalculateSplitDto.subtotal dto)
                    (Js.or_num (CalculateSplitDto.tax dto) 0) in
       let tip := distributeTip subtotal (CalculateSplitDto.subtotal dto)
                    (Js.or_num (CalculateSplitDto.tip dto) 0)
                    (Js.or_else (tipDistribution dto) TipDistributionType.EQUAL)
                    participantCount in
       let total := round (subtotal + tax + tip) in
       ParticipantShareDto.mk participantId subtotal tax tip total None)
    (participantIds dto).

(** The two maps of [calculateItemizedSplit]. *)
Definition itemized_maps : Type := (Js.Map.t Q * Js.Map.t (list string))%type.

(** The body of [dto.participantIds.forEach((id) => ...)]:
    [participantSubtotals.set(id, 0); participantItems.set(id, [])]. *)
Definition initializeParticipant (maps : itemized_maps) (id : string) : itemized_maps :=
  let (participantSubtotals, participantItems) := maps in
  (Js.Map.set participantSubtotals id 0, Js.Map.set participantItems id []).

(** Initialize all participants. *)
Definition initializeParticipants (ids : list string) : itemized_maps :=
  fold_left initializeParticipant ids (Js.Map.empty, Js.Map.empty).

(** The body of [item.participantIds.forEach((participantId) => ...)]:
    the share added to the participant's running subtotal, the item's
    name pushed on the participant's list. *)
Definition addItemShare (item : ItemDto.t) (sharePerPerson : Q)
  (maps : itemized_maps) (participantId : string) : itemized_maps :=
  let (participantSubtotals, participantItems) := maps in
  let currentSubtotal := Js.or_num (Js.Map.get participantSubtotals participantId) 0 in
  let currentItems := Js.or_else (Js.Map.get participantItems participantId) [] in
  (Js.Map.set participantSubtotals participantId (currentSubtotal + sharePerPerson),
   Js.Map.set participantItems participantId (currentItems ++ [ItemDto.name item])).

(** The body of [items.forEach((item) => ...)]: the item's price split
    evenly over its participants. *)
Definition distributeItem (maps : itemized_maps) (item : ItemDto.t) : itemized_maps :=
  let sharePerPerson := ItemDto.price item / Js.length_num (ItemDto.participantIds item) in
  fold_left (addItemShare item sharePerPerson) (ItemDto.participantIds item) maps.

(** Calculate itemized split - each person pays for their items. *)
Definition calculateItemizedSplit (dto : CalculateSplitDto.t)
  : list ParticipantShareDto.t :=
  let items := Js.or_else (CalculateSplitDto.items dto) [] in
  let (participantSubtotals, participantItems) :=
    fold_left distributeItem items (initializeParticipants (participantIds dto)) in
  map
    (fun participantId =>
       let subtotal := round (Js.or_num (Js.Map.get participantSubtotals participantId) 0) in
       let tax := distributeTax subtotal (CalculateSplitDto.subtotal dto)
                    (Js.or_num (CalculateSplitDto.tax dto) 0) in
       let tip := distributeTip subtotal (CalculateSplitDto.subtotal dto)
                    (Js.or_num (CalculateSplitDto.tip dto) 0)
                    (Js.or_else (tipDistribution dto) TipDistributionType.PROPORTIONAL)
                    (Js.length_num (participantIds dto)) in
       let total := round (subtotal + tax + tip) in
       ParticipantShareDto.mk participantId subtotal tax tip total
         (Some (Js.or_else (Js.Map.get participantItems participantId) [])))
    (participantIds dto).

(** Calculate percentage split - each person pays a specified percentage. *)
Definition calculatePercentageSplit (dto : CalculateSplitDto.t)
  : list ParticipantShareDto.t :=
  let percentages := Js.or_else (CalculateSplitDto.percentages dto) [] in
  let percentageMap :=
    fold_left
      (fun m pct => Js.Map.set m (PercentageSplitDto.participantId pct)
                      (PercentageSplitDto.percentage pct))
      percentages Js.Map.empty in
  map
    (fun participantId =>
       let percentage := Js.or_num (Js.Map.get percentageMap participantId) 0 in
       let subtotal := round ((CalculateSplitDto.subtotal dto * percentage) / 100) in
       let tax := distributeTax subtotal (CalculateSplitDto.subtotal dto)
                    (Js.or_num (CalculateSplitDto.tax dto) 0) in
       let tip := distributeTip subtotal (CalculateSplitDto.subtotal dto)
                    (Js.or_num (CalculateSplitDto.tip dto) 0)
                    (Js.or_else (tipDistribution dto) TipDistributionType.PROPORTIONAL)
                    (Js.length_num (participantIds dto)) in
       let total := round (subtotal + tax + tip) in
       ParticipantShareDto.mk participantId subtotal tax tip total None)
    (participantIds dto).

(** Calculate custom split - each person pays a specified amount. *)
Definition calculateCustomSplit (dto : CalculateSplitDto.t)
  : list ParticipantShareDto.t :=
  let customAmounts := Js.or_else (CalculateSplitDto.customAmounts dto) [] in
  let amountMap :=
    fold_left
      (fun m custom => Js.Map.set m (CustomSplitDto.participantId custom)
                         (CustomSplitDto.amount custom))
      customAmounts Js.Map.empty in
  map
    (fun participantId =>
       let subtotal := round (Js.or_num (Js.Map.get amountMap participantId) 0) in
       let tax := distributeTax subtotal (CalculateSplitDto.subtotal dto)
                    (Js.or_num (CalculateSplitDto.tax dto) 0) in
       let tip := distributeTip subtotal (CalculateSplitDto.subtotal dto)
                    (Js.or_num (CalculateSplitDto.tip dto) 0)
                    (Js.or_else (tipDistribution dto) TipDistributionType.PROPORTIONAL)
                    (Js.length_num (participantIds dto)) in
       let total := round (subtotal + tax + tip) in
       ParticipantShareDto.mk participantId subtotal tax tip total None)
    (participantIds dto).

(** The loop [shares.forEach((share, index) => { if (share.total > maxTotal)
    { maxTotal = share.total; maxIndex = index; } })]; returns the final
    [maxIndex]. *)
Fixpoint findMaxIndex (shares : list ParticipantShareDto.t) (index : nat)
  (maxIndex : nat) (maxTotal : Q) : nat :=
  match shares with
  | [] => maxIndex
  | share :: rest =>
      if Js.gt (ParticipantShareDto.total share) maxTotal
      then findMaxIndex rest (S index) index (ParticipantShareDto.total share)
      else findMaxIndex rest (S index) maxIndex maxTotal
  end.

(** [const a = [...shares]; a[i] = f(a[i])] for an index inside the
    array.  Past the end JavaScript would raise a [TypeError] on
    [a[i].total]; the caller only passes the result of [findMaxIndex],
    which is an index of the array ([findMaxIndex_firstLargest]). *)
Fixpoint replaceAt (shares : list ParticipantShareDto.t) (i : nat)
  (f : ParticipantShareDto.t -> ParticipantShareDto.t) : list ParticipantShareDto.t :=
  match shares, i with
  | [], _ => []
  | share :: rest, O => f share :: rest
  | share :: rest, S i' => share :: replaceAt rest i' f
  end.

(** Apply rounding adjustment to ensure total matches exactly: adjusts
    the participant with the largest share. *)
Definition applyRoundingAdjustment (shares : list ParticipantShareDto.t)
  (adjustment : Q) : list ParticipantShareDto.t :=
  match shares with
  | [] => shares
  | first :: _ =>
      if Js.lt (Js.Math_abs adjustment) (1 # 1000) then shares
      else
        let maxIndex := findMaxIndex shares 0 0 (ParticipantShareDto.total first) in
        replaceAt shares maxIndex
          (fun share =>
             ParticipantShareDto.with_total share
               (round (ParticipantShareDto.total share - adjustment)))
  end.

(** The [switch (dto.splitType)] of [calculateSplit]. *)
Definition strategyShares (dto : CalculateSplitDto.t) : list ParticipantShareDto.t :=
  match splitType dto with
  | EQUAL => calculateEqualSplit dto
  | ITEMIZED => calculateItemizedSplit dto
  | PERCENTAGE => calculatePercentageSplit dto
  | CUSTOM => calculateCustomSplit dto
  end.

(** [dto.subtotal + (dto.tax || 0) + (dto.tip || 0)] *)
Definition expectedTotal (dto : CalculateSplitDto.t) : Q :=
  subtotal dto + Js.or_num (tax dto) 0 + Js.or_num (tip dto) 0.

(** [round(calculatedTotal - expectedTotal)] on the strategy's shares. *)
Definition roundingAdjustmentOf (dto : CalculateSplitDto.t) : Q :=
  let calculatedTotal := reduce_sum ParticipantShareDto.total (strategyShares dto) in
  round (calculatedTotal - expectedTotal dto).

(** The shares after the reconciliation step of [calculateSplit]. *)
Definition reconciledShares (dto : CalculateSplitDto.t) : list ParticipantShareDto.t :=
  let shares := strategyShares dto in
  let roundingAdjustment := roundingAdjustmentOf dto in
  if Js.gt (Js.Math_abs roundingAdjustment) (1 # 1000)
  then applyRoundingAdjustment shares roundingAdjustment
  else shares.

(** Main entry point for split calculation. *)
Definition calculateSplit (dto : CalculateSplitDto.t)
  : outcome SplitCalculationResultDto.t :=
  SplitValidator.validate dto ;;
  let roundingAdjustment := roundingAdjustmentOf dto in
  let shares := reconciledShares dto in
  let finalTotal := reduce_sum ParticipantShareDto.total shares in
  SplitValidator.validateResult dto finalTotal roundingAdjustment ;;
  Returns
    {| SplitCalculationResultDto.splitType := splitType dto;
       SplitCalculationResultDto.originalSubtotal := subtotal dto;
       SplitCalculationResultDto.originalTax := Js.or_num (tax dto) 0;
       SplitCalculationResultDto.originalTip := Js.or_num (tip dto) 0;
       SplitCalculationResultDto.grandTotal := round (expectedTotal dto);
       SplitCalculationResultDto.shares := shares;
       SplitCalculationResultDto.roundingAdjustment := roundingAdjustment |}.

End SplitCalculationService.
Import SplitCalculationService.

(** ** Vocabulary of the properties *)


(** [{ ...share, total: round(share.total - adjustment) }] *)
Definition adjusted (adjustment : Q) (share : ParticipantShareDto.t) : ParticipantShareDto.t :=
  ParticipantShareDto.with_total share
    (round (ParticipantShareDto.total share - adjustment)).

(** The tip-distribution mode in force for a request: the caller's choice
    or, when the request omits it, Equal for an Equal split and
    Proportional for the other three strategies. *)
Definition effectiveTipDistribution (dto : CalculateSplitDto.t) : TipDistributionType.t :=
  match CalculateSplitDto.tipDistribution dto with
  | Some mode => mode
  | None =>
      match CalculateSplitDto.splitType dto with
      | EQUAL => TipDistributionType.EQUAL
      | ITEMIZED | PERCENTAGE | CUSTOM => TipDistributionType.PROPORTIONAL
      end
  end.

(** How every strategy builds a share from the participant's subtotal. *)
Definition builtFrom (dto : CalculateSplitDto.t) (s : ParticipantShareDto.t) : Prop :=
  In (ParticipantShareDto.participantId s) (CalculateSplitDto.participantIds dto) /\
  (exists v, ParticipantShareDto.subtotal s = round v) /\
  ParticipantShareDto.tax s
  = distributeTax (ParticipantShareDto.subtotal s) (CalculateSplitDto.subtotal dto) (Js.or_num (CalculateSplitDto.tax dto) 0) /\
  ParticipantShareDto.tip s
  = distributeTip (ParticipantShareDto.subtotal s) (CalculateSplitDto.subtotal dto) (Js.or_num (CalculateSplitDto.tip dto) 0)
      (effectiveTipDistribution dto) (Js.length_num (CalculateSplitDto.participantIds dto)) /\
  ParticipantShareDto.total s
  = round (ParticipantShareDto.subtotal s + ParticipantShareDto.tax s
           + ParticipantShareDto.tip s).


(** The percentage payload of a request ([dto.percentages || []]). *)
Definition percentageEntries (dto : CalculateSplitDto.t) : list PercentageSplitDto.t :=
  Js.or_else (CalculateSplitDto.percentages dto) [].

Definition throws {A : Type} (c : outcome A) : Prop := exists e, c = Throws e.

(** The entries of [percentageMap] once every entry has been accepted. *)
Definition percentageMapOf (entries : list PercentageSplitDto.t) : Js.Map.t Q :=
  map (fun e => (PercentageSplitDto.participantId e, PercentageSplitDto.percentage e)) entries.

(** ** Concrete requests *)

Module Requests.
Local Open Scope string_scope.

(** Equal split of 100 + 10 + 15 between two (scenario 1). *)
Definition twoWay : CalculateSplitDto.t :=
  CalculateSplitDto.mk EQUAL 100 (Some 10) (Some 15) None ["u1"; "u2"] None None None.

(** A 60/40 percentage split (scenario 4). *)
Definition sixtyForty : CalculateSplitDto.t :=
  CalculateSplitDto.mk PERCENTAGE 100 (Some 10) (Some 20) None ["u1"; "u2"] None
    (Some [PercentageSplitDto.mk "u1" 60; PercentageSplitDto.mk "u2" 40]) None.

(** [sixtyForty] that also carries an [items] array. *)
Definition sixtyFortyWithItems : CalculateSplitDto.t :=
  CalculateSplitDto.mk PERCENTAGE 100 (Some 10) (Some 20) None ["u1"; "u2"]
    (Some [ItemDto.mk "A" 100 ["u1"]])
    (Some [PercentageSplitDto.mk "u1" 60; PercentageSplitDto.mk "u2" 40]) None.

(** Itemized: A = 30 for u1, B = 20 for u2, and u3 on no item. *)
Definition itemized : CalculateSplitDto.t :=
  CalculateSplitDto.mk ITEMIZED 50 (Some 5) (Some 10) None ["u1"; "u2"; "u3"]
    (Some [ItemDto.mk "A" 30 ["u1"]; ItemDto.mk "B" 20 ["u2"]]) None None.
End Requests.

(** ** Vocabulary of the validator's and the strategies' properties *)

(** What [validateBasicRequirements] asks of a request. *)
Definition basicOk (dto : CalculateSplitDto.t) : Prop :=
  CalculateSplitDto.participantIds dto <> [] /\
  NoDup (CalculateSplitDto.participantIds dto) /\
  0 <= CalculateSplitDto.subtotal dto /\
  (forall t, CalculateSplitDto.tax dto = Some t -> 0 <= t) /\
  (forall t, CalculateSplitDto.tip dto = Some t -> 0 <= t) /\
  0 < expectedTotal dto.

(** What [validateItemizedSplit] asks of one item. *)
Definition itemOk (dto : CalculateSplitDto.t) (item : ItemDto.t) : Prop :=
  Js.trim_is_empty (ItemDto.name item) = false /\
  0 <= ItemDto.price item /\
  ItemDto.participantIds item <> [] /\
  (forall p, In p (ItemDto.participantIds item) ->
             In p (CalculateSplitDto.participantIds dto)) /\
  NoDup (ItemDto.participantIds item).

(** A payload that the request's split type does not take is present. *)
Definition unrelatedPayload (dto : CalculateSplitDto.t) : Prop :=
  match CalculateSplitDto.splitType dto with
  | EQUAL =>
      CalculateSplitDto.items dto <> None \/ CalculateSplitDto.percentages dto <> None
      \/ CalculateSplitDto.customAmounts dto <> None
  | ITEMIZED =>
      CalculateSplitDto.percentages dto <> None \/ CalculateSplitDto.customAmounts dto <> None
  | PERCENTAGE =>
      CalculateSplitDto.items dto <> None \/ CalculateSplitDto.customAmounts dto <> None
  | CUSTOM =>
      CalculateSplitDto.items dto <> None \/ CalculateSplitDto.percentages dto <> None
  end.

(** The payload of the request's own split type is absent or empty. *)
Definition missingPayload (dto : CalculateSplitDto.t) : Prop :=
  match CalculateSplitDto.splitType dto with
  | EQUAL => False
  | ITEMIZED =>
      CalculateSplitDto.items dto = None \/ CalculateSplitDto.items dto = Some []
  | PERCENTAGE =>
      CalculateSplitDto.percentages dto = None \/ CalculateSplitDto.percentages dto = Some []
  | CUSTOM =>
      CalculateSplitDto.customAmounts dto = None
      \/ CalculateSplitDto.customAmounts dto = Some []
  end.

(** The entries of [amountMap] once every entry has been accepted. *)
Definition amountMapOf (entries : list CustomSplitDto.t) : Js.Map.t Q :=
  map (fun e => (CustomSplitDto.participantId e, CustomSplitDto.amount e)) entries.

(** The part of an item's price that falls on a participant: the price
    split evenly over the item's participants, nothing for the others. *)
Definition itemShareOf (item : ItemDto.t) (id : string) : Q :=
  if Js.includes (ItemDto.participantIds item) id
  then ItemDto.price item / Js.length_num (ItemDto.participantIds item)
  else 0.

(** The unrounded subtotal of a participant of an itemized bill. *)
Definition owedFor (items : list ItemDto.t) (id : string) : Q :=
  reduce_sum (fun item => itemShareOf item id) items.

(** The names of the items a participant takes part in, in bill order. *)
Definition itemNamesFor (items : list ItemDto.t) (id : string) : list string :=
  map ItemDto.name (filter (fun item => Js.includes (ItemDto.participantIds item) id) items).

(** The two maps hold, for every request participant, the amount owed
    for the items seen so far and the names of those items. *)
Definition tracks (ids : list string) (a : itemized_maps) (seen : list ItemDto.t) : Prop :=
  forall id, In id ids ->
    (exists v, Js.Map.get (fst a) id = Some v /\ v == owedFor seen id) /\
    Js.Map.get (snd a) id = Some (itemNamesFor seen id).

Module MoreRequests.
Local Open Scope string_scope.

(** An equal split that names no participant. *)
Definition nobody : CalculateSplitDto.t :=
  CalculateSplitDto.mk EQUAL 100 None None None [] None None None.
End MoreRequests.

(** The share [calculateEqualSplit] builds for one participant (the body
    of its [map] callback). *)
Definition equalShareOf (dto : CalculateSplitDto.t) (participantId : string)
  : ParticipantShareDto.t :=
  let participantCount := Js.length_num (CalculateSplitDto.participantIds dto) in
  let subtotalPerPerson := CalculateSplitDto.subtotal dto / participantCount in
  let subtotal := round subtotalPerPerson in
  let tax := distributeTax subtotal (CalculateSplitDto.subtotal dto)
               (Js.or_num (CalculateSplitDto.tax dto) 0) in
  let tip := distributeTip subtotal (CalculateSplitDto.subtotal dto)
               (Js.or_num (CalculateSplitDto.tip dto) 0)
               (Js.or_else (CalculateSplitDto.tipDistribution dto) TipDistributionType.EQUAL)
               participantCount in
  let total := round (subtotal + tax + tip) in
  ParticipantShareDto.mk participantId subtotal tax tip total None.

(** * The engine on IEEE 754 doubles

    The second embedding follows the same source line by line, with a
    JavaScript [number] as a binary64 floating-point number: [+], [-], [*]
    and [/] round to the nearest double (ties to even), comparisons follow
    IEEE 754 (every comparison with NaN is false, [0 === -0]), and
    [Math.round] is applied to the double it is given.  A decimal literal
    such as [0.01] denotes the double nearest to it.  Every property whose
    statement depends on a computed amount is stated over this
    embedding. *)

#[local] Set Warnings "-inexact-float".

(** ** Numbers *)

Module Double.
Local Open Scope float_scope.

Definition number : Type := float.

(** The double nearest to an integer; the integer itself when its
    magnitude is at most [2^53]. *)
Definition of_Z (z : Z) : number := SF2Prim (binary_normalize prec emax z 0 false).

(** [+0] or [-0]. *)
Definition signed_zero (negative : bool) : number :=
  if negative then PrimFloat.neg_zero else PrimFloat.zero.

(** A finite double other than zero is [numerator s m * 2^e] for the
    sign [s], mantissa [m] and exponent [e] given by [Prim2SF]. *)
Definition numerator (s : bool) (m : positive) : Z :=
  if s then Z.neg m else Z.pos m.

(** [floor(n * 2^e + 1/2)] for [e < 0]. *)
Definition nearest_ties_up (n e : Z) : Z := ((2 * n + 2 ^ (- e)) / 2 ^ (1 - e))%Z.

(** [Math.round(x)]: the integer nearest to [x]; of two equally near
    integers the one closer to plus infinity; [-0] for [-0.5 <= x < 0];
    NaN, the infinities, the zeros and the integers (every double of
    magnitude [2^52] or more is one) are returned as they are. *)
Definition Math_round (x : number) : number :=
  match Prim2SF x with
  | S754_finite s m e =>
      if (0 <=? e)%Z then x
      else
        let z := nearest_ties_up (numerator s m) e in
        if (z =? 0)%Z then signed_zero s else of_Z z
  | _ => x
  end.

(** [Math.floor(x)] *)
Definition Math_floor (x : number) : number :=
  match Prim2SF x with
  | S754_finite s m e =>
      if (0 <=? e)%Z then x
      else
        let z := (numerator s m / 2 ^ (- e))%Z in
        if (z =? 0)%Z then PrimFloat.zero else of_Z z
  | _ => x
  end.

(** [Math.sign(x)] *)
Definition Math_sign (x : number) : number :=
  if x <? 0 then -1 else if 0 <? x then 1 else x.

Definition Math_abs (x : number) : number := PrimFloat.abs x.

(** [x < y], [x > y], [x <= y], [x === y] on numbers. *)
Definition lt (x y : number) : bool := x <? y.
Definition gt (x y : number) : bool := y <? x.
Definition le (x y : number) : bool := x <=? y.
Definition strict_eq (x y : number) : bool := x =? y.

(** A number is falsy when it is [0], [-0] or NaN. *)
Definition falsy (v : number) : bool := (v =? 0) || PrimFloat.is_nan v.

(** [x || d] on an optional number. *)
Definition or_num (x : option number) (d : number) : number :=
  match x with
  | Some v => if falsy v then d else v
  | None => d
  end.

(** [arr.length] as a number. *)
Definition length_num {A : Type} (l : list A) : number :=
  of_Z (Z.of_nat (List.length l)).
End Double.

(** ** DTOs, validator and service *)

Module Ieee.
Local Open Scope float_scope.

Module ItemDto.
Record t : Type := mk
  { name : string;
    price : float;
    participantIds : list string }.
End ItemDto.

Module PercentageSplitDto.
Record t : Type := mk
  { participantId : string;
    percentage : float }.
End PercentageSplitDto.

Module CustomSplitDto.
Record t : Type := mk
  { participantId : string;
    amount : float }.
End CustomSplitDto.

Module CalculateSplitDto.
Record t : Type := mk
  { splitType : SplitType;
    subtotal : float;
    tax : option float;
    tip : option float;
    tipDistribution : option TipDistributionType.t;
    participantIds : list string;
    items : option (list ItemDto.t);
    percentages : option (list PercentageSplitDto.t);
    customAmounts : option (list CustomSplitDto.t) }.

(** The same request with another [participantIds] array. *)
Definition with_participantIds (dto : t) (ids : list string) : t :=
  {| splitType := splitType dto;
     subtotal := subtotal dto;
     tax := tax dto;
     tip := tip dto;
     tipDistribution := tipDistribution dto;
     participantIds := ids;
     items := items dto;
     percentages := percentages dto;
     customAmounts := customAmounts dto |}.
End CalculateSplitDto.

Module ParticipantShareDto.
Record t : Type := mk
  { participantId : string;
    subtotal : float;
    tax : float;
    tip : float;
    total : float;
    items : option (list string) }.

(** [{ ...share, total: v }] *)
Definition with_total (share : t) (v : float) : t :=
  {| participantId := participantId share;
     subtotal := subtotal share;
     tax := tax share;
     tip := tip share;
     total := v;
     items := items share |}.
End ParticipantShareDto.

Module SplitCalculationResultDto.
Record t : Type := mk
  { splitType : SplitType;
    originalSubtotal : float;
    originalTax : float;
    originalTip : float;
    grandTotal : float;
    shares : list ParticipantShareDto.t;
    roundingAdjustment : float }.
End SplitCalculationResultDto.

(** *** Exceptions

    One constructor per [throw new BadRequestException(...)] of the
    validator, carrying the values its message interpolates. *)

Inductive BadRequestException : Type :=
| AtLeastOneParticipantRequired
| DuplicateParticipantIds
| SubtotalNegative
| TaxNegative
| TipNegative
| TotalMustBeGreaterThanZero
| EqualSplitExtraPayload
| ItemizedRequiresItem
| ItemizedExtraPayload
| ItemMustHaveName (index : nat)
| ItemInvalidPrice (name : string) (price : float)
| ItemWithoutParticipant (name : string)
| ItemForeignParticipant (name participantId : string)
| ItemDuplicateParticipants (name : string)
| ItemsSumMismatch (itemsTotal subtotal : float)
| PercentageRequiresConfiguration
| PercentageExtraPayload
| PercentageForeignParticipant (participantId : string)
| PercentageDuplicateEntry (participantId : string)
| PercentageOutOfRange (percentage : float) (participantId : string)
| PercentageTotalMismatch (totalPercentage : float)
| PercentageMissing (participantId : string)
| CustomRequiresConfiguration
| CustomExtraPayload
| CustomForeignParticipant (participantId : string)
| CustomDuplicateEntry (participantId : string)
| CustomNegativeAmount (amount : float) (participantId : string)
| CustomSumMismatch (totalCustom subtotal : float)
| CustomMissing (participantId : string)
| CalculatedTotalMismatch (calculatedTotal expectedTotal : float)
| RoundingAdjustmentExceedsThreshold (roundingAdjustment : float).

(** A call either returns a value or throws. *)
Inductive outcome (A : Type) : Type :=
| Returns (a : A)
| Throws (e : BadRequestException).
Arguments Returns {A} a.
Arguments Throws {A} e.

Definition bind {A B : Type} (c : outcome A) (k : A -> outcome B) : outcome B :=
  match c with
  | Returns a => k a
  | Throws e => Throws e
  end.

Declare Scope ieee_outcome_scope.
Delimit Scope ieee_outcome_scope with ieee_outcome.
Notation "x <- c ;; k" := (bind c (fun x => k))
  (at level 61, c at next level, right associativity) : ieee_outcome_scope.
Notation "c ;; k" := (bind c (fun _ => k))
  (at level 61, right associativity) : ieee_outcome_scope.
Local Open Scope ieee_outcome_scope.

(** [if (b) throw e;] *)
Definition throw_if (b : bool) (e : BadRequestException) : outcome unit :=
  if b then Throws e else Returns tt.

(** [arr.forEach((x, index) => ...)] with a body that may throw. *)
Fixpoint forEach_from {A : Type} (f : A -> nat -> outcome unit) (l : list A)
  (index : nat) : outcome unit :=
  match l with
  | [] => Returns tt
  | x :: r => f x index ;; forEach_from f r (S index)
  end.

Definition forEach {A : Type} (f : A -> outcome unit) (l : list A) : outcome unit :=
  forEach_from (fun x _ => f x) l 0%nat.

(** [arr.forEach] whose body updates a local of type [S] and may throw. *)
Fixpoint forEach_state {A S : Type} (f : S -> A -> outcome S) (l : list A)
  (s : S) : outcome S :=
  match l with
  | [] => Returns s
  | x :: r => s' <- f s x ;; forEach_state f r s'
  end.

(** [arr.reduce((sum, x) => sum + f(x), 0)] *)
Definition reduce_sum {A : Type} (f : A -> float) (l : list A) : float :=
  fold_left (fun sum x => sum + f x) l 0.

(** *** split.validator.ts *)

Module SplitValidator.
Import CalculateSplitDto.

(** Validates basic requirements common to all split types. *)
Definition validateBasicRequirements (dto : CalculateSplitDto.t) : outcome unit :=
  throw_if (List.length (participantIds dto) =? 0)%nat
    AtLeastOneParticipantRequired ;;
  throw_if (negb (Js.Set_size (participantIds dto) =? List.length (participantIds dto))%nat)
    DuplicateParticipantIds ;;
  throw_if (Double.lt (subtotal dto) 0) SubtotalNegative ;;
  throw_if (match tax dto with Some t => Double.lt t 0 | None => false end)
    TaxNegative ;;
  throw_if (match tip dto with Some t => Double.lt t 0 | None => false end)
    TipNegative ;;
  let total := subtotal dto + Double.or_num (tax dto) 0 + Double.or_num (tip dto) 0 in
  throw_if (Double.le total 0 && (0 <? List.length (participantIds dto))%nat)
    TotalMustBeGreaterThanZero.

(** Validates equal split requirements. *)
Definition validateEqualSplit (dto : CalculateSplitDto.t) : outcome unit :=
  throw_if (Js.truthy (items dto) || Js.truthy (percentages dto)
            || Js.truthy (customAmounts dto))
    EqualSplitExtraPayload.

(** The body of [dto.items.forEach((item, index) => ...)]. *)
Definition validateItem (dto : CalculateSplitDto.t) (item : ItemDto.t)
  (index : nat) : outcome unit :=
  throw_if (Js.trim_is_empty (ItemDto.name item)) (ItemMustHaveName index) ;;
  throw_if (Double.lt (ItemDto.price item) 0)
    (ItemInvalidPrice (ItemDto.name item) (ItemDto.price item)) ;;
  throw_if (List.length (ItemDto.participantIds item) =? 0)%nat
    (ItemWithoutParticipant (ItemDto.name item)) ;;
  forEach
    (fun participantId =>
       throw_if (negb (Js.includes (participantIds dto) participantId))
         (ItemForeignParticipant (ItemDto.name item) participantId))
    (ItemDto.participantIds item) ;;
  throw_if (negb (Js.Set_size (ItemDto.participantIds item)
                  =? List.length (ItemDto.participantIds item))%nat)
    (ItemDuplicateParticipants (ItemDto.name item)).

(** Validates itemized split requirements. *)
Definition validateItemizedSplit (dto : CalculateSplitDto.t) : outcome unit :=
  match items dto with
  | None => Throws ItemizedRequiresItem
  | Some its =>
      throw_if (List.length its =? 0)%nat ItemizedRequiresItem ;;
      throw_if (Js.truthy (percentages dto) || Js.truthy (customAmounts dto))
        ItemizedExtraPayload ;;
      forEach_from (validateItem dto) its 0%nat ;;
      let itemsTotal := reduce_sum ItemDto.price its in
      let tolerance := 0.01 in
      throw_if (Double.gt (Double.Math_abs (itemsTotal - subtotal dto)) tolerance)
        (ItemsSumMismatch itemsTotal (subtotal dto))
  end.

(** The body of [dto.percentages.forEach((pct) => ...)], which fills
    [percentageMap]. *)
Definition validatePercentageEntry (dto : CalculateSplitDto.t)
  (percentageMap : Js.Map.t float) (pct : PercentageSplitDto.t)
  : outcome (Js.Map.t float) :=
  let participantId := PercentageSplitDto.participantId pct in
  let percentage := PercentageSplitDto.percentage pct in
  throw_if (negb (Js.includes (participantIds dto) participantId))
    (PercentageForeignParticipant participantId) ;;
  throw_if (Js.Map.has percentageMap participantId)
    (PercentageDuplicateEntry participantId) ;;
  throw_if (Double.lt percentage 0 || Double.gt percentage 100)
    (PercentageOutOfRange percentage participantId) ;;
  Returns (Js.Map.set percentageMap participantId percentage).

(** Validates percentage split requirements. *)
Definition validatePercentageSplit (dto : CalculateSplitDto.t) : outcome unit :=
  match percentages dto with
  | None => Throws PercentageRequiresConfiguration
  | Some pcts =>
      throw_if (List.length pcts =? 0)%nat PercentageRequiresConfiguration ;;
      throw_if (Js.truthy (items dto) || Js.truthy (customAmounts dto))
        PercentageExtraPayload ;;
      percentageMap <- forEach_state (validatePercentageEntry dto) pcts Js.Map.empty ;;
      let totalPercentage := reduce_sum (fun pct => pct) (Js.Map.values percentageMap) in
      let tolerance := 0.01 in
      throw_if (Double.gt (Double.Math_abs (totalPercentage - 100)) tolerance)
        (PercentageTotalMismatch totalPercentage) ;;
      forEach
        (fun participantId =>
           throw_if (negb (Js.Map.has percentageMap participantId))
             (PercentageMissing participantId))
        (participantIds dto)
  end.

(** The body of [dto.customAmounts.forEach((custom) => ...)], which fills
    [amountMap]. *)
Definition validateCustomEntry (dto : CalculateSplitDto.t)
  (amountMap : Js.Map.t float) (custom : CustomSplitDto.t)
  : outcome (Js.Map.t float) :=
  let participantId := CustomSplitDto.participantId custom in
  let amount := CustomSplitDto.amount custom in
  throw_if (negb (Js.includes (participantIds dto) participantId))
    (CustomForeignParticipant participantId) ;;
  throw_if (Js.Map.has amountMap participantId)
    (CustomDuplicateEntry participantId) ;;
  throw_if (Double.lt amount 0) (CustomNegativeAmount amount participantId) ;;
  Returns (Js.Map.set amountMap participantId amount).

(** Validates custom split requirements. *)
Definition validateCustomSplit (dto : CalculateSplitDto.t) : outcome unit :=
  match customAmounts dto with
  | None => Throws CustomRequiresConfiguration
  | Some customs =>
      throw_if (List.length customs =? 0)%nat CustomRequiresConfiguration ;;
      throw_if (Js.truthy (items dto) || Js.truthy (percentages dto))
        CustomExtraPayload ;;
      amountMap <- forEach_state (validateCustomEntry dto) customs Js.Map.empty ;;
      let totalCustom := reduce_sum (fun amt => amt) (Js.Map.values amountMap) in
      let tolerance := 0.01 in
      throw_if (Double.gt (Double.Math_abs (totalCustom - subtotal dto)) tolerance)
        (CustomSumMismatch totalCustom (subtotal dto)) ;;
      forEach
        (fun participantId =>
           throw_if (negb (Js.Map.has amountMap participantId))
             (CustomMissing participantId))
        (participantIds dto)
  end.

(** Main validation method: the basic requirements, then the checks of
    the declared split type. *)
Definition validate (dto : CalculateSplitDto.t) : outcome unit :=
  validateBasicRequirements dto ;;
  match splitType dto with
  | EQUAL => validateEqualSplit dto
  | ITEMIZED => validateItemizedSplit dto
  | PERCENTAGE => validatePercentageSplit dto
  | CUSTOM => validateCustomSplit dto
  end.

(** Validates the result: totals match and the rounding adjustment stays
    within one cent per participant. *)
Definition validateResult (dto : CalculateSplitDto.t)
  (calculatedTotal roundingAdjustment : float) : outcome unit :=
  let expectedTotal := subtotal dto + Double.or_num (tax dto) 0 + Double.or_num (tip dto) 0 in
  let tolerance := 0.01 in
  throw_if (Double.gt (Double.Math_abs (calculatedTotal - expectedTotal)) tolerance)
    (CalculatedTotalMismatch calculatedTotal expectedTotal) ;;
  let maxAdjustment := Double.length_num (participantIds dto) * 0.01 in
  throw_if (Double.gt (Double.Math_abs roundingAdjustment) maxAdjustment)
    (RoundingAdjustmentExceedsThreshold roundingAdjustment).

End SplitValidator.

(** *** split-calculation.service.ts *)

Module SplitCalculationService.
Import CalculateSplitDto.

(** Round to 2 decimal places: [Math.round(value * 100) / 100]. *)
Definition round (value : float) : float := Double.Math_round (value * 100) / 100.

(** Distribute tax proportionally based on subtotal share. *)
Definition distributeTax (participantSubtotal totalSubtotal totalTax : float) : float :=
  if Double.strict_eq totalTax 0 || Double.strict_eq totalSubtotal 0 then 0
  else
    let proportion := participantSubtotal / totalSubtotal in
    round (totalTax * proportion).

(** Distribute tip either equally or proportionally. *)
Definition distributeTip (participantSubtotal totalSubtotal totalTip : float)
  (distribution : TipDistributionType.t) (participantCount : float) : float :=
  if Double.strict_eq totalTip 0 then 0
  else if TipDistributionType.eqb distribution TipDistributionType.EQUAL then
    round (totalTip / participantCount)
  else if Double.strict_eq totalSubtotal 0 then
    round (totalTip / participantCount)
  else
    let proportion := participantSubtotal / totalSubtotal in
    round (totalTip * proportion).

(** Calculate equal split - divide everything evenly. *)
Definition calculateEqualSplit (dto : CalculateSplitDto.t)
  : list ParticipantShareDto.t :=
  let participantCount := Double.length_num (participantIds dto) in
  let subtotalPerPerson := subtotal dto / participantCount in
  map
    (fun participantId =>
       let subtotal := round subtotalPerPerson in
       let tax := distributeTax subtotal (CalculateSplitDto.subtotal dto)
                    (Double.or_num (CalculateSplitDto.tax dto) 0) in
       let tip := distributeTip subtotal (CalculateSplitDto.subtotal dto)
                    (Double.or_num (CalculateSplitDto.tip dto) 0)
                    (Js.or_else (tipDistribution dto) TipDistributionType.EQUAL)
                    participantCount in
       let total := round (subtotal + tax + tip) in
       ParticipantShareDto.mk participantId subtotal tax tip total None)
    (participantIds dto).

(** The two maps of [calculateItemizedSplit]. *)
Definition itemized_maps : Type := (Js.Map.t float * Js.Map.t (list string))%type.

(** The body of [dto.participantIds.forEach((id) => ...)]:
    [participantSubtotals.set(id, 0); participantItems.set(id, [])]. *)
Definition initializeParticipant (maps : itemized_maps) (id : string) : itemized_maps :=
  let (participantSubtotals, participantItems) := maps in
  (Js.Map.set participantSubtotals id 0, Js.Map.set participantItems id []).

(** Initialize all participants. *)
Definition initializeParticipants (ids : list string) : itemized_maps :=
  fold_left initializeParticipant ids (Js.Map.empty, Js.Map.empty).

(** The body of [item.participantIds.forEach((participantId) => ...)]:
    the share added to the participant's running subtotal, the item's
    name pushed on the participant's list. *)
Definition addItemShare (item : ItemDto.t) (sharePerPerson : float)
  (maps : itemized_maps) (participantId : string) : itemized_maps :=
  let (participantSubtotals, participantItems) := maps in
  let currentSubtotal := Double.or_num (Js.Map.get participantSubtotals participantId) 0 in
  let currentItems := Js.or_else (Js.Map.get participantItems participantId) [] in
  (Js.Map.set participantSubtotals participantId (currentSubtotal + sharePerPerson),
   Js.Map.set participantItems participantId (currentItems ++ [ItemDto.name item])).

(** The body of [items.forEach((item) => ...)]: the item's price split
    evenly over its participants. *)
Definition distributeItem (maps : itemized_maps) (item : ItemDto.t) : itemized_maps :=
  let sharePerPerson := ItemDto.price item / Double.length_num (ItemDto.participantIds item) in
  fold_left (addItemShare item sharePerPerson) (ItemDto.participantIds item) maps.

(** Calculate itemized split - each person pays for their items. *)
Definition calculateItemizedSplit (dto : CalculateSplitDto.t)
  : list ParticipantShareDto.t :=
  let items := Js.or_else (CalculateSplitDto.items dto) [] in
  let (participantSubtotals, participantItems) :=
    fold_left distributeItem items (initializeParticipants (participantIds dto)) in
  map
    (fun participantId =>
       let subtotal := round (Double.or_num (Js.Map.get participantSubtotals participantId) 0) in
       let tax := distributeTax subtotal (CalculateSplitDto.subtotal dto)
                    (Double.or_num (CalculateSplitDto.tax dto) 0) in
       let tip := distributeTip subtotal (CalculateSplitDto.subtotal dto)
                    (Double.or_num (CalculateSplitDto.tip dto) 0)
                    (Js.or_else (tipDistribution dto) TipDistributionType.PROPORTIONAL)
                    (Double.length_num (participantIds dto)) in
       let total := round (subtotal + tax + tip) in
       ParticipantShareDto.mk participantId subtotal tax tip total
         (Some (Js.or_else (Js.Map.get participantItems participantId) [])))
    (participantIds dto).

(** Calculate percentage split - each person pays a specified percentage. *)
Definition calculatePercentageSplit (dto : CalculateSplitDto.t)
  : list ParticipantShareDto.t :=
  let percentages := Js.or_else (CalculateSplitDto.percentages dto) [] in
  let percentageMap :=
    fold_left
      (fun m pct => Js.Map.set m (PercentageSplitDto.participantId pct)
                      (PercentageSplitDto.percentage pct))
      percentages Js.Map.empty in
  map
    (fun participantId =>
       let percentage := Double.or_num (Js.Map.get percentageMap participantId) 0 in
       let subtotal := round ((CalculateSplitDto.subtotal dto * percentage) / 100) in
       let tax := distributeTax subtotal (CalculateSplitDto.subtotal dto)
                    (Double.or_num (CalculateSplitDto.tax dto) 0) in
       let tip := distributeTip subtotal (CalculateSplitDto.subtotal dto)
                    (Double.or_num (CalculateSplitDto.tip dto) 0)
                    (Js.or_else (tipDistribution dto) TipDistributionType.PROPORTIONAL)
                    (Double.length_num (participantIds dto)) in
       let total := round (subtotal + tax + tip) in
       ParticipantShareDto.mk participantId subtotal tax tip total None)
    (participantIds dto).

(** Calculate custom split - each person pays a specified amount. *)
Definition calculateCustomSplit (dto : CalculateSplitDto.t)
  : list ParticipantShareDto.t :=
  let customAmounts := Js.or_else (CalculateSplitDto.customAmounts dto) [] in
  let amountMap :=
    fold_left
      (fun m custom => Js.Map.set m (CustomSplitDto.participantId custom)
                         (CustomSplitDto.amount custom))
      customAmounts Js.Map.empty in
  map
    (fun participantId =>
       let subtotal := round (Double.or_num (Js.Map.get amountMap participantId) 0) in
       let tax := distributeTax subtotal (CalculateSplitDto.subtotal dto)
                    (Double.or_num (CalculateSplitDto.tax dto) 0) in
       let tip := distributeTip subtotal (CalculateSplitDto.subtotal dto)
                    (Double.or_num (CalculateSplitDto.tip dto) 0)
                    (Js.or_else (tipDistribution dto) TipDistributionType.PROPORTIONAL)
                    (Double.length_num (participantIds dto)) in
       let total := round (subtotal + tax + tip) in
       ParticipantShareDto.mk participantId subtotal tax tip total None)
    (participantIds dto).

(** The loop [shares.forEach((share, index) => { if (share.total > maxTotal)
    { maxTotal = share.total; maxIndex = index; } })]; returns the final
    [maxIndex]. *)
Fixpoint findMaxIndex (shares : list ParticipantShareDto.t) (index : nat)
  (maxIndex : nat) (maxTotal : float) : nat :=
  match shares with
  | [] => maxIndex
  | share :: rest =>
      if Double.gt (ParticipantShareDto.total share) maxTotal
      then findMaxIndex rest (S index) index (ParticipantShareDto.total share)
      else findMaxIndex rest (S index) maxIndex maxTotal
  end.

(** [const a = [...shares]; a[i] = f(a[i])] for an index inside the
    array.  Past the end JavaScript would raise a [TypeError] on
    [a[i].total]; the caller only passes the result of [findMaxIndex],
    which is an index of the array ([findMaxIndex_firstLargest]). *)
Fixpoint replaceAt (shares : list ParticipantShareDto.t) (i : nat)
  (f : ParticipantShareDto.t -> ParticipantShareDto.t) : list ParticipantShareDto.t :=
  match shares, i with
  | [], _ => []
  | share :: rest, O => f share :: rest
  | share :: rest, S i' => share :: replaceAt rest i' f
  end.

(** Apply rounding adjustment to ensure total matches exactly: adjusts
    the participant with the largest share. *)
Definition applyRoundingAdjustment (shares : list ParticipantShareDto.t)
  (adjustment : float) : list ParticipantShareDto.t :=
  match shares with
  | [] => shares
  | first :: _ =>
      if Double.lt (Double.Math_abs adjustment) 0.001 then shares
      else
        let maxIndex := findMaxIndex shares 0 0 (ParticipantShareDto.total first) in
        replaceAt shares maxIndex
          (fun share =>
             ParticipantShareDto.with_total share
               (round (ParticipantShareDto.total share - adjustment)))
  end.

(** The [switch (dto.splitType)] of [calculateSplit]. *)
Definition strategyShares (dto : CalculateSplitDto.t) : list ParticipantShareDto.t :=
  match splitType dto with
  | EQUAL => calculateEqualSplit dto
  | ITEMIZED => calculateItemizedSplit dto
  | PERCENTAGE => calculatePercentageSplit dto
  | CUSTOM => calculateCustomSplit dto
  end.

(** [dto.subtotal + (dto.tax || 0) + (dto.tip || 0)] *)
Definition expectedTotal (dto : CalculateSplitDto.t) : float :=
  subtotal dto + Double.or_num (tax dto) 0 + Double.or_num (tip dto) 0.

(** [round(calculatedTotal - expectedTotal)] on the strategy's shares. *)
Definition roundingAdjustmentOf (dto : CalculateSplitDto.t) : float :=
  let calculatedTotal := reduce_sum ParticipantShareDto.total (strategyShares dto) in
  round (calculatedTotal - expectedTotal dto).

(** The shares after the reconciliation step of [calculateSplit]. *)
Definition reconciledShares (dto : CalculateSplitDto.t) : list ParticipantShareDto.t :=
  let shares := strategyShares dto in
  let roundingAdjustment := roundingAdjustmentOf dto in
  if Double.gt (Double.Math_abs roundingAdjustment) 0.001
  then applyRoundingAdjustment shares roundingAdjustment
  else shares.

(** Main entry point for split calculation. *)
Definition calculateSplit (dto : CalculateSplitDto.t)
  : outcome SplitCalculationResultDto.t :=
  SplitValidator.validate dto ;;
  let roundingAdjustment := roundingAdjustmentOf dto in
  let shares := reconciledShares dto in
  let finalTotal := reduce_sum ParticipantShareDto.total shares in
  SplitValidator.validateResult dto finalTotal roundingAdjustment ;;
  Returns
    {| SplitCalculationResultDto.splitType := splitType dto;
       SplitCalculationResultDto.originalSubtotal := subtotal dto;
       SplitCalculationResultDto.originalTax := Double.or_num (tax dto) 0;
       SplitCalculationResultDto.originalTip := Double.or_num (tip dto) 0;
       SplitCalculationResultDto.grandTotal := round (expectedTotal dto);
       SplitCalculationResultDto.shares := shares;
       SplitCalculationResultDto.roundingAdjustment := roundingAdjustment |}.

End SplitCalculationService.

(** *** Vocabulary of the properties *)

Import SplitCalculationService.

(** [{ ...share, total: round(share.total - adjustment) }] *)
Definition adjusted (adjustment : float) (share : ParticipantShareDto.t)
  : ParticipantShareDto.t :=
  ParticipantShareDto.with_total share
    (round (ParticipantShareDto.total share - adjustment)).

(** The tip-distribution mode in force for a request: the caller's
    choice or, when the request omits it, Equal for an Equal split and
    Proportional for the other three strategies. *)
Definition effectiveTipDistribution (dto : CalculateSplitDto.t) : TipDistributionType.t :=
  match CalculateSplitDto.tipDistribution dto with
  | Some mode => mode
  | None =>
      match CalculateSplitDto.splitType dto with
      | EQUAL => TipDistributionType.EQUAL
      | ITEMIZED | PERCENTAGE | CUSTOM => TipDistributionType.PROPORTIONAL
      end
  end.

(** How every strategy builds a share from the participant's subtotal. *)
Definition builtFrom (dto : CalculateSplitDto.t) (s : ParticipantShareDto.t) : Prop :=
  In (ParticipantShareDto.participantId s) (CalculateSplitDto.participantIds dto) /\
  (exists v, ParticipantShareDto.subtotal s = round v) /\
  ParticipantShareDto.tax s
  = distributeTax (ParticipantShareDto.subtotal s) (CalculateSplitDto.subtotal dto)
      (Double.or_num (CalculateSplitDto.tax dto) 0) /\
  ParticipantShareDto.tip s
  = distributeTip (ParticipantShareDto.subtotal s) (CalculateSplitDto.subtotal dto)
      (Double.or_num (CalculateSplitDto.tip dto) 0)
      (effectiveTipDistribution dto)
      (Double.length_num (CalculateSplitDto.participantIds dto)) /\
  ParticipantShareDto.total s
  = round (ParticipantShareDto.subtotal s + ParticipantShareDto.tax s
           + ParticipantShareDto.tip s).

(** [m] is the index of the first share holding the largest total, the
    totals compared as the code compares them: no share has a total
    greater than share [m]'s, and the total of share [m] is less than or
    equal to the total of no share before it. *)
Definition firstLargest (shares : list ParticipantShareDto.t) (m : nat) : Prop :=
  exists sm, nth_error shares m = Some sm /\
    (forall j s, nth_error shares j = Some s ->
                 Double.gt (ParticipantShareDto.total s) (ParticipantShareDto.total sm)
                 = false) /\
    (forall j s, (j < m)%nat -> nth_error shares j = Some s ->
                 Double.le (ParticipantShareDto.total sm) (ParticipantShareDto.total s)
                 = false).

(** The sum [shares.reduce((sum, share) => sum + share.total, 0)]. *)
Definition sumOfTotals (shares : list ParticipantShareDto.t) : float :=
  reduce_sum ParticipantShareDto.total shares.

(** The first test of [validateResult]:
    [Math.abs(calculatedTotal - expectedTotal) > 0.01]. *)
Definition totalMismatch (dto : CalculateSplitDto.t) (calculatedTotal : float) : bool :=
  Double.gt (Double.Math_abs (calculatedTotal - expectedTotal dto)) 0.01.

(** The second test of [validateResult]:
    [Math.abs(roundingAdjustment) > participantIds.length * 0.01]. *)
Definition adjustmentTooLarge (dto : CalculateSplitDto.t) (roundingAdjustment : float)
  : bool :=
  Double.gt (Double.Math_abs roundingAdjustment)
    (Double.length_num (CalculateSplitDto.participantIds dto) * 0.01).

(** The test of [calculateSplit] that starts the reconciliation:
    [Math.abs(roundingAdjustment) > 0.001]. *)
Definition needsReconciliation (roundingAdjustment : float) : bool :=
  Double.gt (Double.Math_abs roundingAdjustment) 0.001.

(** The rounding rule in the specification's words, computed in doubles:
    [Math.sign(v) * Math.floor(Math.abs(v) * 100 + 0.5) / 100]. *)
Definition roundHalfAwayFromZero (v : float) : float :=
  Double.Math_sign v * Double.Math_floor (Double.Math_abs v * 100 + 0.5) / 100.

(** The integer [z] is the one nearest to [n * 2^e] ([e < 0]), the
    greater of the two when [n * 2^e] lies half way between two integers:
    [z - 1/2 <= n * 2^e < z + 1/2], cleared of denominators. *)
Definition nearestTiesUp (n e z : Z) : Prop :=
  ((2 * z - 1) * 2 ^ (- e) <= 2 * n < (2 * z + 1) * 2 ^ (- e))%Z.






(** Two maps that answer every [get] alike (their key order may differ). *)
Definition sameEntries {V : Type} (m1 m2 : Js.Map.t V) : Prop :=
  forall k, Js.Map.get m1 k = Js.Map.get m2 k.

Definition sameMaps (a b : itemized_maps) : Prop :=
  sameEntries (fst a) (fst b) /\ sameEntries (snd a) (snd b).

Definition throws {A : Type} (c : outcome A) : Prop := exists e, c = Throws e.

(** The percentage payload of a request ([dto.percentages || []]). *)
Definition percentageEntries (dto : CalculateSplitDto.t) : list PercentageSplitDto.t :=
  Js.or_else (CalculateSplitDto.percentages dto) [].

(** The five faults of a percentage payload listed by the specification:
    a request participant without entry, an entry for a foreign
    participant, two entries for one participant, a percentage outside
    [0, 100] ([percentage < 0 || percentage > 100]), a sum further than
    0.01 from 100 ([Math.abs(totalPercentage - 100) > 0.01] on the
    double sum of the percentages in payload order). *)
Definition percentageFault (dto : CalculateSplitDto.t) : Prop :=
  let entries := percentageEntries dto in
  let ids := CalculateSplitDto.participantIds dto in
  (exists id, In id ids /\ ~ In id (map PercentageSplitDto.participantId entries)) \/
  (exists e, In e entries /\ ~ In (PercentageSplitDto.participantId e) ids) \/
  ~ NoDup (map PercentageSplitDto.participantId entries) \/
  (exists e, In e entries /\
             (Double.lt (PercentageSplitDto.percentage e) 0 = true \/
              Double.gt (PercentageSplitDto.percentage e) 100 = true)) \/
  Double.gt (Double.Math_abs (reduce_sum PercentageSplitDto.percentage entries - 100)) 0.01
  = true.

(** An unrelated payload is present on a percentage request. *)
Definition foreignPayload (dto : CalculateSplitDto.t) : Prop :=
  CalculateSplitDto.items dto <> None \/ CalculateSplitDto.customAmounts dto <> None.

(** The entries of [percentageMap] once every entry has been accepted. *)
Definition percentageMapOf (entries : list PercentageSplitDto.t) : Js.Map.t float :=
  map (fun e => (PercentageSplitDto.participantId e, PercentageSplitDto.percentage e))
    entries.

(** The entries of [amountMap] once every entry has been accepted. *)
Definition amountMapOf (entries : list CustomSplitDto.t) : Js.Map.t float :=
  map (fun e => (CustomSplitDto.participantId e, CustomSplitDto.amount e)) entries.

(** Two shares that allocate the same participant the same subtotal,
    tax, tip and items (their totals apart). *)
Definition sameAllocation (a b : ParticipantShareDto.t) : Prop :=
  ParticipantShareDto.participantId a = ParticipantShareDto.participantId b /\
  ParticipantShareDto.subtotal a = ParticipantShareDto.subtotal b /\
  ParticipantShareDto.tax a = ParticipantShareDto.tax b /\
  ParticipantShareDto.tip a = ParticipantShareDto.tip b /\
  ParticipantShareDto.items a = ParticipantShareDto.items b.

(** What [validateBasicRequirements] asks of a request: participants,
    none of them twice, and each test of an amount failing
    ([subtotal < 0], [tax < 0], [tip < 0], [total <= 0]). *)
Definition basicOk (dto : CalculateSplitDto.t) : Prop :=
  CalculateSplitDto.participantIds dto <> [] /\
  NoDup (CalculateSplitDto.participantIds dto) /\
  Double.lt (CalculateSplitDto.subtotal dto) 0 = false /\
  (forall t, CalculateSplitDto.tax dto = Some t -> Double.lt t 0 = false) /\
  (forall t, CalculateSplitDto.tip dto = Some t -> Double.lt t 0 = false) /\
  Double.le (expectedTotal dto) 0 = false.

(** What [validateItemizedSplit] asks of one item. *)
Definition itemOk (dto : CalculateSplitDto.t) (item : ItemDto.t) : Prop :=
  Js.trim_is_empty (ItemDto.name item) = false /\
  Double.lt (ItemDto.price item) 0 = false /\
  ItemDto.participantIds item <> [] /\
  (forall p, In p (ItemDto.participantIds item) ->
             In p (CalculateSplitDto.participantIds dto)) /\
  NoDup (ItemDto.participantIds item).

(** The running subtotal of a participant once an item has been
    distributed: [(current || 0) + item.price / item.participantIds.length]
    for a participant of the item, unchanged for the others. *)
Definition withItemShare (id : string) (current : float) (item : ItemDto.t) : float :=
  if Js.includes (ItemDto.participantIds item) id
  then Double.or_num (Some current) 0
       + ItemDto.price item / Double.length_num (ItemDto.participantIds item)
  else current.

(** The unrounded subtotal of a participant of an itemized bill: the
    shares of the participant's items added in bill order, in doubles. *)
Definition owedFor (items : list ItemDto.t) (id : string) : float :=
  fold_left (withItemShare id) items 0.

(** The names of the items a participant takes part in, in bill order. *)
Definition itemNamesFor (items : list ItemDto.t) (id : string) : list string :=
  map ItemDto.name (filter (fun item => Js.includes (ItemDto.participantIds item) id) items).

(** The two maps hold, for every request participant, the amount owed
    for the items seen so far and the names of those items. *)
Definition tracks (ids : list string) (a : itemized_maps) (seen : list ItemDto.t) : Prop :=
  forall id, In id ids ->
    Js.Map.get (fst a) id = Some (owedFor seen id) /\
    Js.Map.get (snd a) id = Some (itemNamesFor seen id).

(** The share [calculateEqualSplit] builds for one participant (the body
    of its [map] callback). *)
Definition equalShareOf (dto : CalculateSplitDto.t) (participantId : string)
  : ParticipantShareDto.t :=
  let participantCount := Double.length_num (CalculateSplitDto.participantIds dto) in
  let subtotalPerPerson := CalculateSplitDto.subtotal dto / participantCount in
  let subtotal := round subtotalPerPerson in
  let tax := distributeTax subtotal (CalculateSplitDto.subtotal dto)
               (Double.or_num (CalculateSplitDto.tax dto) 0) in
  let tip := distributeTip subtotal (CalculateSplitDto.subtotal dto)
               (Double.or_num (CalculateSplitDto.tip dto) 0)
               (Js.or_else (CalculateSplitDto.tipDistribution dto) TipDistributionType.EQUAL)
               participantCount in
  let total := round (subtotal + tax + tip) in
  ParticipantShareDto.mk participantId subtotal tax tip total None.

(** *** Concrete requests *)

Module Requests.
Local Open Scope string_scope.

(** Equal split of a bill that is tax only: subtotal 0, tax 10. *)
Definition taxOnly : CalculateSplitDto.t :=
  CalculateSplitDto.mk EQUAL 0 (Some 10) None None ["u1"; "u2"] None None None.

(** Equal split of 100 among three (scenario 2 of the test suite). *)
Definition threeWay : CalculateSplitDto.t :=
  CalculateSplitDto.mk EQUAL 100 (Some 0) (Some 0) None ["u1"; "u2"; "u3"]
    None None None.

(** [threeWay] with the first two participants swapped. *)
Definition threeWaySwapped : CalculateSplitDto.t :=
  CalculateSplitDto.with_participantIds threeWay ["u2"; "u1"; "u3"].

(** Equal split of 100 + 10 + 15 between two (scenario 1). *)
Definition twoWay : CalculateSplitDto.t :=
  CalculateSplitDto.mk EQUAL 100 (Some 10) (Some 15) None ["u1"; "u2"] None None None.


(** A 60/40 percentage split (scenario 4). *)
Definition sixtyForty : CalculateSplitDto.t :=
  CalculateSplitDto.mk PERCENTAGE 100 (Some 10) (Some 20) None ["u1"; "u2"] None
    (Some [PercentageSplitDto.mk "u1" 60; PercentageSplitDto.mk "u2" 40]) None.

(** [sixtyForty] that also carries an [items] array. *)
Definition sixtyFortyWithItems : CalculateSplitDto.t :=
  CalculateSplitDto.mk PERCENTAGE 100 (Some 10) (Some 20) None ["u1"; "u2"]
    (Some [ItemDto.mk "A" 100 ["u1"]])
    (Some [PercentageSplitDto.mk "u1" 60; PercentageSplitDto.mk "u2" 40]) None.

(** Three percentages of 33.33. *)
Definition thirds : CalculateSplitDto.t :=
  CalculateSplitDto.mk PERCENTAGE 100 None None None ["u1"; "u2"; "u3"] None
    (Some [PercentageSplitDto.mk "u1" 33.33; PercentageSplitDto.mk "u2" 33.33;
           PercentageSplitDto.mk "u3" 33.33])
    None.

(** Itemized: A = 30 for u1, B = 20 for u2, and u3 on no item. *)
Definition itemized : CalculateSplitDto.t :=
  CalculateSplitDto.mk ITEMIZED 50 (Some 5) (Some 10) None ["u1"; "u2"; "u3"]
    (Some [ItemDto.mk "A" 30 ["u1"]; ItemDto.mk "B" 20 ["u2"]]) None None.

(** A shared appetizer and two entrees (a scenario of the test suite). *)
Definition sharedItems : CalculateSplitDto.t :=
  CalculateSplitDto.mk ITEMIZED 60 (Some 0) (Some 0) None ["u1"; "u2"; "u3"]
    (Some [ItemDto.mk "Appetizer" 30 ["u1"; "u2"; "u3"];
           ItemDto.mk "Entree1" 20 ["u1"];
           ItemDto.mk "Entree2" 10 ["u2"]])
    None None.

(** One item of 2.875 shared by five. *)
Definition sharedByFive : CalculateSplitDto.t :=
  CalculateSplitDto.mk ITEMIZED 2.875 None None None ["u1"; "u2"; "u3"; "u4"; "u5"]
    (Some [ItemDto.mk "A" 2.875 ["u1"; "u2"; "u3"; "u4"; "u5"]]) None None.

(** An item whose name is the single character U+2003 (EM SPACE). *)
Definition emSpaceItem : CalculateSplitDto.t :=
  CalculateSplitDto.mk ITEMIZED 1 None None None ["u1"]
    (Some [ItemDto.mk
             (String (ascii_of_nat 226)
                (String (ascii_of_nat 128) (String (ascii_of_nat 131) EmptyString)))
             1 ["u1"]])
    None None.

(** An item of 0.3 on a bill of 0.29. *)
Definition centOffItem : CalculateSplitDto.t :=
  CalculateSplitDto.mk ITEMIZED 0.29 None None None ["u1"]
    (Some [ItemDto.mk "A" 0.3 ["u1"]]) None None.

(** Custom amounts 70 + 30 of 100 + 10 + 15 (a scenario of the test
    suite). *)
Definition seventyThirty : CalculateSplitDto.t :=
  CalculateSplitDto.mk CUSTOM 100 (Some 10) (Some 15) None ["u1"; "u2"] None None
    (Some [CustomSplitDto.mk "u1" 70; CustomSplitDto.mk "u2" 30]).

(** Custom amounts 70 + 29.99 of 100. *)
Definition centOffCustom : CalculateSplitDto.t :=
  CalculateSplitDto.mk CUSTOM 100 None None None ["u1"; "u2"] None None
    (Some [CustomSplitDto.mk "u1" 70; CustomSplitDto.mk "u2" 29.99]).

(** Custom amounts 0.5 + 0.75 of 1.25 with a tip of 0.375, distributed
    proportionally by default. *)
Definition halfCentTip : CalculateSplitDto.t :=
  CalculateSplitDto.mk CUSTOM 1.25 None (Some 0.375) None ["u1"; "u2"] None None
    (Some [CustomSplitDto.mk "u1" 0.5; CustomSplitDto.mk "u2" 0.75]).


(** Custom amounts 6.75, 1.25 and 0.125 of 8.125. *)
Definition eighths : CalculateSplitDto.t :=
  CalculateSplitDto.mk CUSTOM 8.125 None None None ["u0"; "u1"; "u2"] None None
    (Some [CustomSplitDto.mk "u0" 6.75; CustomSplitDto.mk "u1" 1.25;
           CustomSplitDto.mk "u2" 0.125]).

(** [eighths] with the last two participants swapped. *)
Definition eighthsSwapped : CalculateSplitDto.t :=
  CalculateSplitDto.with_participantIds eighths ["u0"; "u2"; "u1"].

(** A custom amount of 1.005. *)
Definition oneAndHalfCent : CalculateSplitDto.t :=
  CalculateSplitDto.mk CUSTOM 1.005 None None None ["u1"] None None
    (Some [CustomSplitDto.mk "u1" 1.005]).

(** 58 % and 42 % of 0.25. *)
Definition fiftyEight : CalculateSplitDto.t :=
  CalculateSplitDto.mk PERCENTAGE 0.25 None None None ["u1"; "u2"] None
    (Some [PercentageSplitDto.mk "u1" 58; PercentageSplitDto.mk "u2" 42]) None.

(** An equal split that names no participant. *)
Definition nobody : CalculateSplitDto.t :=
  CalculateSplitDto.mk EQUAL 100 None None None [] None None None.

(** An equal split of [subtotal], [tax] and [tip] among [ids]. *)
Definition equally (subtotal : float) (tax tip : option float) (ids : list string)
  : CalculateSplitDto.t :=
  CalculateSplitDto.mk EQUAL subtotal tax tip None ids None None None.
End Requests.

(** The monetary fields of a share. *)
Definition amounts (s : ParticipantShareDto.t)
  : string * (float * float * float * float) :=
  (ParticipantShareDto.participantId s,
   (ParticipantShareDto.subtotal s, ParticipantShareDto.tax s,
    ParticipantShareDto.tip s, ParticipantShareDto.total s)).

(** What a call produced: the shares' amounts, the grand total and the
    rounding adjustment, or the error it threw. *)
Definition summary (c : outcome SplitCalculationResultDto.t)
  : list (string * (float * float * float * float)) * float * float
    + BadRequestException :=
  match c with
  | Returns res =>
      inl (map amounts (SplitCalculationResultDto.shares res),
           SplitCalculationResultDto.grandTotal res,
           SplitCalculationResultDto.roundingAdjustment res)
  | Throws e => inr e
  end.

End Ieee.


(** * Structural properties, over the exact embedding *)

(** ** Numbers and rounding *)

Section NumberFacts.





End NumberFacts.

Section RoundFacts.



End RoundFacts.

Section OutcomeFacts.






End OutcomeFacts.

Section SumFacts.
Context {A : Type} (f : A -> Q).




End SumFacts.

Section ReconciliationFacts.
Import ParticipantShareDto.


End ReconciliationFacts.

Section StrategyFacts.
Import CalculateSplitDto.






End StrategyFacts.

Section ValidationFacts.
Import CalculateSplitDto.

Lemma nodup_length_le (l : list string) :
  (List.length (nodup string_dec l) <= List.length l)%nat.
Proof.
  induction l as [|x r IH]; simpl; [lia|].
  destruct (in_dec string_dec x r); simpl; lia.
Qed.

Lemma Set_size_NoDup (l : list string) :
  Js.Set_size l = List.length l <-> NoDup l.
Proof.
  unfold Js.Set_size. split.
  - induction l as [|x r IH]; simpl; intro H; [constructor|].
    pose proof (nodup_length_le r) as L.
    destruct (in_dec string_dec x r) as [i|n]; simpl in H; [lia|].
    constructor; [exact n | apply IH; lia].
  - intro H. rewrite (nodup_fixed_point string_dec H). reflexivity.
Qed.

Lemma includes_In (l : list string) (x : string) :
  Js.includes l x = true <-> In x l.
Proof.
  unfold Js.includes. rewrite existsb_exists. split.
  - intros [y [Hy E]]. apply String.eqb_eq in E. subst y. exact Hy.
  - intro H. exists x. split; [exact H | apply String.eqb_refl].
Qed.


End ValidationFacts.

Section ConservationFacts.
Import ParticipantShareDto.

End ConservationFacts.

Section DistributionFacts.


End DistributionFacts.

Section MapFacts.
Context {V : Type}.

Lemma get_set (m : Js.Map.t V) (k k' : string) (v : V) :
  Js.Map.get (Js.Map.set m k v) k'
  = if String.eqb k k' then Some v else Js.Map.get m k'.
Proof.
  induction m as [|[k0 v0] r IH]; simpl.
  - reflexivity.
  - destruct (String.eqb k0 k) eqn:E0; simpl.
    + apply String.eqb_eq in E0. subst k0.
      destruct (String.eqb k k'); reflexivity.
    + rewrite IH. destruct (String.eqb k0 k') eqn:E1; [|reflexivity].
      apply String.eqb_eq in E1. subst k0. rewrite String.eqb_sym, E0. reflexivity.
Qed.


Lemma get_set_other (m : Js.Map.t V) (k k' : string) (v : V) :
  k <> k' -> Js.Map.get (Js.Map.set m k v) k' = Js.Map.get m k'.
Proof.
  intro N. rewrite get_set. apply String.eqb_neq in N. rewrite N. reflexivity.
Qed.

Lemma has_set (m : Js.Map.t V) (k k' : string) (v : V) :
  Js.Map.has (Js.Map.set m k v) k' = String.eqb k k' || Js.Map.has m k'.
Proof.
  unfold Js.Map.has. rewrite get_set. destruct (String.eqb k k'); reflexivity.
Qed.

(** [set] on a key the map does not hold appends the entry. *)
Lemma set_fresh (m : Js.Map.t V) (k : string) (v : V) :
  Js.Map.has m k = false -> Js.Map.set m k v = m ++ [(k, v)].
Proof.
  unfold Js.Map.has. induction m as [|[k0 v0] r IH]; simpl; [reflexivity|].
  destruct (String.eqb k0 k); [discriminate|].
  intro H. rewrite (IH H). reflexivity.
Qed.
End MapFacts.

Section ItemizedFacts.






End ItemizedFacts.

Section PercentageFacts.
Import PercentageSplitDto.

Lemma has_keys {V : Type} (m : Js.Map.t V) (k : string) :
  Js.Map.has m k = true <-> In k (map fst m).
Proof.
  unfold Js.Map.has. induction m as [|[k0 v0] r IH]; simpl.
  - split; [discriminate | contradiction].
  - destruct (String.eqb k0 k) eqn:E.
    + apply String.eqb_eq in E. split; auto.
    + apply String.eqb_neq in E. rewrite IH. split; [auto|].
      intros [C|C]; [contradiction | exact C].
Qed.


Variable dto : CalculateSplitDto.t.



End PercentageFacts.

(** ** One share per participant, in request order (C10) *)

Section ShareOrder.




End ShareOrder.



(** ** The validator, strategy by strategy *)

Section ValidatorFacts.
Import CalculateSplitDto.

Lemma option_absent {A : Type} (o : option A) : Js.truthy o = false <-> o = None.
Proof. destruct o; simpl; split; congruence. Qed.






End ValidatorFacts.

Section CustomFacts.
Import CustomSplitDto.

Variable dto : CalculateSplitDto.t.






End CustomFacts.





(** X5: strategy exclusivity: a request that carries a payload its split type
    does not take, or that lacks (or leaves empty) the payload its split
    type requires, is always rejected. *)
Theorem payload_exclusivity (dto : CalculateSplitDto.t) :
  unrelatedPayload dto \/ missingPayload dto ->
  throws (SplitValidator.validate dto).
Proof.
  intro H. unfold SplitValidator.validate.
  destruct (SplitValidator.validateBasicRequirements dto) as [[]|e];
    [|exists e; reflexivity].
  cbn [bind]. unfold unrelatedPayload, missingPayload in H.
  destruct (CalculateSplitDto.splitType dto).
  - unfold SplitValidator.validateEqualSplit.
    destruct (CalculateSplitDto.items dto), (CalculateSplitDto.percentages dto),
      (CalculateSplitDto.customAmounts dto);
      try (eexists; reflexivity).
    exfalso. intuition congruence.
  - unfold SplitValidator.validateItemizedSplit.
    destruct (CalculateSplitDto.items dto) as [[|i r]|]; try (eexists; reflexivity).
    destruct (CalculateSplitDto.percentages dto), (CalculateSplitDto.customAmounts dto);
      try (eexists; reflexivity).
    exfalso. intuition congruence.
  - unfold SplitValidator.validatePercentageSplit.
    destruct (CalculateSplitDto.percentages dto) as [[|i r]|]; try (eexists; reflexivity).
    destruct (CalculateSplitDto.items dto), (CalculateSplitDto.customAmounts dto);
      try (eexists; reflexivity).
    exfalso. intuition congruence.
  - unfold SplitValidator.validateCustomSplit.
    destruct (CalculateSplitDto.customAmounts dto) as [[|i r]|]; try (eexists; reflexivity).
    destruct (CalculateSplitDto.items dto), (CalculateSplitDto.percentages dto);
      try (eexists; reflexivity).
    exfalso. intuition congruence.
Qed.

Lemma payload_exclusivity_witness :
  throws (SplitValidator.validate Requests.sixtyFortyWithItems).
Proof.
  apply payload_exclusivity. left. left. discriminate.
Defined.

(** ** The rounding helper and the Equal strategy *)

Section EqualFacts.



End EqualFacts.

(** ** What the strategies allocate *)

Section SumExchange.
Context {A : Type}.



End SumExchange.

Section ItemizedAllocation.









End ItemizedAllocation.

Section LastSetWins.
Context {A : Type} (key : A -> string) (value : A -> Q).


End LastSetWins.

Section StrategyAllocation.
Variable dto : CalculateSplitDto.t.
Hypothesis valid : SplitValidator.validate dto = Returns tt.





End StrategyAllocation.

Section NonNegative.









End NonNegative.



(** ** The basic requirements' errors and the sums of tax and tip *)

Section BasicErrors.
Import CalculateSplitDto.
Variable dto : CalculateSplitDto.t.




End BasicErrors.


(** * Properties of the engine on doubles *)

(** ** Comparisons of doubles *)

Section DoubleOrder.

(** IEEE comparison orders the finite numbers of one sign by exponent,
    then by mantissa. *)
Ltac order_cases :=
  repeat match goal with
  | |- context [Z.compare ?a ?b] => destruct (Z.compare_spec a b)
  | H : context [Z.compare ?a ?b] |- _ => destruct (Z.compare_spec a b)
  | |- context [PosDef.Pos.compare_cont Eq ?a ?b] =>
      change (PosDef.Pos.compare_cont Eq a b) with (Pos.compare a b);
      destruct (Pos.compare_spec a b)
  | H : context [PosDef.Pos.compare_cont Eq ?a ?b] |- _ =>
      change (PosDef.Pos.compare_cont Eq a b) with (Pos.compare a b) in H;
      destruct (Pos.compare_spec a b)
  end.

Ltac by_cases :=
  unfold SFltb, SFleb, SFcompare;
  repeat match goal with
  | x : spec_float |- _ => destruct x as [[|]|[|]| |[|] ? ?]
  end;
  intros; try discriminate; try reflexivity;
  order_cases; simpl in *; try discriminate; try reflexivity; try lia.

Lemma SFltb_irrefl (x : spec_float) : SFltb x x = false.
Proof. by_cases. Qed.

Lemma SFltb_asym (x y : spec_float) : SFltb x y = true -> SFltb y x = false.
Proof. by_cases. Qed.

Lemma SFltb_trans (x y z : spec_float) :
  SFltb x y = true -> SFltb y z = true -> SFltb x z = true.
Proof. by_cases. Qed.

Lemma SFltb_leb_trans (x y z : spec_float) :
  SFltb x y = true -> SFleb y z = true -> SFltb x z = true.
Proof. by_cases. Qed.

(** [x > x] is false, also for NaN. *)
Lemma gt_irrefl (x : float) : Double.gt x x = false.
Proof. unfold Double.gt. rewrite ltb_spec. apply SFltb_irrefl. Qed.

(** [x > y] excludes [x < y]. *)
Lemma gt_not_lt (x y : float) : Double.gt x y = true -> Double.lt x y = false.
Proof. unfold Double.gt, Double.lt. rewrite !ltb_spec. apply SFltb_asym. Qed.

(** A number that does not exceed [m] does not exceed a number greater
    than [m]. *)
Lemma not_gt_greater (x m t : float) :
  Double.gt x m = false -> Double.gt t m = true -> Double.gt x t = false.
Proof.
  unfold Double.gt. rewrite !ltb_spec. intros H1 H2.
  destruct (SFltb (Prim2SF t) (Prim2SF x)) eqn:E; [|reflexivity].
  rewrite (SFltb_trans _ _ _ H2 E) in H1. discriminate H1.
Qed.

(** A number greater than [m] is not less than or equal to a number that
    does not exceed [m]. *)
Lemma greater_not_le (x m t : float) :
  Double.gt x m = false -> Double.gt t m = true -> Double.le t x = false.
Proof.
  unfold Double.gt, Double.le. rewrite !ltb_spec, leb_spec. intros H1 H2.
  destruct (SFleb (Prim2SF t) (Prim2SF x)) eqn:E; [|reflexivity].
  rewrite (SFltb_leb_trans _ _ _ H2 E) in H1. discriminate H1.
Qed.

End DoubleOrder.

(** ** [Math.round] *)

Section MathRound.
Import Ieee Ieee.SplitCalculationService.
Local Open Scope Z_scope.

Lemma nearest_ties_up_spec (n e : Z) :
  e < 0 -> nearestTiesUp n e (Double.nearest_ties_up n e).
Proof.
  intro He. unfold nearestTiesUp, Double.nearest_ties_up.
  replace (1 - e) with (Z.succ (- e)) by lia.
  rewrite Z.pow_succ_r by lia.
  assert (P : 0 < 2 ^ (- e)) by (apply Z.pow_pos_nonneg; lia).
  set (k := 2 ^ (- e)) in *.
  pose proof (Z.div_mod (2 * n + k) (2 * k) ltac:(lia)) as D.
  pose proof (Z.mod_pos_bound (2 * n + k) (2 * k) ltac:(lia)) as B.
  set (z := (2 * n + k) / (2 * k)) in *. nia.
Qed.

Lemma nearestTiesUp_unique (n e z z' : Z) :
  e < 0 -> nearestTiesUp n e z -> nearestTiesUp n e z' -> z = z'.
Proof.
  unfold nearestTiesUp. intros He H H'.
  assert (P : 0 < 2 ^ (- e)) by (apply Z.pow_pos_nonneg; lia).
  set (k := 2 ^ (- e)) in *. nia.
Qed.

(** [Math.round] on a double that is not an integer. *)
Lemma Math_round_finite (x : float) (s : bool) (m : positive) (e : Z) :
  Prim2SF x = S754_finite s m e -> e < 0 ->
  Double.Math_round x
  = (let z := Double.nearest_ties_up (Double.numerator s m) e in
     if z =? 0 then Double.signed_zero s else Double.of_Z z).
Proof.
  intros E He. unfold Double.Math_round. rewrite E.
  destruct (0 <=? e) eqn:L; [apply Z.leb_le in L; lia | reflexivity].
Qed.

(** [Math.round] on an integer, a zero, an infinity or NaN. *)
Lemma Math_round_integer (x : float) :
  (forall s m e, Prim2SF x = S754_finite s m e -> 0 <= e) ->
  Double.Math_round x = x.
Proof.
  intro H. unfold Double.Math_round.
  destruct (Prim2SF x) as [| | |s m e] eqn:E; try reflexivity.
  specialize (H s m e eq_refl). apply Z.leb_le in H. rewrite H. reflexivity.
Qed.

Lemma round_of_zero : round 0 = 0%float.
Proof. vm_compute. reflexivity. Qed.

End MathRound.

(** ** Returning and throwing *)

Section IeeeOutcome.
Import Ieee.
Local Open Scope ieee_outcome_scope.

Lemma ieee_throw_if_returns (b : bool) (e : BadRequestException) (u : unit) :
  throw_if b e = Returns u <-> b = false.
Proof. destruct b, u; simpl; split; intro H; try reflexivity; discriminate. Qed.

Lemma ieee_bind_returns {A B : Type} (c : outcome A) (k : A -> outcome B) (b : B) :
  bind c k = Returns b <-> exists a, c = Returns a /\ k a = Returns b.
Proof.
  destruct c as [a|e]; simpl; split.
  - intro H. exists a. auto.
  - intros [a' [E H]]. injection E as <-. exact H.
  - discriminate.
  - intros [a' [E _]]. discriminate.
Qed.

Lemma ieee_guard_returns {B : Type} (c : bool) (e : BadRequestException)
  (k : outcome B) (b : B) :
  (throw_if c e ;; k) = Returns b <-> c = false /\ k = Returns b.
Proof. destruct c; simpl; split; intuition discriminate. Qed.

Lemma ieee_forEach_from_returns {A : Type} (f : A -> nat -> outcome unit) (l : list A) :
  forall i u, forEach_from f l i = Returns u <->
              (forall n x, nth_error l n = Some x -> f x (i + n)%nat = Returns tt).
Proof.
  induction l as [|x r IH]; intros i u; simpl.
  - destruct u. split; [|reflexivity]. intros _ [|n] y E; discriminate.
  - rewrite ieee_bind_returns. split.
    + intros [[] [Hx Hr]] [|n] y E; simpl in E.
      * injection E as <-. rewrite Nat.add_0_r. exact Hx.
      * rewrite Nat.add_succ_r. apply (proj1 (IH (S i) u) Hr n y E).
    + intro H. exists tt. split.
      * specialize (H 0%nat x eq_refl). rewrite Nat.add_0_r in H. exact H.
      * apply IH. intros n y E. specialize (H (S n) y E).
        rewrite Nat.add_succ_r in H. exact H.
Qed.

Lemma ieee_forEach_returns {A : Type} (f : A -> outcome unit) (l : list A) (u : unit) :
  forEach f l = Returns u <-> (forall x, In x l -> f x = Returns tt).
Proof.
  unfold forEach. rewrite ieee_forEach_from_returns. split.
  - intros H x Hx. destruct (In_nth_error _ _ Hx) as [n E]. exact (H n x E).
  - intros H n x E. apply H. exact (nth_error_In _ _ E).
Qed.

Lemma ieee_forEach_from_throws {A : Type} (f : A -> nat -> outcome unit) (l : list A) :
  forall i e, forEach_from f l i = Throws e ->
              exists n x, nth_error l n = Some x /\ f x (i + n)%nat = Throws e.
Proof.
  induction l as [|x r IH]; intros i e H; simpl in H; [discriminate|].
  destruct (f x i) as [[]|e'] eqn:E; simpl in H.
  - destruct (IH _ _ H) as [n [y [Hy Hf]]]. exists (S n), y.
    split; [exact Hy|]. rewrite Nat.add_succ_r. exact Hf.
  - injection H as <-. exists 0%nat, x. split; [reflexivity|].
    rewrite Nat.add_0_r. exact E.
Qed.

Lemma ieee_forEach_throws {A : Type} (f : A -> outcome unit) (l : list A)
  (e : BadRequestException) :
  forEach f l = Throws e -> exists x, In x l /\ f x = Throws e.
Proof.
  unfold forEach. intro H.
  destruct (ieee_forEach_from_throws _ _ _ _ H) as [n [x [Hx Hf]]].
  exists x. split; [exact (nth_error_In _ _ Hx) | exact Hf].
Qed.

(** A loop either returns or throws. *)
Lemma ieee_outcome_cases {A : Type} (c : outcome A) :
  (exists a, c = Returns a) \/ throws c.
Proof. destruct c as [a|e]; [left; exists a | right; exists e]; reflexivity. Qed.

End IeeeOutcome.

(** ** The reconciliation step *)

Section IeeeReconciliation.
Import Ieee Ieee.SplitCalculationService Ieee.ParticipantShareDto.

Lemma ieee_findMaxIndex_spec (shares pre : list ParticipantShareDto.t) :
  forall (maxIndex : nat) (maxTotal : float) (sm : ParticipantShareDto.t),
    nth_error pre maxIndex = Some sm ->
    total sm = maxTotal ->
    (forall j s, nth_error pre j = Some s -> Double.gt (total s) maxTotal = false) ->
    (forall j s, (j < maxIndex)%nat -> nth_error pre j = Some s ->
                 Double.le maxTotal (total s) = false) ->
    firstLargest (pre ++ shares)
      (findMaxIndex shares (List.length pre) maxIndex maxTotal).
Proof.
  revert pre.
  induction shares as [|x r IH]; intros pre maxIndex maxTotal sm Hsm Ht Hle Hlt; simpl.
  - rewrite app_nil_r. exists sm. subst maxTotal. auto.
  - assert (Hlen : (maxIndex < List.length pre)%nat).
    { apply nth_error_Some. congruence. }
    replace (pre ++ x :: r) with ((pre ++ [x]) ++ r) by (rewrite <- app_assoc; reflexivity).
    replace (S (List.length pre)) with (List.length (pre ++ [x]))
      by (rewrite length_app; simpl; lia).
    destruct (Double.gt (total x) maxTotal) eqn:G.
    + apply (IH (pre ++ [x]) _ _ x).
      * rewrite nth_error_app2, Nat.sub_diag by lia. reflexivity.
      * reflexivity.
      * intros j s E. destruct (Nat.lt_ge_cases j (List.length pre)) as [L|L].
        -- rewrite nth_error_app1 in E by exact L.
           exact (not_gt_greater _ _ _ (Hle j s E) G).
        -- rewrite nth_error_app2 in E by exact L.
           destruct (j - List.length pre)%nat as [|k]; simpl in E.
           ++ injection E as <-. apply gt_irrefl.
           ++ destruct k; discriminate.
      * intros j s L E.
        rewrite nth_error_app1 in E by exact L.
        exact (greater_not_le _ _ _ (Hle j s E) G).
    + apply (IH (pre ++ [x]) _ _ sm).
      * rewrite nth_error_app1 by exact Hlen. exact Hsm.
      * exact Ht.
      * intros j s E. destruct (Nat.lt_ge_cases j (List.length pre)) as [L|L].
        -- rewrite nth_error_app1 in E by exact L. exact (Hle j s E).
        -- rewrite nth_error_app2 in E by exact L.
           destruct (j - List.length pre)%nat as [|k]; simpl in E.
           ++ injection E as <-. exact G.
           ++ destruct k; discriminate.
      * intros j s L E. rewrite nth_error_app1 in E by lia. exact (Hlt j s L E).
Qed.

Lemma ieee_findMaxIndex_firstLargest (first : ParticipantShareDto.t)
  (rest : list ParticipantShareDto.t) :
  firstLargest (first :: rest) (findMaxIndex (first :: rest) 0 0 (total first)).
Proof.
  simpl. rewrite gt_irrefl.
  apply (ieee_findMaxIndex_spec rest [first] 0%nat (total first) first); try reflexivity.
  - intros [|[|j]] s E; simpl in E; try discriminate. injection E as <-. apply gt_irrefl.
  - intros j s L. lia.
Qed.

Lemma ieee_replaceAt_length (l : list ParticipantShareDto.t) (f : t -> t) :
  forall m, List.length (replaceAt l m f) = List.length l.
Proof.
  induction l as [|x r IH]; intros [|m]; simpl; try reflexivity.
  rewrite IH. reflexivity.
Qed.

Lemma ieee_replaceAt_same (l : list ParticipantShareDto.t) (f : t -> t) :
  forall m s, nth_error l m = Some s -> nth_error (replaceAt l m f) m = Some (f s).
Proof.
  induction l as [|x r IH]; intros [|m] s E; simpl in *; try discriminate.
  - injection E as <-. reflexivity.
  - apply IH. exact E.
Qed.

Lemma ieee_replaceAt_other (l : list ParticipantShareDto.t) (f : t -> t) :
  forall m j, j <> m -> nth_error (replaceAt l m f) j = nth_error l j.
Proof.
  induction l as [|x r IH]; intros [|m] [|j] N; simpl; try reflexivity.
  - contradiction.
  - apply IH. intro E. apply N. rewrite E. reflexivity.
Qed.

Lemma ieee_replaceAt_In (l : list ParticipantShareDto.t) (f : t -> t) :
  forall m s, In s (replaceAt l m f) -> exists s0, In s0 l /\ (s = s0 \/ s = f s0).
Proof.
  induction l as [|x r IH]; intros [|m] s H; simpl in *; try contradiction.
  - destruct H as [<-|H]; [exists x; auto | exists s; auto].
  - destruct H as [<-|H]; [exists x; auto|].
    destruct (IH m s H) as [s0 [H0 D]]. exists s0. auto.
Qed.

Lemma ieee_replaceAt_participantIds (l : list ParticipantShareDto.t) (f : t -> t) :
  (forall s, participantId (f s) = participantId s) ->
  forall m, map participantId (replaceAt l m f) = map participantId l.
Proof.
  intro Hf. induction l as [|x r IH]; intros [|m]; simpl; try reflexivity.
  - rewrite Hf. reflexivity.
  - rewrite IH. reflexivity.
Qed.

(** What [applyRoundingAdjustment] does once the caller's test
    [Math.abs(adjustment) > 0.001] has passed: its own guard
    [Math.abs(adjustment) < 0.001] is then false. *)
Lemma ieee_applyRoundingAdjustment_spec (shares : list ParticipantShareDto.t)
  (adjustment : float) :
  shares <> [] -> needsReconciliation adjustment = true ->
  exists m, firstLargest shares m /\
            applyRoundingAdjustment shares adjustment
            = replaceAt shares m (adjusted adjustment).
Proof.
  intros Hne Habs. destruct shares as [|first rest]; [contradiction|].
  unfold applyRoundingAdjustment.
  rewrite (gt_not_lt _ _ Habs).
  eexists. split; [apply ieee_findMaxIndex_firstLargest | reflexivity].
Qed.

Lemma ieee_applyRoundingAdjustment_cases (shares : list ParticipantShareDto.t)
  (adjustment : float) :
  applyRoundingAdjustment shares adjustment = shares \/
  exists m, applyRoundingAdjustment shares adjustment
            = replaceAt shares m (adjusted adjustment).
Proof.
  unfold applyRoundingAdjustment. destruct shares as [|first rest]; [left; reflexivity|].
  destruct (Double.lt _ _); [left; reflexivity | right; eexists; reflexivity].
Qed.

End IeeeReconciliation.

(** ** The strategies and the main entry point *)

Section IeeeStrategy.
Import Ieee Ieee.SplitCalculationService Ieee.CalculateSplitDto.
Local Open Scope ieee_outcome_scope.
Local Open Scope float_scope.

Lemma ieee_strategyShares_builtFrom (dto : CalculateSplitDto.t)
  (s : ParticipantShareDto.t) :
  In s (strategyShares dto) -> builtFrom dto s.
Proof.
  unfold strategyShares, builtFrom, effectiveTipDistribution.
  destruct (splitType dto) eqn:Ety.
  - unfold calculateEqualSplit. rewrite in_map_iff.
    intros [id [<- Hid]]. simpl. repeat split; eauto.
  - unfold calculateItemizedSplit.
    destruct (fold_left distributeItem _ _) as [ps pi].
    rewrite in_map_iff. intros [id [<- Hid]]. simpl. repeat split; eauto.
  - unfold calculatePercentageSplit. rewrite in_map_iff.
    intros [id [<- Hid]]. simpl. repeat split; eauto.
  - unfold calculateCustomSplit. rewrite in_map_iff.
    intros [id [<- Hid]]. simpl. repeat split; eauto.
Qed.

Lemma ieee_strategyShares_participantIds (dto : CalculateSplitDto.t) :
  map ParticipantShareDto.participantId (strategyShares dto) = participantIds dto.
Proof.
  unfold strategyShares.
  destruct (splitType dto).
  - unfold calculateEqualSplit. rewrite map_map. simpl. apply map_id.
  - unfold calculateItemizedSplit.
    destruct (fold_left distributeItem _ _) as [ps pi].
    rewrite map_map. simpl. apply map_id.
  - unfold calculatePercentageSplit. rewrite map_map. simpl. apply map_id.
  - unfold calculateCustomSplit. rewrite map_map. simpl. apply map_id.
Qed.

Lemma ieee_reconciledShares_cases (dto : CalculateSplitDto.t) :
  reconciledShares dto = strategyShares dto \/
  exists m, reconciledShares dto
            = replaceAt (strategyShares dto) m (adjusted (roundingAdjustmentOf dto)).
Proof.
  unfold reconciledShares. destruct (Double.gt _ _); [|left; reflexivity].
  apply ieee_applyRoundingAdjustment_cases.
Qed.

Lemma ieee_reconciledShares_origin (dto : CalculateSplitDto.t)
  (s : ParticipantShareDto.t) :
  In s (reconciledShares dto) ->
  exists s0, In s0 (strategyShares dto) /\
             (s = s0 \/ s = adjusted (roundingAdjustmentOf dto) s0).
Proof.
  destruct (ieee_reconciledShares_cases dto) as [->|[m ->]].
  - intro H. exists s. auto.
  - apply ieee_replaceAt_In.
Qed.

(** A returned share carries the subtotal, tax and tip its strategy
    computed. *)
Lemma ieee_reconciledShares_builtFrom (dto : CalculateSplitDto.t)
  (s : ParticipantShareDto.t) :
  In s (reconciledShares dto) ->
  exists s0, In s0 (strategyShares dto) /\ builtFrom dto s0 /\
    ParticipantShareDto.participantId s = ParticipantShareDto.participantId s0 /\
    ParticipantShareDto.subtotal s = ParticipantShareDto.subtotal s0 /\
    ParticipantShareDto.tax s = ParticipantShareDto.tax s0 /\
    ParticipantShareDto.tip s = ParticipantShareDto.tip s0 /\
    ParticipantShareDto.items s = ParticipantShareDto.items s0.
Proof.
  intro Hs. destruct (ieee_reconciledShares_origin dto s Hs) as [s0 [H0 D]].
  exists s0. split; [exact H0|]. split; [apply ieee_strategyShares_builtFrom, H0|].
  destruct D as [->| ->]; repeat split; reflexivity.
Qed.

Lemma ieee_reconciledShares_participantIds (dto : CalculateSplitDto.t) :
  map ParticipantShareDto.participantId (reconciledShares dto) = participantIds dto.
Proof.
  destruct (ieee_reconciledShares_cases dto) as [->|[m ->]].
  - apply ieee_strategyShares_participantIds.
  - rewrite ieee_replaceAt_participantIds; [|reflexivity].
    apply ieee_strategyShares_participantIds.
Qed.

Lemma ieee_validateResult_unfold (dto : CalculateSplitDto.t)
  (calculatedTotal adjustment : float) :
  SplitValidator.validateResult dto calculatedTotal adjustment
  = (throw_if (totalMismatch dto calculatedTotal)
       (CalculatedTotalMismatch calculatedTotal (expectedTotal dto)) ;;
     throw_if (adjustmentTooLarge dto adjustment)
       (RoundingAdjustmentExceedsThreshold adjustment)).
Proof. reflexivity. Qed.

(** The result record of [calculateSplit]. *)
Lemma ieee_calculateSplit_unfold (dto : CalculateSplitDto.t) :
  calculateSplit dto
  = (SplitValidator.validate dto ;;
     SplitValidator.validateResult dto (sumOfTotals (reconciledShares dto))
       (roundingAdjustmentOf dto) ;;
     Returns
       {| SplitCalculationResultDto.splitType := splitType dto;
          SplitCalculationResultDto.originalSubtotal := subtotal dto;
          SplitCalculationResultDto.originalTax := Double.or_num (tax dto) 0;
          SplitCalculationResultDto.originalTip := Double.or_num (tip dto) 0;
          SplitCalculationResultDto.grandTotal := round (expectedTotal dto);
          SplitCalculationResultDto.shares := reconciledShares dto;
          SplitCalculationResultDto.roundingAdjustment := roundingAdjustmentOf dto |}).
Proof. reflexivity. Qed.

Lemma ieee_calculateSplit_returns (dto : CalculateSplitDto.t)
  (res : SplitCalculationResultDto.t) :
  calculateSplit dto = Returns res <->
  SplitValidator.validate dto = Returns tt /\
  totalMismatch dto (sumOfTotals (reconciledShares dto)) = false /\
  adjustmentTooLarge dto (roundingAdjustmentOf dto) = false /\
  res = {| SplitCalculationResultDto.splitType := splitType dto;
           SplitCalculationResultDto.originalSubtotal := subtotal dto;
           SplitCalculationResultDto.originalTax := Double.or_num (tax dto) 0;
           SplitCalculationResultDto.originalTip := Double.or_num (tip dto) 0;
           SplitCalculationResultDto.grandTotal := round (expectedTotal dto);
           SplitCalculationResultDto.shares := reconciledShares dto;
           SplitCalculationResultDto.roundingAdjustment := roundingAdjustmentOf dto |}.
Proof.
  rewrite ieee_calculateSplit_unfold, ieee_validateResult_unfold. split.
  - intro H.
    apply ieee_bind_returns in H. destruct H as [[] [Hv H]].
    apply ieee_bind_returns in H. destruct H as [[] [Hr H]].
    apply ieee_guard_returns in Hr. destruct Hr as [H1 H2].
    apply ieee_throw_if_returns in H2.
    injection H as <-. auto.
  - intros [Hv [H1 [H2 ->]]]. rewrite Hv, H1, H2. reflexivity.
Qed.

Lemma ieee_validateBasicRequirements_returns (dto : CalculateSplitDto.t) :
  SplitValidator.validateBasicRequirements dto = Returns tt <->
  participantIds dto <> [] /\ NoDup (participantIds dto) /\
  Double.lt (subtotal dto) 0 = false /\
  (forall t, tax dto = Some t -> Double.lt t 0 = false) /\
  (forall t, tip dto = Some t -> Double.lt t 0 = false) /\
  Double.le (expectedTotal dto) 0 = false.
Proof.
  unfold SplitValidator.validateBasicRequirements, expectedTotal.
  rewrite !ieee_guard_returns, ieee_throw_if_returns.
  set (total := subtotal dto + Double.or_num (tax dto) 0 + Double.or_num (tip dto) 0).
  assert (L : (List.length (participantIds dto) =? 0)%nat = false
              <-> participantIds dto <> []).
  { rewrite Nat.eqb_neq. destruct (participantIds dto); simpl; split; congruence. }
  assert (D : negb (Js.Set_size (participantIds dto) =? List.length (participantIds dto))%nat
              = false <-> NoDup (participantIds dto)).
  { rewrite negb_false_iff, Nat.eqb_eq. apply Set_size_NoDup. }
  assert (O : forall o : option float,
             match o with Some t => Double.lt t 0 | None => false end = false
             <-> (forall t, o = Some t -> Double.lt t 0 = false)).
  { intros [t|]; split; intros H; try reflexivity.
    - intros t' E. injection E as <-. exact H.
    - apply H. reflexivity.
    - intros t' E. discriminate. }
  assert (T : participantIds dto <> [] ->
              ((Double.le total 0 && (0 <? List.length (participantIds dto))%nat) = false
               <-> Double.le total 0 = false)).
  { intro Hne. assert (Hl : (0 <? List.length (participantIds dto))%nat = true).
    { apply Nat.ltb_lt. destruct (participantIds dto); [congruence | simpl; lia]. }
    rewrite Hl, andb_true_r. reflexivity. }
  rewrite L, D, !O. split.
  - intros [H1 [H2 [H3 [H4 [H5 H6]]]]]. repeat split; auto. apply T; assumption.
  - intros [H1 [H2 [H3 [H4 [H5 H6]]]]]. repeat split; auto. apply T; assumption.
Qed.

Lemma ieee_validate_basic (dto : CalculateSplitDto.t) :
  SplitValidator.validate dto = Returns tt ->
  SplitValidator.validateBasicRequirements dto = Returns tt.
Proof.
  unfold SplitValidator.validate. intro H.
  apply ieee_bind_returns in H. destruct H as [[] [H _]]. exact H.
Qed.

Lemma ieee_validate_nonempty (dto : CalculateSplitDto.t) :
  SplitValidator.validate dto = Returns tt -> strategyShares dto <> [].
Proof.
  intros H E. apply ieee_validate_basic, ieee_validateBasicRequirements_returns in H.
  destruct H as [H _]. apply H.
  rewrite <- ieee_strategyShares_participantIds, E. reflexivity.
Qed.

(** The two branches of the reconciliation step of [calculateSplit]. *)
Lemma ieee_reconciledShares_unchanged (dto : CalculateSplitDto.t) :
  needsReconciliation (roundingAdjustmentOf dto) = false ->
  reconciledShares dto = strategyShares dto.
Proof.
  intro H. unfold reconciledShares.
  change (Double.gt _ 0.001) with (needsReconciliation (roundingAdjustmentOf dto)).
  rewrite H. reflexivity.
Qed.

Lemma ieee_reconciledShares_adjusted (dto : CalculateSplitDto.t) :
  strategyShares dto <> [] ->
  needsReconciliation (roundingAdjustmentOf dto) = true ->
  exists m, firstLargest (strategyShares dto) m /\
            reconciledShares dto
            = replaceAt (strategyShares dto) m (adjusted (roundingAdjustmentOf dto)).
Proof.
  intros Hne H. unfold reconciledShares.
  change (Double.gt _ 0.001) with (needsReconciliation (roundingAdjustmentOf dto)).
  rewrite H. apply ieee_applyRoundingAdjustment_spec; assumption.
Qed.

End IeeeStrategy.

(** ** Tax and tip distribution *)

Section IeeeDistribution.
Import Ieee Ieee.SplitCalculationService.
Local Open Scope float_scope.



End IeeeDistribution.

(** ** The maps of the itemized strategy *)

Section IeeeItemized.
Import Ieee Ieee.SplitCalculationService.
Local Open Scope float_scope.

Lemma includes_perm (l l' : list string) (x : string) :
  Permutation l l' -> Js.includes l x = Js.includes l' x.
Proof.
  intro P. apply eq_true_iff_eq. rewrite !includes_In.
  split; apply Permutation_in; [exact P | symmetry; exact P].
Qed.

Lemma sameEntries_set {V : Type} (m1 m2 : Js.Map.t V) (k : string) (v : V) :
  sameEntries m1 m2 -> sameEntries (Js.Map.set m1 k v) (Js.Map.set m2 k v).
Proof. intros H k'. rewrite !get_set, (H k'). reflexivity. Qed.

Lemma ieee_addItemShare_sameMaps (item : ItemDto.t) (sharePerPerson : float)
  (a b : itemized_maps) (participantId : string) :
  sameMaps a b ->
  sameMaps (addItemShare item sharePerPerson a participantId)
    (addItemShare item sharePerPerson b participantId).
Proof.
  destruct a as [s1 i1], b as [s2 i2]. intros [Hs Hi]. simpl in Hs, Hi.
  split; simpl.
  - rewrite (Hs participantId). apply sameEntries_set, Hs.
  - rewrite (Hi participantId). apply sameEntries_set, Hi.
Qed.

Lemma ieee_distributeItem_sameMaps (item : ItemDto.t) (a b : itemized_maps) :
  sameMaps a b -> sameMaps (distributeItem a item) (distributeItem b item).
Proof.
  unfold distributeItem. cbv zeta.
  generalize (ItemDto.price item / Double.length_num (ItemDto.participantIds item)).
  intro share. revert a b.
  induction (ItemDto.participantIds item) as [|pid r IH]; intros a b H; simpl.
  - exact H.
  - apply IH, ieee_addItemShare_sameMaps, H.
Qed.

Lemma ieee_distributeItems_sameMaps (items : list ItemDto.t) (a b : itemized_maps) :
  sameMaps a b ->
  sameMaps (fold_left distributeItem items a) (fold_left distributeItem items b).
Proof.
  revert a b. induction items as [|item r IH]; intros a b H; simpl.
  - exact H.
  - apply IH, ieee_distributeItem_sameMaps, H.
Qed.

Lemma ieee_initializeParticipants_from (ids : list string) (a : itemized_maps)
  (k : string) :
  let r := fold_left initializeParticipant ids a in
  Js.Map.get (fst r) k = (if Js.includes ids k then Some 0 else Js.Map.get (fst a) k) /\
  Js.Map.get (snd r) k = (if Js.includes ids k then Some [] else Js.Map.get (snd a) k).
Proof.
  revert a. induction ids as [|id r IH]; intro a; simpl.
  - split; reflexivity.
  - destruct (IH (initializeParticipant a id)) as [H1 H2].
    rewrite H1, H2. destruct a as [s1 i1]. simpl.
    rewrite !get_set, (String.eqb_sym k id).
    destruct (Js.includes r k), (String.eqb id k); split; reflexivity.
Qed.

Lemma ieee_initializeParticipants_get (ids : list string) (k : string) :
  Js.Map.get (fst (initializeParticipants ids)) k
  = (if Js.includes ids k then Some 0 else None) /\
  Js.Map.get (snd (initializeParticipants ids)) k
  = (if Js.includes ids k then Some [] else None).
Proof. apply (ieee_initializeParticipants_from ids (Js.Map.empty, Js.Map.empty) k). Qed.

Lemma ieee_initializeParticipants_perm (ids ids' : list string) :
  Permutation ids ids' ->
  sameMaps (initializeParticipants ids) (initializeParticipants ids').
Proof.
  intro P. split; intro k.
  - rewrite (proj1 (ieee_initializeParticipants_get ids k)),
      (proj1 (ieee_initializeParticipants_get ids' k)), (includes_perm _ _ k P).
    reflexivity.
  - rewrite (proj2 (ieee_initializeParticipants_get ids k)),
      (proj2 (ieee_initializeParticipants_get ids' k)), (includes_perm _ _ k P).
    reflexivity.
Qed.

(** [calculateItemizedSplit] with its two maps named. *)
Lemma ieee_calculateItemizedSplit_unfold (dto : CalculateSplitDto.t) :
  let maps := fold_left distributeItem (Js.or_else (CalculateSplitDto.items dto) [])
                (initializeParticipants (CalculateSplitDto.participantIds dto)) in
  calculateItemizedSplit dto
  = map
      (fun participantId =>
         let subtotal := round (Double.or_num (Js.Map.get (fst maps) participantId) 0) in
         let tax := distributeTax subtotal (CalculateSplitDto.subtotal dto)
                      (Double.or_num (CalculateSplitDto.tax dto) 0) in
         let tip := distributeTip subtotal (CalculateSplitDto.subtotal dto)
                      (Double.or_num (CalculateSplitDto.tip dto) 0)
                      (Js.or_else (CalculateSplitDto.tipDistribution dto)
                         TipDistributionType.PROPORTIONAL)
                      (Double.length_num (CalculateSplitDto.participantIds dto)) in
         let total := round (subtotal + tax + tip) in
         ParticipantShareDto.mk participantId subtotal tax tip total
           (Some (Js.or_else (Js.Map.get (snd maps) participantId) [])))
      (CalculateSplitDto.participantIds dto).
Proof.
  unfold calculateItemizedSplit. cbv zeta.
  destruct (fold_left distributeItem _ _) as [ps pi]. reflexivity.
Qed.

End IeeeItemized.

(** ** Reordering the [participantIds] array of a request *)

Section IeeeParticipantOrder.
Import Ieee Ieee.SplitCalculationService Ieee.CalculateSplitDto.
Local Open Scope ieee_outcome_scope.
Local Open Scope float_scope.

Variable dto : CalculateSplitDto.t.
Variable ids' : list string.
Hypothesis reordered : Permutation ids' (participantIds dto).

Let dto' : CalculateSplitDto.t := with_participantIds dto ids'.

Ltac request_fields :=
  unfold dto';
  cbn [with_participantIds splitType subtotal tax tip tipDistribution participantIds
       items percentages customAmounts].

Lemma ieee_forEach_from_ext {A : Type} (f g : A -> nat -> outcome unit) (l : list A) :
  (forall x i, In x l -> f x i = g x i) ->
  forall i, forEach_from f l i = forEach_from g l i.
Proof.
  induction l as [|x r IH]; intros E i; simpl; [reflexivity|].
  rewrite (E x i (or_introl eq_refl)), IH; [reflexivity|].
  intros y j Hy. apply E. right. exact Hy.
Qed.

Lemma ieee_forEach_state_ext {A S : Type} (f g : S -> A -> outcome S) (l : list A) :
  (forall s x, In x l -> f s x = g s x) ->
  forall s, forEach_state f l s = forEach_state g l s.
Proof.
  induction l as [|x r IH]; intros E s; simpl; [reflexivity|].
  rewrite (E s x (or_introl eq_refl)).
  destruct (g s x) as [s'|e]; simpl; [|reflexivity].
  apply IH. intros s0 y Hy. apply E. right. exact Hy.
Qed.

Lemma reordered_includes (x : string) :
  Js.includes ids' x = Js.includes (participantIds dto) x.
Proof. apply includes_perm. exact reordered. Qed.

Lemma reordered_length_num :
  Double.length_num ids' = Double.length_num (participantIds dto).
Proof. unfold Double.length_num. rewrite (Permutation_length reordered). reflexivity. Qed.

Lemma reordered_basic :
  SplitValidator.validateBasicRequirements dto = Returns tt ->
  SplitValidator.validateBasicRequirements dto' = Returns tt.
Proof.
  rewrite !ieee_validateBasicRequirements_returns. unfold expectedTotal. request_fields.
  intros [H1 [H2 H3]]. split; [|split].
  - intro E. apply H1. rewrite E in reordered.
    apply Permutation_nil. exact reordered.
  - apply (Permutation_NoDup (Permutation_sym reordered)). exact H2.
  - exact H3.
Qed.

Lemma reordered_item (item : ItemDto.t) (index : nat) :
  SplitValidator.validateItem dto' item index = SplitValidator.validateItem dto item index.
Proof.
  unfold SplitValidator.validateItem, forEach. request_fields.
  assert (E : forall i,
    forEach_from
      (fun (participantId : string) (_ : nat) =>
         throw_if (negb (Js.includes ids' participantId))
           (ItemForeignParticipant (ItemDto.name item) participantId))
      (ItemDto.participantIds item) i
    = forEach_from
        (fun (participantId : string) (_ : nat) =>
           throw_if (negb (Js.includes (participantIds dto) participantId))
             (ItemForeignParticipant (ItemDto.name item) participantId))
        (ItemDto.participantIds item) i).
  { apply ieee_forEach_from_ext. intros x i _. rewrite reordered_includes. reflexivity. }
  rewrite E. reflexivity.
Qed.

Lemma reordered_itemized :
  SplitValidator.validateItemizedSplit dto' = SplitValidator.validateItemizedSplit dto.
Proof.
  unfold SplitValidator.validateItemizedSplit. request_fields.
  destruct (items dto) as [its|]; [|reflexivity].
  rewrite (ieee_forEach_from_ext
             (SplitValidator.validateItem (with_participantIds dto ids'))
             (SplitValidator.validateItem dto) its);
    [reflexivity|].
  intros item i _. apply reordered_item.
Qed.

(** The final loop of the Percentage and Custom validators: every
    request participant has an entry in the map. *)
Lemma reordered_coverage {V : Type} (m : Js.Map.t V)
  (missing : string -> BadRequestException) :
  forEach (fun participantId => throw_if (negb (Js.Map.has m participantId))
                                  (missing participantId)) (participantIds dto)
  = Returns tt ->
  forEach (fun participantId => throw_if (negb (Js.Map.has m participantId))
                                  (missing participantId)) ids'
  = Returns tt.
Proof.
  rewrite !ieee_forEach_returns. intros H x Hx. apply H.
  apply (Permutation_in _ reordered). exact Hx.
Qed.

Lemma reordered_percentage :
  SplitValidator.validatePercentageSplit dto = Returns tt ->
  SplitValidator.validatePercentageSplit dto' = Returns tt.
Proof.
  unfold SplitValidator.validatePercentageSplit. request_fields.
  destruct (percentages dto) as [entries|]; [|discriminate].
  rewrite (ieee_forEach_state_ext
             (SplitValidator.validatePercentageEntry (with_participantIds dto ids'))
             (SplitValidator.validatePercentageEntry dto) entries).
  - cbv zeta. rewrite !ieee_guard_returns. intros [H1 [H2 H]]. split; [exact H1|].
    split; [exact H2|].
    apply ieee_bind_returns in H. destruct H as [m [Hm H]]. rewrite Hm. cbn [bind].
    apply ieee_guard_returns in H. destruct H as [H3 H4].
    apply ieee_guard_returns. split; [exact H3|]. apply reordered_coverage. exact H4.
  - intros m e _. unfold SplitValidator.validatePercentageEntry. request_fields.
    rewrite reordered_includes. reflexivity.
Qed.

Lemma reordered_custom :
  SplitValidator.validateCustomSplit dto = Returns tt ->
  SplitValidator.validateCustomSplit dto' = Returns tt.
Proof.
  unfold SplitValidator.validateCustomSplit. request_fields.
  destruct (customAmounts dto) as [entries|]; [|discriminate].
  rewrite (ieee_forEach_state_ext
             (SplitValidator.validateCustomEntry (with_participantIds dto ids'))
             (SplitValidator.validateCustomEntry dto) entries).
  - cbv zeta. rewrite !ieee_guard_returns. intros [H1 [H2 H]]. split; [exact H1|].
    split; [exact H2|].
    apply ieee_bind_returns in H. destruct H as [m [Hm H]]. rewrite Hm. cbn [bind].
    apply ieee_guard_returns in H. destruct H as [H3 H4].
    apply ieee_guard_returns. split; [exact H3|]. apply reordered_coverage. exact H4.
  - intros m e _. unfold SplitValidator.validateCustomEntry. request_fields.
    rewrite reordered_includes. reflexivity.
Qed.

Lemma reordered_validate :
  SplitValidator.validate dto = Returns tt ->
  SplitValidator.validate dto' = Returns tt.
Proof.
  unfold SplitValidator.validate. intro H.
  apply ieee_bind_returns in H. destruct H as [[] [Hb H]].
  rewrite (reordered_basic Hb). cbn [bind].
  change (splitType dto') with (splitType dto).
  destruct (splitType dto).
  - exact H.
  - rewrite reordered_itemized. exact H.
  - apply reordered_percentage. exact H.
  - apply reordered_custom. exact H.
Qed.

(** Every strategy maps one function of the participant over the
    [participantIds] array, and reordering the array does not change the
    function. *)
Lemma reordered_strategyShares :
  exists share : string -> ParticipantShareDto.t,
    strategyShares dto = map share (participantIds dto) /\
    strategyShares dto' = map share ids'.
Proof.
  unfold strategyShares. change (splitType dto') with (splitType dto).
  destruct (splitType dto).
  - unfold calculateEqualSplit. request_fields. rewrite reordered_length_num.
    eexists. split; reflexivity.
  - rewrite !ieee_calculateItemizedSplit_unfold. request_fields. cbv zeta.
    rewrite reordered_length_num.
    pose proof (ieee_distributeItems_sameMaps (Js.or_else (items dto) []) _ _
                  (ieee_initializeParticipants_perm _ _ reordered)) as [Hs Hi].
    eexists. split; [reflexivity|].
    apply map_ext. intro id. rewrite (Hs id), (Hi id). reflexivity.
  - unfold calculatePercentageSplit. request_fields. rewrite reordered_length_num.
    eexists. split; reflexivity.
  - unfold calculateCustomSplit. request_fields. rewrite reordered_length_num.
    eexists. split; reflexivity.
Qed.

Lemma reordered_strategy_perm :
  Permutation (strategyShares dto') (strategyShares dto).
Proof.
  destruct reordered_strategyShares as [share [-> ->]].
  apply Permutation_map. exact reordered.
Qed.

End IeeeParticipantOrder.

Section IeeeReconciledImage.
Import Ieee Ieee.SplitCalculationService Ieee.ParticipantShareDto.

Lemma ieee_In_replaceAt (l : list ParticipantShareDto.t) (f : t -> t) :
  forall m s0, In s0 l -> exists s, In s (replaceAt l m f) /\ (s = s0 \/ s = f s0).
Proof.
  induction l as [|x r IH]; intros [|m] s0 H; simpl in *; try contradiction.
  - destruct H as [<-|H]; [exists (f x); auto | exists s0; auto].
  - destruct H as [<-|H]; [exists x; auto|].
    destruct (IH m s0 H) as [s [Hs D]]. exists s. auto.
Qed.

Lemma ieee_reconciledShares_image (d : CalculateSplitDto.t) (s0 : ParticipantShareDto.t) :
  In s0 (strategyShares d) ->
  exists s, In s (reconciledShares d) /\
            (s = s0 \/ s = adjusted (roundingAdjustmentOf d) s0).
Proof.
  destruct (ieee_reconciledShares_cases d) as [->|[m ->]].
  - intro H. exists s0. auto.
  - apply ieee_In_replaceAt.
Qed.

End IeeeReconciledImage.

(** ** The payload loops of the Percentage and Custom validators *)

Section IeeePercentage.
Import Ieee Ieee.SplitCalculationService Ieee.PercentageSplitDto.
Local Open Scope ieee_outcome_scope.
Local Open Scope float_scope.

Lemma ieee_percentageMapOf_keys (entries : list PercentageSplitDto.t) :
  map fst (percentageMapOf entries) = map participantId entries.
Proof. unfold percentageMapOf. rewrite map_map. reflexivity. Qed.

(** The sum over the values of the map is the sum over the entries, in
    the same order. *)
Lemma ieee_percentageMapOf_values (entries : list PercentageSplitDto.t) :
  reduce_sum (fun pct => pct) (Js.Map.values (percentageMapOf entries))
  = reduce_sum percentage entries.
Proof.
  unfold reduce_sum. generalize 0.
  induction entries as [|e r IH]; intro a; simpl; [reflexivity | apply IH].
Qed.

Variable dto : CalculateSplitDto.t.

Lemma ieee_validatePercentageEntry_returns (m m' : Js.Map.t float)
  (e : PercentageSplitDto.t) :
  SplitValidator.validatePercentageEntry dto m e = Returns m' <->
  In (participantId e) (CalculateSplitDto.participantIds dto) /\
  Js.Map.has m (participantId e) = false /\
  (Double.lt (percentage e) 0 = false /\ Double.gt (percentage e) 100 = false) /\
  m' = Js.Map.set m (participantId e) (percentage e).
Proof.
  unfold SplitValidator.validatePercentageEntry. cbv zeta.
  rewrite !ieee_guard_returns, negb_false_iff, includes_In, orb_false_iff.
  split.
  - intros [H1 [H2 [H3 H4]]]. injection H4 as <-. auto.
  - intros [H1 [H2 [H3 ->]]]. auto.
Qed.

(** The loop over the entries succeeds only on a well-formed payload and
    then holds the entries in order. *)
Lemma ieee_percentageEntries_returns (entries : list PercentageSplitDto.t) :
  forall m0 m,
    forEach_state (SplitValidator.validatePercentageEntry dto) entries m0 = Returns m ->
    (forall e, In e entries ->
       In (participantId e) (CalculateSplitDto.participantIds dto) /\
       Js.Map.has m0 (participantId e) = false /\
       Double.lt (percentage e) 0 = false /\ Double.gt (percentage e) 100 = false) /\
    NoDup (map participantId entries) /\
    m = m0 ++ percentageMapOf entries.
Proof.
  induction entries as [|e r IH]; intros m0 m H; simpl in H.
  - injection H as <-. split; [intros e []|]. split; [constructor|].
    simpl. rewrite app_nil_r. reflexivity.
  - apply ieee_bind_returns in H. destruct H as [m1 [He Hr]].
    apply ieee_validatePercentageEntry_returns in He.
    destruct He as [H1 [H2 [[H3 H4] ->]]].
    destruct (IH _ _ Hr) as [Hall [Hnd ->]].
    assert (Hfresh : forall e', In e' r -> participantId e <> participantId e'
                                /\ Js.Map.has m0 (participantId e') = false).
    { intros e' He'. destruct (Hall e' He') as [_ [Hh _]].
      rewrite has_set in Hh. apply orb_false_iff in Hh. destruct Hh as [Hn Hh].
      apply String.eqb_neq in Hn. auto. }
    split; [|split].
    + intros e' [<-|He']; [auto|].
      destruct (Hall e' He') as [A [_ [B C]]]. destruct (Hfresh e' He') as [_ D]. auto.
    + simpl. constructor; [|exact Hnd].
      rewrite in_map_iff. intros [e' [E He']].
      destruct (Hfresh e' He') as [N _]. apply N. symmetry. exact E.
    + rewrite (set_fresh _ _ _ H2), <- app_assoc. reflexivity.
Qed.

(** The loop over the entries throws only on a foreign participant, a
    participant already in the map, a repeated participant or a
    percentage out of range. *)
Lemma ieee_percentageEntries_throws (entries : list PercentageSplitDto.t) :
  forall m0 x,
    forEach_state (SplitValidator.validatePercentageEntry dto) entries m0 = Throws x ->
    (exists e, In e entries /\
               ~ In (participantId e) (CalculateSplitDto.participantIds dto)) \/
    (exists e, In e entries /\ Js.Map.has m0 (participantId e) = true) \/
    ~ NoDup (map participantId entries) \/
    (exists e, In e entries /\
               (Double.lt (percentage e) 0 = true \/ Double.gt (percentage e) 100 = true)).
Proof.
  induction entries as [|e r IH]; intros m0 x H; simpl in H; [discriminate|].
  destruct (Js.includes (CalculateSplitDto.participantIds dto) (participantId e)) eqn:Ei.
  2:{ left. exists e. split; [left; reflexivity|].
      rewrite <- includes_In, Ei. discriminate. }
  destruct (Js.Map.has m0 (participantId e)) eqn:Eh.
  { right. left. exists e. split; [left; reflexivity | exact Eh]. }
  destruct (Double.lt (percentage e) 0) eqn:El.
  { right. right. right. exists e. split; [left; reflexivity|]. left. exact El. }
  destruct (Double.gt (percentage e) 100) eqn:Eg.
  { right. right. right. exists e. split; [left; reflexivity|]. right. exact Eg. }
  unfold SplitValidator.validatePercentageEntry in H. cbv zeta in H.
  rewrite Ei, Eh, El, Eg in H. cbn in H.
  destruct (IH _ _ H) as [[e' [He' F]]|[[e' [He' F]]|[F|[e' [He' F]]]]].
  - left. exists e'. split; [right|]; assumption.
  - rewrite has_set in F. apply orb_true_iff in F. destruct F as [F|F].
    + right. right. left. simpl. intro N. inversion N as [|? ? Hn _]. subst.
      apply Hn. apply String.eqb_eq in F. rewrite F. apply in_map. exact He'.
    + right. left. exists e'. split; [right|]; assumption.
  - right. right. left. simpl. intro N. inversion N. contradiction.
  - right. right. right. exists e'. split; [right|]; assumption.
Qed.

Lemma ieee_validatePercentageSplit_returns :
  SplitValidator.validatePercentageSplit dto = Returns tt ->
  ~ foreignPayload dto /\ ~ percentageFault dto.
Proof.
  unfold SplitValidator.validatePercentageSplit, foreignPayload, percentageFault,
    percentageEntries.
  destruct (CalculateSplitDto.percentages dto) as [entries|]; [|discriminate].
  cbv zeta. rewrite !ieee_guard_returns, orb_false_iff. cbn [Js.or_else].
  intros [_ [[Hi Hc] H]].
  apply ieee_bind_returns in H. destruct H as [m [Hloop H]].
  apply ieee_guard_returns in H. destruct H as [Hsum Hcover].
  apply ieee_percentageEntries_returns in Hloop. destruct Hloop as [Hall [Hnd ->]].
  unfold Js.Map.empty in *. cbn [app] in *.
  rewrite ieee_percentageMapOf_values in Hsum.
  rewrite ieee_forEach_returns in Hcover.
  split.
  - intros [N|N]; apply N.
    + destruct (CalculateSplitDto.items dto); [discriminate Hi | reflexivity].
    + destruct (CalculateSplitDto.customAmounts dto); [discriminate Hc | reflexivity].
  - intros [[id [Hid N]]|[[e [He N]]|[N|[[e [He N]]|N]]]].
    + apply N. specialize (Hcover id Hid).
      apply ieee_throw_if_returns, negb_false_iff, has_keys in Hcover.
      rewrite ieee_percentageMapOf_keys in Hcover. exact Hcover.
    + apply N, (Hall e He).
    + apply N, Hnd.
    + destruct (Hall e He) as [_ [_ [Hlo Hhi]]]. destruct N; congruence.
    + congruence.
Qed.

Lemma ieee_validatePercentageSplit_throws :
  CalculateSplitDto.participantIds dto <> [] ->
  throws (SplitValidator.validatePercentageSplit dto) ->
  foreignPayload dto \/ percentageFault dto.
Proof.
  intros Hne [x H].
  assert (Missing : percentageEntries dto = [] -> percentageFault dto).
  { intro E. left. rewrite E. cbv zeta.
    destruct (CalculateSplitDto.participantIds dto) as [|id r]; [congruence|].
    exists id. split; [left; reflexivity | intros []]. }
  unfold SplitValidator.validatePercentageSplit in H.
  unfold foreignPayload, percentageFault, percentageEntries in *.
  destruct (CalculateSplitDto.percentages dto) as [entries|];
    [|right; apply Missing; reflexivity].
  cbn [Js.or_else] in *. cbv zeta in H.
  destruct entries as [|e0 r0]; [right; apply Missing; reflexivity|].
  cbn [List.length Nat.eqb throw_if bind] in H. set (entries := e0 :: r0) in *.
  destruct (CalculateSplitDto.items dto) as [its|]; [left; left; discriminate|].
  destruct (CalculateSplitDto.customAmounts dto) as [cs|]; [left; right; discriminate|].
  cbn [Js.truthy orb throw_if bind] in H. right.
  destruct (forEach_state (SplitValidator.validatePercentageEntry dto) entries Js.Map.empty)
    as [m|x'] eqn:Hloop; cbn [bind] in H.
  - apply ieee_percentageEntries_returns in Hloop. destruct Hloop as [_ [_ ->]].
    unfold Js.Map.empty in H. cbn [app] in H. rewrite ieee_percentageMapOf_values in H.
    destruct (Double.gt _ _) eqn:G; cbn [throw_if bind] in H.
    + right. right. right. right. reflexivity.
    + apply ieee_forEach_throws in H. destruct H as [id [Hid Hf]].
      left. exists id. split; [exact Hid|].
      rewrite <- ieee_percentageMapOf_keys, <- has_keys.
      destruct (Js.Map.has (percentageMapOf entries) id); [discriminate Hf | discriminate].
  - apply ieee_percentageEntries_throws in Hloop.
    destruct Hloop as [F|[[e [_ F]]|[F|F]]]; auto.
    discriminate F.
Qed.

End IeeePercentage.

(** * The claims about amounts, on doubles *)

(** Runs [calculateSplit] on a concrete request: the call is replaced by
    the result it returns. *)
Ltac run_calculateSplit dto E :=
  let res := fresh "res" in
  let e := fresh "e" in
  let E' := fresh "E" in
  destruct (Ieee.SplitCalculationService.calculateSplit dto) as [res|e] eqn:E;
  [ pose proof E as E'; vm_compute in E'; injection E' as <-
  | vm_compute in E; discriminate E ].

(** Settles a goal on concrete doubles by evaluation. *)
Ltac evaluated := vm_compute; reflexivity.

(** ** Conservation (C1) *)

Section Conservation.
Import Ieee Ieee.SplitCalculationService.
Local Open Scope float_scope.




End Conservation.

(** ** The total of a share (C2) *)

Section ShareTotal.
Import Ieee Ieee.SplitCalculationService.
Local Open Scope float_scope.

(** C2, as stated, at [Requests.threeWay] (100 split equally among three):
    the first share is returned with subtotal 33.33, tax 0, tip 0 and
    total 33.34. *)
Lemma share_total_counterexample :
  ~ (forall res, calculateSplit Requests.threeWay = Returns res ->
       forall s, In s (SplitCalculationResultDto.shares res) ->
         Double.strict_eq (ParticipantShareDto.total s)
           (ParticipantShareDto.subtotal s + ParticipantShareDto.tax s
            + ParticipantShareDto.tip s) = true).
Proof.
  intro H. run_calculateSplit Requests.threeWay E.
  specialize (H _ eq_refl _ (or_introl eq_refl)).
  vm_compute in H. discriminate H.
Qed.

(** C2, amended: in every result returned by [calculateSplit], every share
    other than the one selected for the rounding correction has
    [total = round(subtotal + tax + tip)], the sum and the rounding
    computed in doubles on the share's own fields; the selected share (the
    first one with the largest total, when [|roundingAdjustment| > 0.001])
    has [total = round(round(subtotal + tax + tip) - roundingAdjustment)]. *)
Theorem share_total_formula (dto : CalculateSplitDto.t) (res : SplitCalculationResultDto.t) :
  calculateSplit dto = Returns res ->
  let adjustment := SplitCalculationResultDto.roundingAdjustment res in
  (needsReconciliation adjustment = false ->
   forall s, In s (SplitCalculationResultDto.shares res) ->
     ParticipantShareDto.total s
     = round (ParticipantShareDto.subtotal s + ParticipantShareDto.tax s
              + ParticipantShareDto.tip s)) /\
  (needsReconciliation adjustment = true ->
   exists m, firstLargest (strategyShares dto) m /\
     forall j s, nth_error (SplitCalculationResultDto.shares res) j = Some s ->
       (j <> m ->
        ParticipantShareDto.total s
        = round (ParticipantShareDto.subtotal s + ParticipantShareDto.tax s
                 + ParticipantShareDto.tip s)) /\
       (j = m ->
        ParticipantShareDto.total s
        = round (round (ParticipantShareDto.subtotal s + ParticipantShareDto.tax s
                        + ParticipantShareDto.tip s)
                 - adjustment))).
Proof.
  intro H. apply ieee_calculateSplit_returns in H. destruct H as [Hv [_ [_ ->]]].
  cbn [SplitCalculationResultDto.roundingAdjustment SplitCalculationResultDto.shares].
  assert (T : forall s, In s (strategyShares dto) ->
            ParticipantShareDto.total s
            = round (ParticipantShareDto.subtotal s + ParticipantShareDto.tax s
                     + ParticipantShareDto.tip s)).
  { intros s Hs. apply (ieee_strategyShares_builtFrom dto s Hs). }
  split.
  - intros Hsmall s Hs. rewrite (ieee_reconciledShares_unchanged dto Hsmall) in Hs.
    exact (T s Hs).
  - intro Hbig.
    destruct (ieee_reconciledShares_adjusted dto (ieee_validate_nonempty dto Hv) Hbig)
      as [m [Hm ->]].
    exists m. split; [exact Hm|]. intros j s Hj. split.
    + intro N. rewrite (ieee_replaceAt_other _ _ m j N) in Hj.
      exact (T s (nth_error_In _ _ Hj)).
    + intros ->. destruct Hm as [sm [Hsm _]].
      rewrite (ieee_replaceAt_same _ _ m sm Hsm) in Hj. injection Hj as <-.
      unfold adjusted.
      cbn [ParticipantShareDto.with_total ParticipantShareDto.total
           ParticipantShareDto.subtotal ParticipantShareDto.tax ParticipantShareDto.tip].
      rewrite <- (T sm (nth_error_In _ _ Hsm)). reflexivity.
Qed.

Lemma share_total_formula_witness :
  exists res, calculateSplit Requests.threeWay = Returns res /\
    exists m, firstLargest (strategyShares Requests.threeWay) m /\
      forall j s, nth_error (SplitCalculationResultDto.shares res) j = Some s ->
        (j <> m ->
         ParticipantShareDto.total s
         = round (ParticipantShareDto.subtotal s + ParticipantShareDto.tax s
                  + ParticipantShareDto.tip s)) /\
        (j = m ->
         ParticipantShareDto.total s
         = round (round (ParticipantShareDto.subtotal s + ParticipantShareDto.tax s
                         + ParticipantShareDto.tip s)
                  - SplitCalculationResultDto.roundingAdjustment res)).
Proof.
  run_calculateSplit Requests.threeWay E. eexists. split; [reflexivity|].
  apply (share_total_formula Requests.threeWay _ E).
  evaluated.
Defined.

End ShareTotal.

(** ** The reconciliation step (C4) *)

Section ReconciliationStep.
Import Ieee Ieee.SplitCalculationService.
Local Open Scope float_scope.

(** C4: in [calculateSplit] the rounding reconciliation runs exactly when
    [|roundingAdjustment| > 0.001], the adjustment being
    [round(calculatedTotal - expectedTotal)] on the doubles the strategy
    produced; it replaces the total of the first share holding the largest
    total with [round(total - roundingAdjustment)], every other field of
    that share and every other share being returned as the strategy
    produced them; when the test [|roundingAdjustment| > 0.001] fails no
    share is changed. *)
Theorem reconciliation_step (dto : CalculateSplitDto.t) (res : SplitCalculationResultDto.t) :
  calculateSplit dto = Returns res ->
  let produced := strategyShares dto in
  let returned := SplitCalculationResultDto.shares res in
  let adjustment := SplitCalculationResultDto.roundingAdjustment res in
  adjustment = round (sumOfTotals produced - expectedTotal dto) /\
  (Double.gt (Double.Math_abs adjustment) 0.001 = false -> returned = produced) /\
  (Double.gt (Double.Math_abs adjustment) 0.001 = true ->
   exists m sm,
     firstLargest produced m /\
     nth_error produced m = Some sm /\
     nth_error returned m
     = Some {| ParticipantShareDto.participantId := ParticipantShareDto.participantId sm;
               ParticipantShareDto.subtotal := ParticipantShareDto.subtotal sm;
               ParticipantShareDto.tax := ParticipantShareDto.tax sm;
               ParticipantShareDto.tip := ParticipantShareDto.tip sm;
               ParticipantShareDto.total := round (ParticipantShareDto.total sm - adjustment);
               ParticipantShareDto.items := ParticipantShareDto.items sm |} /\
     List.length returned = List.length produced /\
     forall j, j <> m -> nth_error returned j = nth_error produced j).
Proof.
  intro H. apply ieee_calculateSplit_returns in H. destruct H as [Hv [_ [_ ->]]].
  cbn [SplitCalculationResultDto.roundingAdjustment SplitCalculationResultDto.shares].
  split; [reflexivity|]. split.
  - apply ieee_reconciledShares_unchanged.
  - intro Hbig.
    destruct (ieee_reconciledShares_adjusted dto (ieee_validate_nonempty dto Hv) Hbig)
      as [m [Hm ->]].
    pose proof Hm as [sm [Hsm _]]. exists m, sm.
    split; [exact Hm|]. split; [exact Hsm|]. split; [|split].
    + exact (ieee_replaceAt_same _ (adjusted (roundingAdjustmentOf dto)) m sm Hsm).
    + apply ieee_replaceAt_length.
    + intros j N. apply ieee_replaceAt_other. exact N.
Qed.

Lemma reconciliation_step_witness :
  exists res, calculateSplit Requests.threeWay = Returns res /\
    exists m sm,
      firstLargest (strategyShares Requests.threeWay) m /\
      nth_error (strategyShares Requests.threeWay) m = Some sm /\
      nth_error (SplitCalculationResultDto.shares res) m
      = Some {| ParticipantShareDto.participantId := ParticipantShareDto.participantId sm;
                ParticipantShareDto.subtotal := ParticipantShareDto.subtotal sm;
                ParticipantShareDto.tax := ParticipantShareDto.tax sm;
                ParticipantShareDto.tip := ParticipantShareDto.tip sm;
                ParticipantShareDto.total :=
                  round (ParticipantShareDto.total sm
                         - SplitCalculationResultDto.roundingAdjustment res);
                ParticipantShareDto.items := ParticipantShareDto.items sm |} /\
      List.length (SplitCalculationResultDto.shares res)
      = List.length (strategyShares Requests.threeWay) /\
      forall j, j <> m ->
        nth_error (SplitCalculationResultDto.shares res) j
        = nth_error (strategyShares Requests.threeWay) j.
Proof.
  run_calculateSplit Requests.threeWay E. eexists. split; [reflexivity|].
  apply (reconciliation_step Requests.threeWay _ E).
  evaluated.
Defined.

End ReconciliationStep.

(** ** Rounding closure (C5) *)

Section RoundingClosure.
Import Ieee Ieee.SplitCalculationService.
Local Open Scope float_scope.




End RoundingClosure.

(** ** The rounding helper (C3) *)

Section RoundingRule.
Import Ieee Ieee.SplitCalculationService.
Local Open Scope float_scope.

(** C3, as stated, at [v = -0.125]: [v * 100 = -12.5] is an exact tie,
    [Math.round] takes it to [-12], so [round v = -0.12], while the formula
    of the claim gives [-0.13]. *)
Lemma round_counterexample :
  round (-0.125) = (-0.12)%float /\
  roundHalfAwayFromZero (-0.125) = (-0.13)%float /\
  Double.strict_eq (round (-0.125)) (roundHalfAwayFromZero (-0.125)) = false.
Proof. vm_compute. repeat split; reflexivity. Qed.

(** C3, amended: the rounding helper is [Math.round(v * 100) / 100] in
    double arithmetic.  The product [p = v * 100] is a double; when it is
    not an integer ([p = n * 2^e] with [e < 0]), [Math.round(p)] is the
    integer [z] nearest to it, [z - 1/2 <= p < z + 1/2], so that a tie goes
    towards plus infinity and not away from zero (and [-0] is returned for
    [-0.5 <= p < 0]); when [p] is an integer, a zero, an infinity or NaN,
    [Math.round(p)] is [p].  The result is that number divided by 100 in
    doubles.  The tie is decided on the double product, not on the decimal
    reading of [v]: [round(-0.125) = -0.12], [round(1.005) = 1]. *)
Theorem round_half_up (v : float) :
  let scaled := v * 100 in
  round v = Double.Math_round scaled / 100 /\
  (forall s m e, Prim2SF scaled = S754_finite s m e -> (e < 0)%Z ->
     exists z,
       nearestTiesUp (Double.numerator s m) e z /\
       (forall z', nearestTiesUp (Double.numerator s m) e z' -> z' = z) /\
       Double.Math_round scaled
       = if (z =? 0)%Z then Double.signed_zero s else Double.of_Z z) /\
  ((forall s m e, Prim2SF scaled = S754_finite s m e -> (0 <= e)%Z) ->
   Double.Math_round scaled = scaled).
Proof.
  intro scaled. split; [reflexivity|]. split.
  - intros s m e E He.
    exists (Double.nearest_ties_up (Double.numerator s m) e).
    pose proof (nearest_ties_up_spec (Double.numerator s m) e He) as N.
    split; [exact N|]. split.
    + intros z' N'. exact (nearestTiesUp_unique _ _ _ _ He N' N).
    + exact (Math_round_finite scaled s m e E He).
  - apply Math_round_integer.
Qed.

Lemma round_half_up_witness :
  exists z, nearestTiesUp (-7036874417766400) (-49) z /\
            Double.Math_round (-0.125 * 100) = Double.of_Z z /\ z = (-12)%Z.
Proof.
  destruct (round_half_up (-0.125)) as [_ [N _]].
  destruct (N true 7036874417766400%positive (-49)%Z) as [z [Hz [U Hr]]];
    [evaluated | reflexivity |].
  assert (Z12 : z = (-12)%Z).
  { symmetry. apply U. unfold nearestTiesUp.
    split; [apply Z.leb_le | apply Z.ltb_lt]; evaluated. }
  exists z. split; [exact Hz|]. split; [|exact Z12].
  rewrite Hr, Z12. reflexivity.
Defined.

(** The helper on the doubles nearest to 1.005, 0.615 and 0.125, and on
    1e308, whose product with 100 overflows. *)
Example round_examples :
  round 1.005 = 1 /\ round 0.615 = 0.62 /\ round 0.125 = 0.13 /\
  round 1e308 = infinity.
Proof. vm_compute. repeat split; reflexivity. Qed.

(** The helper is not idempotent: from about 3.5e13 on, a value of the
    helper need not be a fixed point of the helper. *)
Example round_not_idempotent :
  round 35186482267154.586 = 35186482267154.59 /\
  round 35186482267154.59 = 35186482267154.6.
Proof. vm_compute. repeat split; reflexivity. Qed.

End RoundingRule.

(** ** Tip distribution (C6) *)

Section TipDistribution.
Import Ieee Ieee.SplitCalculationService.
Local Open Scope float_scope.

(** C6, as stated, at [Requests.halfCentTip] (custom amounts 0.5 and 0.75
    of 1.25, tip 0.375, Proportional by default): the share of u2 is
    returned with tip 0.22, while [round(tip * participantSubtotal /
    subtotal)] is [round(0.225) = 0.23], in exact arithmetic as in doubles
    ([0.375 * 0.75 / 1.25]).  The code divides first:
    [0.75 / 1.25] is the double below 0.6 and the product falls below the
    tie. *)
Lemma tip_distribution_counterexample :
  ~ (forall res, calculateSplit Requests.halfCentTip = Returns res ->
       forall s, In s (SplitCalculationResultDto.shares res) ->
         Double.strict_eq (ParticipantShareDto.tip s)
           (round (0.375 * ParticipantShareDto.subtotal s / 1.25)) = true).
Proof.
  intro H. run_calculateSplit Requests.halfCentTip E.
  specialize (H _ eq_refl _ (or_intror (or_introl eq_refl))).
  vm_compute in H. discriminate H.
Qed.

(** C6, amended: under every strategy, every returned share's tip is 0
    when the request's tip is 0 or absent; otherwise it is
    [round(tip / participantCount)] when the effective mode is Equal,
    [round(tip * (participantSubtotal / subtotal))] when it is Proportional
    and [subtotal] is not 0 - the proportion is divided first, and every
    step is a double operation - and [round(tip / participantCount)] when
    it is Proportional and [subtotal] is 0.  The effective mode
    ([effectiveTipDistribution]) is the request's [tipDistribution] when
    present, else Equal for Equal-split requests and Proportional for the
    Itemized, Percentage and Custom ones. *)
Theorem tip_distribution (dto : CalculateSplitDto.t) (res : SplitCalculationResultDto.t) :
  calculateSplit dto = Returns res ->
  let tip := Double.or_num (CalculateSplitDto.tip dto) 0 in
  let subtotal := CalculateSplitDto.subtotal dto in
  let participantCount := Double.length_num (CalculateSplitDto.participantIds dto) in
  forall s, In s (SplitCalculationResultDto.shares res) ->
    (Double.strict_eq tip 0 = true -> ParticipantShareDto.tip s = 0) /\
    (Double.strict_eq tip 0 = false ->
     (effectiveTipDistribution dto = TipDistributionType.EQUAL ->
      ParticipantShareDto.tip s = round (tip / participantCount)) /\
     (effectiveTipDistribution dto = TipDistributionType.PROPORTIONAL ->
      Double.strict_eq subtotal 0 = false ->
      ParticipantShareDto.tip s
      = round (tip * (ParticipantShareDto.subtotal s / subtotal))) /\
     (effectiveTipDistribution dto = TipDistributionType.PROPORTIONAL ->
      Double.strict_eq subtotal 0 = true ->
      ParticipantShareDto.tip s = round (tip / participantCount))).
Proof.
  intros H tip subtotal participantCount s Hs.
  apply ieee_calculateSplit_returns in H. destruct H as [_ [_ [_ ->]]].
  cbn [SplitCalculationResultDto.shares] in Hs.
  destruct (ieee_reconciledShares_builtFrom dto s Hs)
    as [s0 [_ [[_ [_ [_ [Htip _]]]] [_ [-> [_ [-> _]]]]]]].
  rewrite Htip. fold tip subtotal participantCount. unfold distributeTip.
  split.
  - intros ->. reflexivity.
  - intros ->. split; [|split].
    + intros ->. reflexivity.
    + intros -> ->. reflexivity.
    + intros -> ->. reflexivity.
Qed.

Lemma tip_distribution_witness :
  exists res, calculateSplit Requests.sixtyForty = Returns res /\
    forall s, In s (SplitCalculationResultDto.shares res) ->
      ParticipantShareDto.tip s = round (20 * (ParticipantShareDto.subtotal s / 100)).
Proof.
  run_calculateSplit Requests.sixtyForty E. eexists. split; [reflexivity|].
  intros s Hs.
  apply (tip_distribution Requests.sixtyForty _ E s Hs); evaluated.
Defined.

End TipDistribution.

(** ** Tax distribution (C7) *)

Section TaxDistribution.
Import Ieee Ieee.SplitCalculationService.
Local Open Scope float_scope.




End TaxDistribution.

(** ** Percentage validation (C8) *)

Section PercentageValidation.
Import Ieee Ieee.SplitCalculationService.
Local Open Scope float_scope.

(** C8, as stated, at [Requests.sixtyFortyWithItems] (a 60/40 percentage
    request that also carries an [items] array): none of the five listed
    faults is present, yet validation throws, on the payload-exclusivity
    check. *)
Lemma percentage_validation_counterexample :
  ~ (SplitValidator.validateBasicRequirements Requests.sixtyFortyWithItems = Returns tt ->
     (throws (SplitValidator.validate Requests.sixtyFortyWithItems)
      <-> percentageFault Requests.sixtyFortyWithItems)).
Proof.
  intro H.
  assert (B : SplitValidator.validateBasicRequirements Requests.sixtyFortyWithItems
              = Returns tt) by evaluated.
  destruct (H B) as [Hthrow _].
  assert (T : throws (SplitValidator.validate Requests.sixtyFortyWithItems)).
  { eexists. evaluated. }
  destruct (Hthrow T) as [[id [Hid N]]|[[e [He N]]|[N|[[e [He N]]|N]]]].
  - apply N. simpl in *. tauto.
  - apply N. simpl in *. destruct He as [<-|[<-|[]]]; simpl; auto.
  - apply N. simpl. repeat constructor; simpl; intuition discriminate.
  - simpl in He. destruct He as [<-|[<-|[]]]; destruct N as [N|N];
      vm_compute in N; discriminate N.
  - vm_compute in N. discriminate N.
Qed.

(** C8, amended: for every Percentage request that passes the basic
    checks, validation throws exactly when an unrelated payload ([items] or
    [customAmounts]) is present, or some request participant has no
    percentage entry, some entry names a participant outside the request's
    participant set, two entries name the same participant, some percentage
    is below 0 or above 100, or the double sum of the percentages, added in
    payload order, differs from 100 by more than 0.01 in the code's
    comparison [Math.abs(totalPercentage - 100) > 0.01]; otherwise the
    checks pass.  The sum test is the one on doubles: three entries of
    33.33 are rejected ([thirds_rejected]). *)
Theorem percentage_validation (dto : CalculateSplitDto.t) :
  CalculateSplitDto.splitType dto = PERCENTAGE ->
  SplitValidator.validateBasicRequirements dto = Returns tt ->
  (throws (SplitValidator.validate dto) <-> foreignPayload dto \/ percentageFault dto) /\
  (SplitValidator.validate dto = Returns tt <-> ~ (foreignPayload dto \/ percentageFault dto)).
Proof.
  intros Hty Hb.
  assert (E : SplitValidator.validate dto = SplitValidator.validatePercentageSplit dto).
  { unfold SplitValidator.validate. rewrite Hb, Hty. reflexivity. }
  rewrite E.
  assert (Hne : CalculateSplitDto.participantIds dto <> []).
  { apply ieee_validateBasicRequirements_returns in Hb. apply Hb. }
  pose proof (ieee_validatePercentageSplit_returns dto) as R.
  pose proof (ieee_validatePercentageSplit_throws dto Hne) as T.
  destruct (SplitValidator.validatePercentageSplit dto) as [[]|x].
  - destruct (R eq_refl) as [R1 R2]. split; split.
    + intros [e C]. discriminate C.
    + intros [C|C]; contradiction.
    + intros _ [C|C]; contradiction.
    + reflexivity.
  - assert (F : foreignPayload dto \/ percentageFault dto).
    { apply T. exists x. reflexivity. }
    split; split.
    + intros _. exact F.
    + intros _. exists x. reflexivity.
    + discriminate.
    + intro N. contradiction.
Qed.

Lemma percentage_validation_witness :
  SplitValidator.validate Requests.sixtyForty = Returns tt /\
  ~ (foreignPayload Requests.sixtyForty \/ percentageFault Requests.sixtyForty).
Proof.
  split; [evaluated|].
  apply (percentage_validation Requests.sixtyForty eq_refl); evaluated.
Defined.

(** Three percentages of 33.33 add up to the double 99.99, whose distance
    from 100 is a double above 0.01: the request is rejected. *)
Example thirds_rejected :
  SplitValidator.validate Requests.thirds
  = Throws (PercentageTotalMismatch (33.33 + 33.33 + 33.33)) /\
  Double.Math_abs (33.33 + 33.33 + 33.33 - 100) = 0.010000000000005116.
Proof. vm_compute. split; reflexivity. Qed.

End PercentageValidation.

(** ** The order of the participants (C9) *)

Section ParticipantOrderClaim.
Import Ieee Ieee.SplitCalculationService.
Local Open Scope float_scope.

(** C9, as stated, at [Requests.threeWay] and the same request with its
    first two participants swapped: listed first, u1 is returned with total
    33.34; listed second, with total 33.33. *)
Lemma participant_order_counterexample :
  ~ (Permutation (CalculateSplitDto.participantIds Requests.threeWaySwapped)
       (CalculateSplitDto.participantIds Requests.threeWay) ->
     forall res res',
       calculateSplit Requests.threeWay = Returns res ->
       calculateSplit Requests.threeWaySwapped = Returns res' ->
       forall s s',
         In s (SplitCalculationResultDto.shares res) ->
         In s' (SplitCalculationResultDto.shares res') ->
         ParticipantShareDto.participantId s = ParticipantShareDto.participantId s' ->
         Double.strict_eq (ParticipantShareDto.total s) (ParticipantShareDto.total s')
         = true).
Proof.
  intro H.
  assert (P : Permutation (CalculateSplitDto.participantIds Requests.threeWaySwapped)
                (CalculateSplitDto.participantIds Requests.threeWay)).
  { apply perm_swap. }
  run_calculateSplit Requests.threeWay E.
  run_calculateSplit Requests.threeWaySwapped E'.
  specialize (H P _ _ eq_refl eq_refl
                _ _ (or_introl eq_refl) (or_intror (or_introl eq_refl)) eq_refl).
  vm_compute in H. discriminate H.
Qed.

(** C9, amended: for every valid request and every permutation of its
    [participantIds] list (strategy payload unchanged), the permuted
    request is valid too and its strategy produces the same shares up to
    reordering: each [participantId] is assigned the same subtotal, tax,
    tip, (for Itemized) items and the same total before the rounding
    correction; [grandTotal] is the same.  So in the results returned for
    the two orders each [participantId] has the same subtotal, tax, tip and
    items.  The returned totals and [roundingAdjustment] depend on the
    order: the correction goes to the first listed share among those with
    the largest total ([participant_order_counterexample]), and the
    adjustment is computed from the double sum of the totals in list order
    ([roundingAdjustment_depends_on_order]). *)
Theorem participant_order (dto : CalculateSplitDto.t) (ids' : list string) :
  Permutation ids' (CalculateSplitDto.participantIds dto) ->
  SplitValidator.validate dto = Returns tt ->
  let dto' := CalculateSplitDto.with_participantIds dto ids' in
  SplitValidator.validate dto' = Returns tt /\
  Permutation (strategyShares dto') (strategyShares dto) /\
  (forall res res',
     calculateSplit dto = Returns res ->
     calculateSplit dto' = Returns res' ->
     SplitCalculationResultDto.grandTotal res' = SplitCalculationResultDto.grandTotal res /\
     (forall s', In s' (SplitCalculationResultDto.shares res') ->
        exists s, In s (SplitCalculationResultDto.shares res) /\ sameAllocation s s') /\
     (needsReconciliation (SplitCalculationResultDto.roundingAdjustment res) = false ->
      needsReconciliation (SplitCalculationResultDto.roundingAdjustment res') = false ->
      Permutation (SplitCalculationResultDto.shares res')
        (SplitCalculationResultDto.shares res))).
Proof.
  intros P Hv dto'.
  pose proof (reordered_strategy_perm dto ids' P) as Pshares. fold dto' in Pshares.
  split; [exact (reordered_validate dto ids' P Hv)|].
  split; [exact Pshares|].
  intros res res' H H'.
  apply ieee_calculateSplit_returns in H. destruct H as [_ [_ [_ ->]]].
  apply ieee_calculateSplit_returns in H'. destruct H' as [_ [_ [_ ->]]].
  cbn [SplitCalculationResultDto.shares SplitCalculationResultDto.grandTotal
       SplitCalculationResultDto.roundingAdjustment].
  split; [reflexivity|]. split.
  - intros s' Hs'.
    destruct (ieee_reconciledShares_origin dto' s' Hs') as [s0 [H0' D']].
    assert (H0 : In s0 (strategyShares dto)) by exact (Permutation_in _ Pshares H0').
    destruct (ieee_reconciledShares_image dto s0 H0) as [s [Hs D]].
    exists s. split; [exact Hs|].
    destruct D as [->| ->], D' as [->| ->]; repeat split; reflexivity.
  - intros Hsmall Hsmall'.
    rewrite (ieee_reconciledShares_unchanged dto Hsmall).
    rewrite (ieee_reconciledShares_unchanged dto' Hsmall').
    exact Pshares.
Qed.

Lemma participant_order_witness :
  SplitValidator.validate Requests.threeWaySwapped = Returns tt /\
  Permutation (strategyShares Requests.threeWaySwapped) (strategyShares Requests.threeWay).
Proof.
  destruct (participant_order Requests.threeWay ["u2"; "u1"; "u3"]%string) as [V [P _]].
  - apply perm_swap.
  - evaluated.
  - split; [exact V | exact P].
Defined.

(** The custom amounts 6.75, 1.25 and 0.125 of 8.125: in the listed order
    the totals add up to 8.13 and the adjustment is 0.01; with the last two
    participants swapped the double sum is 8.129999999999999 and the
    adjustment is 0. *)
Example roundingAdjustment_depends_on_order :
  summary (calculateSplit Requests.eighths)
  = inl ([("u0"%string, (6.75, 0, 0, 6.74)); ("u1"%string, (1.25, 0, 0, 1.25));
          ("u2"%string, (0.13, 0, 0, 0.13))], 8.13, 0.01) /\
  summary (calculateSplit Requests.eighthsSwapped)
  = inl ([("u0"%string, (6.75, 0, 0, 6.75)); ("u2"%string, (0.13, 0, 0, 0.13));
          ("u1"%string, (1.25, 0, 0, 1.25))], 8.13, 0).
Proof. vm_compute. split; reflexivity. Qed.

End ParticipantOrderClaim.

(** * More properties of the engine on doubles *)

(** ** The validator, strategy by strategy *)

Section IeeeValidator.
Import Ieee Ieee.SplitCalculationService Ieee.CalculateSplitDto.
Local Open Scope ieee_outcome_scope.
Local Open Scope float_scope.

Lemma ieee_validate_unfold (dto : CalculateSplitDto.t) :
  SplitValidator.validate dto = Returns tt <->
  basicOk dto /\
  match splitType dto with
  | EQUAL => SplitValidator.validateEqualSplit dto
  | ITEMIZED => SplitValidator.validateItemizedSplit dto
  | PERCENTAGE => SplitValidator.validatePercentageSplit dto
  | CUSTOM => SplitValidator.validateCustomSplit dto
  end = Returns tt.
Proof.
  unfold SplitValidator.validate, basicOk. rewrite ieee_bind_returns. split.
  - intros [[] [Hb H]]. apply ieee_validateBasicRequirements_returns in Hb. auto.
  - intros [Hb H]. exists tt. split; [|exact H].
    apply ieee_validateBasicRequirements_returns. exact Hb.
Qed.

Lemma ieee_validateItem_returns (dto : CalculateSplitDto.t) (item : ItemDto.t)
  (index : nat) :
  SplitValidator.validateItem dto item index = Returns tt <-> itemOk dto item.
Proof.
  unfold SplitValidator.validateItem, itemOk.
  rewrite !ieee_guard_returns, ieee_bind_returns, Nat.eqb_neq.
  assert (L : List.length (ItemDto.participantIds item) <> 0%nat
              <-> ItemDto.participantIds item <> []).
  { destruct (ItemDto.participantIds item); simpl; split; congruence. }
  rewrite L.
  assert (F : forall u,
             forEach
               (fun participantId =>
                  throw_if (negb (Js.includes (participantIds dto) participantId))
                    (ItemForeignParticipant (ItemDto.name item) participantId))
               (ItemDto.participantIds item) = Returns u
             <-> (forall p, In p (ItemDto.participantIds item) -> In p (participantIds dto))).
  { intro u. rewrite ieee_forEach_returns. split; intros H x Hx; specialize (H x Hx).
    - apply ieee_throw_if_returns, negb_false_iff, includes_In in H. exact H.
    - apply ieee_throw_if_returns, negb_false_iff, includes_In. exact H. }
  assert (D : throw_if
                (negb (Js.Set_size (ItemDto.participantIds item)
                       =? List.length (ItemDto.participantIds item))%nat)
                (ItemDuplicateParticipants (ItemDto.name item)) = Returns tt
              <-> NoDup (ItemDto.participantIds item)).
  { rewrite ieee_throw_if_returns, negb_false_iff, Nat.eqb_eq. apply Set_size_NoDup. }
  split.
  - intros [H1 [H2 [H3 [u [H4 H5]]]]].
    pose proof (proj1 (F u) H4). pose proof (proj1 D H5). auto.
  - intros [H1 [H2 [H3 [H4 H5]]]]. repeat split; auto.
    exists tt. split; [exact (proj2 (F tt) H4) | exact (proj2 D H5)].
Qed.

Lemma ieee_validateItems_returns (dto : CalculateSplitDto.t) (its : list ItemDto.t) :
  forEach_from (SplitValidator.validateItem dto) its 0 = Returns tt <->
  (forall item, In item its -> itemOk dto item).
Proof.
  rewrite ieee_forEach_from_returns. split.
  - intros H item Hi. destruct (In_nth_error _ _ Hi) as [n E].
    apply (ieee_validateItem_returns dto item (0 + n)). exact (H n item E).
  - intros H n item E. apply ieee_validateItem_returns, H. exact (nth_error_In _ _ E).
Qed.

Lemma ieee_validateItemizedSplit_returns (dto : CalculateSplitDto.t) :
  SplitValidator.validateItemizedSplit dto = Returns tt <->
  exists its,
    items dto = Some its /\ its <> [] /\
    percentages dto = None /\ customAmounts dto = None /\
    (forall item, In item its -> itemOk dto item) /\
    Double.gt (Double.Math_abs (reduce_sum ItemDto.price its - subtotal dto)) 0.01 = false.
Proof.
  unfold SplitValidator.validateItemizedSplit.
  destruct (items dto) as [its|].
  2:{ split; [discriminate | intros [x [C _]]; discriminate C]. }
  cbv zeta.
  rewrite !ieee_guard_returns, ieee_bind_returns, orb_false_iff, !option_absent,
    Nat.eqb_neq.
  assert (L : List.length its <> 0%nat <-> its <> []).
  { destruct its; simpl; split; congruence. }
  rewrite L. split.
  - intros [Hne [[Hp Hc] [[] [Hitems Hsum]]]]. exists its.
    pose proof (proj1 (ieee_validateItems_returns dto its) Hitems) as Hok.
    apply ieee_throw_if_returns in Hsum. auto 10.
  - intros [its' [E [Hne [Hp [Hc [Hitems Hsum]]]]]]. injection E as <-.
    split; [exact Hne|]. split; [auto|].
    exists tt. split.
    + apply ieee_validateItems_returns. exact Hitems.
    + apply ieee_throw_if_returns. exact Hsum.
Qed.

End IeeeValidator.

Section IeeeCustom.
Import Ieee Ieee.SplitCalculationService Ieee.CustomSplitDto.
Local Open Scope ieee_outcome_scope.
Local Open Scope float_scope.

Variable dto : CalculateSplitDto.t.

Lemma ieee_amountMapOf_keys (entries : list CustomSplitDto.t) :
  map fst (amountMapOf entries) = map participantId entries.
Proof. unfold amountMapOf. rewrite map_map. reflexivity. Qed.

Lemma ieee_amountMapOf_values (entries : list CustomSplitDto.t) :
  reduce_sum (fun amt => amt) (Js.Map.values (amountMapOf entries))
  = reduce_sum amount entries.
Proof.
  unfold reduce_sum. generalize 0.
  induction entries as [|e r IH]; intro a; simpl; [reflexivity | apply IH].
Qed.

Lemma ieee_validateCustomEntry_returns (m m' : Js.Map.t float) (e : CustomSplitDto.t) :
  SplitValidator.validateCustomEntry dto m e = Returns m' <->
  In (participantId e) (CalculateSplitDto.participantIds dto) /\
  Js.Map.has m (participantId e) = false /\
  Double.lt (amount e) 0 = false /\
  m' = Js.Map.set m (participantId e) (amount e).
Proof.
  unfold SplitValidator.validateCustomEntry. cbv zeta.
  rewrite !ieee_guard_returns, negb_false_iff, includes_In.
  split.
  - intros [H1 [H2 [H3 H4]]]. injection H4 as <-. auto.
  - intros [H1 [H2 [H3 ->]]]. auto.
Qed.

(** When the loop over the custom amounts succeeds. *)
Lemma ieee_customEntries_returns (entries : list CustomSplitDto.t) :
  forall m0 m,
    forEach_state (SplitValidator.validateCustomEntry dto) entries m0 = Returns m <->
    (forall e, In e entries ->
       In (participantId e) (CalculateSplitDto.participantIds dto) /\
       Js.Map.has m0 (participantId e) = false /\ Double.lt (amount e) 0 = false) /\
    NoDup (map participantId entries) /\
    m = m0 ++ amountMapOf entries.
Proof.
  induction entries as [|e r IH]; intros m0 m; simpl.
  - rewrite app_nil_r. split.
    + intro H. injection H as <-. split; [intros e []|]. split; [constructor | reflexivity].
    + intros [_ [_ ->]]. reflexivity.
  - rewrite ieee_bind_returns. split.
    + intros [m1 [He Hr]]. apply ieee_validateCustomEntry_returns in He.
      destruct He as [H1 [H2 [H3 ->]]].
      apply IH in Hr. destruct Hr as [Hall [Hnd ->]].
      assert (Hfresh : forall e', In e' r -> participantId e <> participantId e'
                                  /\ Js.Map.has m0 (participantId e') = false).
      { intros e' He'. destruct (Hall e' He') as [_ [Hh _]].
        rewrite has_set in Hh. apply orb_false_iff in Hh. destruct Hh as [Hn Hh].
        apply String.eqb_neq in Hn. auto. }
      split; [|split].
      * intros e' [<-|He']; [auto|].
        destruct (Hall e' He') as [A [_ B]]. destruct (Hfresh e' He') as [_ D]. auto.
      * constructor; [|exact Hnd].
        rewrite in_map_iff. intros [e' [E He']].
        destruct (Hfresh e' He') as [N _]. apply N. symmetry. exact E.
      * rewrite (set_fresh _ _ _ H2), <- app_assoc. reflexivity.
    + intros [Hall [Hnd ->]].
      destruct (Hall e (or_introl eq_refl)) as [H1 [H2 H3]].
      exists (Js.Map.set m0 (participantId e) (amount e)). split.
      * apply ieee_validateCustomEntry_returns. auto.
      * apply IH. inversion Hnd as [|? ? Hn Hnd']. subst.
        split; [|split; [exact Hnd'|]].
        -- intros e' He'. destruct (Hall e' (or_intror He')) as [A [B C]].
           split; [exact A|]. split; [|exact C].
           rewrite has_set, B, orb_false_r. apply String.eqb_neq.
           intro E. apply Hn. rewrite E. apply in_map. exact He'.
        -- rewrite (set_fresh _ _ _ H2), <- app_assoc. reflexivity.
Qed.

Lemma ieee_validateCustomSplit_returns :
  SplitValidator.validateCustomSplit dto = Returns tt <->
  exists entries,
    CalculateSplitDto.customAmounts dto = Some entries /\ entries <> [] /\
    CalculateSplitDto.items dto = None /\ CalculateSplitDto.percentages dto = None /\
    (forall e, In e entries ->
       In (participantId e) (CalculateSplitDto.participantIds dto) /\
       Double.lt (amount e) 0 = false) /\
    NoDup (map participantId entries) /\
    Double.gt
      (Double.Math_abs (reduce_sum amount entries - CalculateSplitDto.subtotal dto))
      0.01 = false /\
    (forall id, In id (CalculateSplitDto.participantIds dto) ->
                In id (map participantId entries)).
Proof.
  unfold SplitValidator.validateCustomSplit.
  destruct (CalculateSplitDto.customAmounts dto) as [entries|].
  2:{ split; [discriminate | intros [es [E _]]; discriminate E]. }
  cbv zeta.
  rewrite !ieee_guard_returns, orb_false_iff, !option_absent, Nat.eqb_neq,
    ieee_bind_returns.
  assert (L : List.length entries <> 0%nat <-> entries <> []).
  { destruct entries; simpl; split; congruence. }
  rewrite L. split.
  - intros [Hne [[Hi Hp] [m [Hloop H]]]].
    apply ieee_guard_returns in H. destruct H as [Hsum Hcover].
    apply ieee_customEntries_returns in Hloop. destruct Hloop as [Hall [Hnd ->]].
    unfold Js.Map.empty in *. cbn [app] in *.
    rewrite ieee_amountMapOf_values in Hsum.
    rewrite ieee_forEach_returns in Hcover.
    exists entries. repeat split; auto.
    + apply (Hall e H).
    + apply (Hall e H).
    + intros id Hid. specialize (Hcover id Hid).
      apply ieee_throw_if_returns, negb_false_iff, has_keys in Hcover.
      rewrite ieee_amountMapOf_keys in Hcover. exact Hcover.
  - intros [es [E [Hne [Hi [Hp [Hall [Hnd [Hsum Hcover]]]]]]]]. injection E as <-.
    split; [exact Hne|]. split; [auto|].
    exists (amountMapOf entries). split.
    + apply ieee_customEntries_returns. split; [|split; [exact Hnd | reflexivity]].
      intros e He. destruct (Hall e He). auto.
    + apply ieee_guard_returns. split.
      * rewrite ieee_amountMapOf_values. exact Hsum.
      * apply ieee_forEach_returns. intros id Hid.
        apply ieee_throw_if_returns, negb_false_iff, has_keys.
        rewrite ieee_amountMapOf_keys. apply Hcover. exact Hid.
Qed.

End IeeeCustom.

Section ValidationOnDoubles.
Import Ieee Ieee.SplitCalculationService.
Local Open Scope float_scope.

(** X2: itemized split: validation accepts exactly the requests that meet
    the basic requirements, carry at least one item and no other payload,
    whose items each have a name that [trim] does not empty, a price that
    is not negative and a non-empty, duplicate-free set of participants
    taken from the request's list, and whose prices, added in bill order in
    doubles, pass the code's test against the subtotal:
    [Math.abs(itemsTotal - subtotal) > 0.01] is false. *)
Theorem itemized_validation (dto : CalculateSplitDto.t) :
  CalculateSplitDto.splitType dto = ITEMIZED ->
  (SplitValidator.validate dto = Returns tt <->
   basicOk dto /\
   exists its,
     CalculateSplitDto.items dto = Some its /\ its <> [] /\
     CalculateSplitDto.percentages dto = None /\
     CalculateSplitDto.customAmounts dto = None /\
     (forall item, In item its -> itemOk dto item) /\
     Double.gt
       (Double.Math_abs (reduce_sum ItemDto.price its - CalculateSplitDto.subtotal dto))
       0.01 = false).
Proof.
  intro Hty. rewrite ieee_validate_unfold, Hty, ieee_validateItemizedSplit_returns.
  reflexivity.
Qed.

Lemma itemized_validation_witness :
  SplitValidator.validate Requests.sharedItems = Returns tt /\
  forall item, In item (Js.or_else (CalculateSplitDto.items Requests.sharedItems) []) ->
               itemOk Requests.sharedItems item.
Proof.
  assert (V : SplitValidator.validate Requests.sharedItems = Returns tt) by evaluated.
  split; [exact V|].
  destruct (proj1 (itemized_validation Requests.sharedItems eq_refl) V)
    as [_ [its [E [_ [_ [_ [H _]]]]]]].
  injection E as <-. exact H.
Defined.

(** An item of 0.3 on a bill of 0.29 is rejected: the distance of the two
    doubles is a double above 0.01.  An item named by the single character
    U+2003 is rejected: [trim] removes it. *)
Example itemized_rejections :
  SplitValidator.validate Requests.centOffItem = Throws (ItemsSumMismatch 0.3 0.29) /\
  Double.Math_abs (0.3 - 0.29) = 0.010000000000000009 /\
  SplitValidator.validate Requests.emSpaceItem = Throws (ItemMustHaveName 0).
Proof. vm_compute. repeat split; reflexivity. Qed.

(** X3: custom split: validation accepts exactly the requests that meet the
    basic requirements, carry custom amounts and no other payload, whose
    entries name each request participant exactly once and nobody else,
    with amounts that are not negative and that, added in payload order in
    doubles, pass the code's test against the subtotal:
    [Math.abs(totalCustom - subtotal) > 0.01] is false. *)
Theorem custom_validation (dto : CalculateSplitDto.t) :
  CalculateSplitDto.splitType dto = CUSTOM ->
  (SplitValidator.validate dto = Returns tt <->
   basicOk dto /\
   exists entries,
     CalculateSplitDto.customAmounts dto = Some entries /\
     CalculateSplitDto.items dto = None /\
     CalculateSplitDto.percentages dto = None /\
     Permutation (map CustomSplitDto.participantId entries)
       (CalculateSplitDto.participantIds dto) /\
     (forall e, In e entries -> Double.lt (CustomSplitDto.amount e) 0 = false) /\
     Double.gt
       (Double.Math_abs (reduce_sum CustomSplitDto.amount entries
                         - CalculateSplitDto.subtotal dto))
       0.01 = false).
Proof.
  intro Hty. rewrite ieee_validate_unfold, Hty, ieee_validateCustomSplit_returns. split.
  - intros [Hb [es [E [Hne [Hi [Hp [Hall [Hnd [Hsum Hcover]]]]]]]]].
    split; [exact Hb|]. exists es. repeat split; auto.
    + apply NoDup_Permutation; [exact Hnd | apply Hb|].
      intro id. split; [|apply Hcover].
      rewrite in_map_iff. intros [e [<- He]]. apply (Hall e He).
    + intros e He. apply (Hall e He).
  - intros [Hb [es [E [Hi [Hp [Hperm [Hall Hsum]]]]]]].
    split; [exact Hb|]. exists es. repeat split; auto.
    + intros ->. apply Permutation_nil in Hperm. destruct Hb as [Hne _]. congruence.
    + apply (Permutation_in _ Hperm), in_map. assumption.
    + apply (Permutation_NoDup (Permutation_sym Hperm)). apply Hb.
    + intros id Hid. apply (Permutation_in _ (Permutation_sym Hperm)). exact Hid.
Qed.

Lemma custom_validation_witness :
  SplitValidator.validate Requests.seventyThirty = Returns tt /\
  exists entries,
    CalculateSplitDto.customAmounts Requests.seventyThirty = Some entries /\
    Permutation (map CustomSplitDto.participantId entries)
      (CalculateSplitDto.participantIds Requests.seventyThirty).
Proof.
  assert (V : SplitValidator.validate Requests.seventyThirty = Returns tt) by evaluated.
  split; [exact V|].
  destruct (proj1 (custom_validation Requests.seventyThirty eq_refl) V)
    as [_ [es [E [_ [_ [P _]]]]]].
  exists es. split; assumption.
Defined.

(** Custom amounts 70 and 29.99 on a bill of 100 are rejected: the double
    sum is 99.99 and its distance from 100 is a double above 0.01. *)
Example custom_rejection :
  SplitValidator.validate Requests.centOffCustom
  = Throws (CustomSumMismatch (70 + 29.99) 100) /\
  Double.Math_abs (70 + 29.99 - 100) = 0.010000000000005116.
Proof. vm_compute. repeat split; reflexivity. Qed.

End ValidationOnDoubles.

(** ** The errors of the main entry point and the Equal strategy *)

Section EngineOnDoubles.
Import Ieee Ieee.SplitCalculationService.
Local Open Scope float_scope.




(** Both errors of the postcondition occur on requests that pass the
    precondition checks: 3876574130871809 for one participant is rounded
    to 3876574130871809.5, half a unit from the expected total; a tax of 10
    on a subtotal of 0 is dropped by [distributeTax]. *)
Example postcondition_errors :
  calculateSplit (Requests.equally 3876574130871809 None None ["u1"%string])
  = Throws (CalculatedTotalMismatch 3876574130871809.5 3876574130871809) /\
  calculateSplit Requests.taxOnly = Throws (RoundingAdjustmentExceedsThreshold (-10)).
Proof. vm_compute. split; reflexivity. Qed.

Lemma ieee_calculateEqualSplit_map (dto : CalculateSplitDto.t) :
  calculateEqualSplit dto = map (equalShareOf dto) (CalculateSplitDto.participantIds dto).
Proof. reflexivity. Qed.

(** The loop of [applyRoundingAdjustment] on shares that all hold the
    initial maximum keeps the initial index. *)
Lemma ieee_findMaxIndex_uniform (shares : list ParticipantShareDto.t) (t : float) :
  (forall s, In s shares -> ParticipantShareDto.total s = t) ->
  forall index maxIndex, findMaxIndex shares index maxIndex t = maxIndex.
Proof.
  induction shares as [|x r IH]; intros H index maxIndex; simpl; [reflexivity|].
  rewrite (H x (or_introl eq_refl)), gt_irrefl.
  apply IH. intros s Hs. apply H. right. exact Hs.
Qed.

(** X11: equal split in closed form: every participant is charged the same
    subtotal, tax and tip, computed by the callback of
    [calculateEqualSplit] in doubles, and the same total except that, when
    the reconciliation runs, the first listed participant's total absorbs
    the rounding adjustment. *)
Theorem equal_split_result (dto : CalculateSplitDto.t) (res : SplitCalculationResultDto.t) :
  CalculateSplitDto.splitType dto = EQUAL ->
  calculateSplit dto = Returns res ->
  exists first rest,
    CalculateSplitDto.participantIds dto = first :: rest /\
    let adjustment := SplitCalculationResultDto.roundingAdjustment res in
    (needsReconciliation adjustment = false ->
     SplitCalculationResultDto.shares res
     = equalShareOf dto first :: map (equalShareOf dto) rest) /\
    (needsReconciliation adjustment = true ->
     SplitCalculationResultDto.shares res
     = ParticipantShareDto.with_total (equalShareOf dto first)
         (round (ParticipantShareDto.total (equalShareOf dto first) - adjustment))
       :: map (equalShareOf dto) rest).
Proof.
  intros Hty H. apply ieee_calculateSplit_returns in H. destruct H as [Hv [_ [_ ->]]].
  cbn [SplitCalculationResultDto.shares SplitCalculationResultDto.roundingAdjustment].
  assert (E : strategyShares dto
              = map (equalShareOf dto) (CalculateSplitDto.participantIds dto)).
  { unfold strategyShares. rewrite Hty. apply ieee_calculateEqualSplit_map. }
  pose proof (ieee_validate_nonempty dto Hv) as Hne. rewrite E in Hne.
  destruct (CalculateSplitDto.participantIds dto) as [|first rest] eqn:Eids;
    [contradiction Hne; reflexivity|].
  exists first, rest. split; [reflexivity|]. cbv zeta. split.
  - intro Hsmall. rewrite (ieee_reconciledShares_unchanged dto Hsmall), E. reflexivity.
  - intro Hbig. unfold reconciledShares.
    change (Double.gt _ 0.001) with (needsReconciliation (roundingAdjustmentOf dto)).
    rewrite Hbig, E. cbn [map]. unfold applyRoundingAdjustment.
    rewrite (gt_not_lt _ _ Hbig).
    rewrite (ieee_findMaxIndex_uniform _ (ParticipantShareDto.total (equalShareOf dto first))).
    + reflexivity.
    + intros s [<-|Hs]; [reflexivity|].
      apply in_map_iff in Hs. destruct Hs as [id [<- _]]. reflexivity.
Qed.

Lemma equal_split_result_witness :
  exists res, calculateSplit Requests.threeWay = Returns res /\
    exists first rest,
      CalculateSplitDto.participantIds Requests.threeWay = first :: rest /\
      SplitCalculationResultDto.shares res
      = ParticipantShareDto.with_total (equalShareOf Requests.threeWay first)
          (round (ParticipantShareDto.total (equalShareOf Requests.threeWay first)
                  - SplitCalculationResultDto.roundingAdjustment res))
        :: map (equalShareOf Requests.threeWay) rest.
Proof.
  run_calculateSplit Requests.threeWay E. eexists. split; [reflexivity|].
  destruct (equal_split_result Requests.threeWay _ eq_refl E)
    as [first [rest [Eids [_ H]]]].
  exists first, rest. split; [exact Eids|]. apply H. evaluated.
Defined.

(** Equal splits whose amounts meet a tie: 2.25 and a tax of 1.125 between
    two gives each a subtotal of 1.13 and a tax of 0.56; 1 and a tax of
    0.375 between two gives totals of 0.69 with no adjustment. *)
Example equal_split_examples :
  summary (calculateSplit (Requests.equally 2.25 (Some 1.125) None ["u1"; "u2"]%string))
  = inl ([("u1"%string, (1.13, 0.56, 0, 1.69)); ("u2"%string, (1.13, 0.56, 0, 1.69))],
         3.38, 0) /\
  summary (calculateSplit (Requests.equally 1 (Some 0.375) None ["u1"; "u2"]%string))
  = inl ([("u1"%string, (0.5, 0.19, 0, 0.69)); ("u2"%string, (0.5, 0.19, 0, 0.69))],
         1.38, 0).
Proof. vm_compute. split; reflexivity. Qed.

End EngineOnDoubles.

(** ** What each strategy charges *)

Section IeeeItemizedAllocation.
Import Ieee Ieee.SplitCalculationService.
Local Open Scope float_scope.

Lemma ieee_addItemShare_untouched (item : ItemDto.t) (sharePerPerson : float)
  (a : itemized_maps) (participantId k : string) :
  participantId <> k ->
  Js.Map.get (fst (addItemShare item sharePerPerson a participantId)) k
  = Js.Map.get (fst a) k /\
  Js.Map.get (snd (addItemShare item sharePerPerson a participantId)) k
  = Js.Map.get (snd a) k.
Proof.
  intro N. destruct a as [s1 i1]. simpl.
  rewrite !get_set_other by exact N. split; reflexivity.
Qed.

(** The inner loop of [distributeItem] on an item without repeated
    participants. *)
Lemma ieee_addItemShares_get (item : ItemDto.t) (share : float) (id : string)
  (pids : list string) :
  NoDup pids ->
  forall a : itemized_maps,
    let r := fold_left (addItemShare item share) pids a in
    Js.Map.get (fst r) id
    = (if Js.includes pids id
       then Some (Double.or_num (Js.Map.get (fst a) id) 0 + share)
       else Js.Map.get (fst a) id) /\
    Js.Map.get (snd r) id
    = (if Js.includes pids id
       then Some (Js.or_else (Js.Map.get (snd a) id) [] ++ [ItemDto.name item])
       else Js.Map.get (snd a) id).
Proof.
  induction pids as [|p r IH]; intros Hnd a; simpl.
  - split; reflexivity.
  - inversion Hnd as [|? ? Hp Hr]. subst.
    destruct (IH Hr (addItemShare item share a p)) as [H1 H2].
    rewrite H1, H2. clear H1 H2.
    destruct (String.eqb id p) eqn:E.
    + apply String.eqb_eq in E. subst p.
      assert (N : Js.includes r id = false).
      { apply not_true_iff_false. rewrite includes_In. exact Hp. }
      rewrite N. destruct a as [s1 i1]. simpl.
      rewrite !get_set, String.eqb_refl. split; reflexivity.
    + apply String.eqb_neq in E.
      assert (E' : p <> id) by congruence.
      destruct (ieee_addItemShare_untouched item share a p id E') as [U1 U2].
      rewrite U1, U2. split; reflexivity.
Qed.

Lemma ieee_tracks_initial (ids : list string) :
  tracks ids (initializeParticipants ids) [].
Proof.
  intros id Hid. destruct (ieee_initializeParticipants_get ids id) as [H1 H2].
  apply includes_In in Hid. rewrite Hid in H1, H2. split; assumption.
Qed.

Lemma ieee_owedFor_snoc (seen : list ItemDto.t) (item : ItemDto.t) (id : string) :
  owedFor (seen ++ [item]) id = withItemShare id (owedFor seen id) item.
Proof. unfold owedFor. rewrite fold_left_app. reflexivity. Qed.

Lemma ieee_itemNamesFor_snoc (seen : list ItemDto.t) (item : ItemDto.t) (id : string) :
  itemNamesFor (seen ++ [item]) id
  = itemNamesFor seen id
    ++ (if Js.includes (ItemDto.participantIds item) id then [ItemDto.name item] else []).
Proof.
  unfold itemNamesFor. rewrite filter_app, map_app. simpl.
  destruct (Js.includes (ItemDto.participantIds item) id); reflexivity.
Qed.

Lemma ieee_tracks_item (ids : list string) (a : itemized_maps) (seen : list ItemDto.t)
  (item : ItemDto.t) :
  NoDup (ItemDto.participantIds item) ->
  tracks ids a seen -> tracks ids (distributeItem a item) (seen ++ [item]).
Proof.
  intros Hnd T id Hid. destruct (T id Hid) as [Hv Hn].
  unfold distributeItem. cbv zeta.
  destruct (ieee_addItemShares_get item
              (ItemDto.price item / Double.length_num (ItemDto.participantIds item))
              id _ Hnd a) as [H1 H2].
  rewrite H1, H2, Hv, Hn, ieee_itemNamesFor_snoc, ieee_owedFor_snoc. clear H1 H2.
  unfold withItemShare.
  destruct (Js.includes (ItemDto.participantIds item) id); split; try reflexivity.
  rewrite app_nil_r. reflexivity.
Qed.

Lemma ieee_tracks_items (ids : list string) (items : list ItemDto.t) :
  (forall item, In item items -> NoDup (ItemDto.participantIds item)) ->
  forall a seen, tracks ids a seen ->
                 tracks ids (fold_left distributeItem items a) (seen ++ items).
Proof.
  induction items as [|item r IH]; intros Hnd a seen T; simpl.
  - rewrite app_nil_r. exact T.
  - replace (seen ++ item :: r) with ((seen ++ [item]) ++ r)
      by (rewrite <- app_assoc; reflexivity).
    apply IH.
    + intros it Hit. apply Hnd. right. exact Hit.
    + apply ieee_tracks_item; [apply Hnd; left; reflexivity | exact T].
Qed.

(** The strategy share of a participant of an itemized bill whose items
    name nobody twice. *)
Lemma ieee_itemized_share (dto : CalculateSplitDto.t) (s : ParticipantShareDto.t) :
  CalculateSplitDto.splitType dto = ITEMIZED ->
  (forall item, In item (Js.or_else (CalculateSplitDto.items dto) []) ->
                NoDup (ItemDto.participantIds item)) ->
  In s (strategyShares dto) ->
  ParticipantShareDto.subtotal s
  = round (Double.or_num
             (Some (owedFor (Js.or_else (CalculateSplitDto.items dto) [])
                      (ParticipantShareDto.participantId s))) 0) /\
  ParticipantShareDto.items s
  = Some (itemNamesFor (Js.or_else (CalculateSplitDto.items dto) [])
            (ParticipantShareDto.participantId s)).
Proof.
  intros Hty Hnd Hs. unfold strategyShares in Hs. rewrite Hty in Hs.
  rewrite ieee_calculateItemizedSplit_unfold in Hs. cbv zeta in Hs.
  apply in_map_iff in Hs. destruct Hs as [id [<- Hid]].
  cbn [ParticipantShareDto.participantId ParticipantShareDto.subtotal
       ParticipantShareDto.items].
  destruct (ieee_tracks_items (CalculateSplitDto.participantIds dto) _ Hnd _ []
              (ieee_tracks_initial _) id Hid) as [Hv Hn].
  cbn [app] in *. rewrite Hv, Hn. split; reflexivity.
Qed.

End IeeeItemizedAllocation.

Section IeeeLastSetWins.
Context {A V : Type} (key : A -> string) (value : A -> V).

Lemma ieee_fold_set_untouched (entries : list A) :
  forall (m : Js.Map.t V) (k : string),
    ~ In k (map key entries) ->
    Js.Map.get (fold_left (fun m e => Js.Map.set m (key e) (value e)) entries m) k
    = Js.Map.get m k.
Proof.
  induction entries as [|x r IH]; intros m k N; simpl; [reflexivity|].
  rewrite IH by (intro H; apply N; right; exact H).
  apply get_set_other. intro E. apply N. left. exact E.
Qed.

(** With one entry per key, the map built by the loop holds each entry's
    value under its key. *)
Lemma ieee_fold_set_get (entries : list A) :
  NoDup (map key entries) ->
  forall (m : Js.Map.t V) (e : A),
    In e entries ->
    Js.Map.get (fold_left (fun m e => Js.Map.set m (key e) (value e)) entries m) (key e)
    = Some (value e).
Proof.
  induction entries as [|x r IH]; intros Hnd m e He; simpl; [contradiction|].
  inversion Hnd as [|? ? Hx Hr]. subst. destruct He as [<-|He].
  - rewrite (ieee_fold_set_untouched r _ _ Hx), get_set, String.eqb_refl. reflexivity.
  - apply IH; assumption.
Qed.
End IeeeLastSetWins.

Section IeeeStrategyAllocation.
Import Ieee Ieee.SplitCalculationService.
Local Open Scope float_scope.

Variable dto : CalculateSplitDto.t.
Hypothesis valid : SplitValidator.validate dto = Returns tt.

Lemma ieee_percentage_share (s : ParticipantShareDto.t) :
  CalculateSplitDto.splitType dto = PERCENTAGE ->
  In s (strategyShares dto) ->
  exists e, In e (percentageEntries dto) /\
    PercentageSplitDto.participantId e = ParticipantShareDto.participantId s /\
    ParticipantShareDto.subtotal s
    = round (CalculateSplitDto.subtotal dto
             * Double.or_num (Some (PercentageSplitDto.percentage e)) 0 / 100).
Proof.
  intros Hty Hs. pose proof valid as Hv. apply ieee_validate_unfold in Hv.
  rewrite Hty in Hv. destruct Hv as [Hb Hv].
  pose proof (ieee_validatePercentageSplit_returns dto Hv) as [_ NF].
  unfold SplitValidator.validatePercentageSplit in Hv.
  unfold percentageFault, percentageEntries, strategyShares, calculatePercentageSplit in *.
  rewrite Hty in Hs.
  destruct (CalculateSplitDto.percentages dto) as [entries|]; [|discriminate Hv].
  cbn [Js.or_else] in *.
  apply in_map_iff in Hs. destruct Hs as [id [<- Hid]].
  cbn [ParticipantShareDto.participantId ParticipantShareDto.subtotal].
  assert (Hnd : NoDup (map PercentageSplitDto.participantId entries)).
  { destruct (ListDec.NoDup_dec string_dec (map PercentageSplitDto.participantId entries))
      as [Y|N]; [exact Y|]. exfalso. apply NF. right. right. left. exact N. }
  assert (Hin : In id (map PercentageSplitDto.participantId entries)).
  { destruct (in_dec string_dec id (map PercentageSplitDto.participantId entries))
      as [Y|N]; [exact Y|]. exfalso. apply NF. left. exists id. auto. }
  destruct (proj1 (in_map_iff _ _ _) Hin) as [e [Ee He]].
  exists e. split; [exact He|]. split; [exact Ee|].
  rewrite <- Ee.
  rewrite (ieee_fold_set_get PercentageSplitDto.participantId
             PercentageSplitDto.percentage entries Hnd Js.Map.empty e He).
  reflexivity.
Qed.

Lemma ieee_custom_share (s : ParticipantShareDto.t) :
  CalculateSplitDto.splitType dto = CUSTOM ->
  In s (strategyShares dto) ->
  exists e, In e (Js.or_else (CalculateSplitDto.customAmounts dto) []) /\
    CustomSplitDto.participantId e = ParticipantShareDto.participantId s /\
    ParticipantShareDto.subtotal s
    = round (Double.or_num (Some (CustomSplitDto.amount e)) 0).
Proof.
  intros Hty Hs. pose proof valid as Hv. apply ieee_validate_unfold in Hv.
  rewrite Hty in Hv. destruct Hv as [_ Hv]. apply ieee_validateCustomSplit_returns in Hv.
  destruct Hv as [entries [E [_ [_ [_ [Hall [Hnd [_ Hcover]]]]]]]].
  unfold strategyShares, calculateCustomSplit in *.
  rewrite Hty in Hs. rewrite E in *. cbn [Js.or_else] in *.
  apply in_map_iff in Hs. destruct Hs as [id [<- Hid]].
  cbn [ParticipantShareDto.participantId ParticipantShareDto.subtotal].
  destruct (proj1 (in_map_iff _ _ _) (Hcover id Hid)) as [e [Ee He]].
  exists e. split; [exact He|]. split; [exact Ee|].
  rewrite <- Ee.
  rewrite (ieee_fold_set_get CustomSplitDto.participantId CustomSplitDto.amount
             entries Hnd Js.Map.empty e He).
  reflexivity.
Qed.

Lemma ieee_valid_items (item : ItemDto.t) :
  CalculateSplitDto.splitType dto = ITEMIZED ->
  In item (Js.or_else (CalculateSplitDto.items dto) []) -> itemOk dto item.
Proof.
  intros Hty Hi. pose proof valid as Hv. apply ieee_validate_unfold in Hv.
  rewrite Hty in Hv. destruct Hv as [_ Hv]. apply ieee_validateItemizedSplit_returns in Hv.
  destruct Hv as [its [E [_ [_ [_ [Hok _]]]]]]. rewrite E in Hi. apply Hok, Hi.
Qed.

Lemma ieee_valid_itemized_share (s : ParticipantShareDto.t) :
  CalculateSplitDto.splitType dto = ITEMIZED ->
  In s (strategyShares dto) ->
  ParticipantShareDto.subtotal s
  = round (Double.or_num
             (Some (owedFor (Js.or_else (CalculateSplitDto.items dto) [])
                      (ParticipantShareDto.participantId s))) 0) /\
  ParticipantShareDto.items s
  = Some (itemNamesFor (Js.or_else (CalculateSplitDto.items dto) [])
            (ParticipantShareDto.participantId s)).
Proof.
  intros Hty Hs. apply ieee_itemized_share; [exact Hty | | exact Hs].
  intros item Hi. apply (ieee_valid_items item Hty Hi).
Qed.

End IeeeStrategyAllocation.

Section AllocationOnDoubles.
Import Ieee Ieee.SplitCalculationService.
Local Open Scope float_scope.

(** X13: itemized allocation: in every returned Itemized result each share
    lists, in bill order, the names of the items its participant takes part
    in, and its subtotal is the rounding of the participant's running
    subtotal: starting from 0, each of those items in bill order adds
    [price / participantIds.length] in doubles to the current value (or to
    0 when the current value is 0 or NaN), and the final value ([|| 0]) is
    rounded by the helper. *)
Theorem itemized_allocation (dto : CalculateSplitDto.t) (res : SplitCalculationResultDto.t) :
  CalculateSplitDto.splitType dto = ITEMIZED ->
  calculateSplit dto = Returns res ->
  let items := Js.or_else (CalculateSplitDto.items dto) [] in
  forall s, In s (SplitCalculationResultDto.shares res) ->
    ParticipantShareDto.subtotal s
    = round (Double.or_num (Some (owedFor items (ParticipantShareDto.participantId s))) 0) /\
    ParticipantShareDto.items s
    = Some (itemNamesFor items (ParticipantShareDto.participantId s)).
Proof.
  intros Hty H items s Hs.
  apply ieee_calculateSplit_returns in H. destruct H as [Hv [_ [_ ->]]].
  cbn [SplitCalculationResultDto.shares] in Hs.
  destruct (ieee_reconciledShares_builtFrom dto s Hs) as [s0 [H0 [_ [-> [-> [_ [_ ->]]]]]]].
  apply (ieee_valid_itemized_share dto Hv s0 Hty H0).
Qed.

Lemma itemized_allocation_witness :
  exists res, calculateSplit Requests.sharedItems = Returns res /\
    forall s, In s (SplitCalculationResultDto.shares res) ->
      ParticipantShareDto.items s
      = Some (itemNamesFor (Js.or_else (CalculateSplitDto.items Requests.sharedItems) [])
                (ParticipantShareDto.participantId s)).
Proof.
  run_calculateSplit Requests.sharedItems E. eexists. split; [reflexivity|]. intros s Hs.
  apply (itemized_allocation Requests.sharedItems _ eq_refl E s Hs).
Defined.

(** One item of 2.875 shared by five: each share of the price is the double
    0.575, whose product with 100 is 57.49999999999999, so each subtotal is
    0.57 and the rounding adjustment is -0.03. *)
Example shared_by_five :
  summary (calculateSplit Requests.sharedByFive)
  = inl ([("u1"%string, (0.57, 0, 0, 0.6)); ("u2"%string, (0.57, 0, 0, 0.57));
          ("u3"%string, (0.57, 0, 0, 0.57)); ("u4"%string, (0.57, 0, 0, 0.57));
          ("u5"%string, (0.57, 0, 0, 0.57))], 2.88, -0.03) /\
  2.875 / 5 * 100 = 57.49999999999999.
Proof. vm_compute. split; reflexivity. Qed.

(** X15: percentage allocation: in every returned Percentage result each
    share belongs to one entry of the payload, and its subtotal is
    [round((subtotal * percentage) / 100)] for that entry's percentage (0
    in place of a percentage that is 0 or NaN), the product, the quotient
    and the rounding computed in doubles. *)
Theorem percentage_allocation (dto : CalculateSplitDto.t) (res : SplitCalculationResultDto.t) :
  CalculateSplitDto.splitType dto = PERCENTAGE ->
  calculateSplit dto = Returns res ->
  forall s, In s (SplitCalculationResultDto.shares res) ->
    exists e, In e (percentageEntries dto) /\
      PercentageSplitDto.participantId e = ParticipantShareDto.participantId s /\
      ParticipantShareDto.subtotal s
      = round (CalculateSplitDto.subtotal dto
               * Double.or_num (Some (PercentageSplitDto.percentage e)) 0 / 100).
Proof.
  intros Hty H s Hs.
  apply ieee_calculateSplit_returns in H. destruct H as [Hv [_ [_ ->]]].
  cbn [SplitCalculationResultDto.shares] in Hs.
  destruct (ieee_reconciledShares_builtFrom dto s Hs) as [s0 [H0 [_ [-> [-> _]]]]].
  apply (ieee_percentage_share dto Hv s0 Hty H0).
Qed.

Lemma percentage_allocation_witness :
  exists res, calculateSplit Requests.sixtyForty = Returns res /\
    forall s, In s (SplitCalculationResultDto.shares res) ->
      exists e, In e (percentageEntries Requests.sixtyForty) /\
        PercentageSplitDto.participantId e = ParticipantShareDto.participantId s /\
        ParticipantShareDto.subtotal s
        = round (100 * Double.or_num (Some (PercentageSplitDto.percentage e)) 0 / 100).
Proof.
  run_calculateSplit Requests.sixtyForty E. eexists. split; [reflexivity|]. intros s Hs.
  apply (percentage_allocation Requests.sixtyForty _ eq_refl E s Hs).
Defined.

(** 58 % of 0.25: the product 14.5 divided by 100 is the double 0.145,
    whose product with 100 is 14.499999999999998, so the subtotal is
    0.14. *)
Example fifty_eight_percent :
  summary (calculateSplit Requests.fiftyEight)
  = inl ([("u1"%string, (0.14, 0, 0, 0.14)); ("u2"%string, (0.11, 0, 0, 0.11))], 0.25, 0) /\
  0.25 * 58 / 100 * 100 = 14.499999999999998.
Proof. vm_compute. split; reflexivity. Qed.

(** X16: custom allocation: in every returned Custom result each share
    belongs to one entry of the payload, and its subtotal is that entry's
    amount (0 in place of an amount that is 0 or NaN) rounded by the helper
    in doubles. *)
Theorem custom_allocation (dto : CalculateSplitDto.t) (res : SplitCalculationResultDto.t) :
  CalculateSplitDto.splitType dto = CUSTOM ->
  calculateSplit dto = Returns res ->
  forall s, In s (SplitCalculationResultDto.shares res) ->
    exists e, In e (Js.or_else (CalculateSplitDto.customAmounts dto) []) /\
      CustomSplitDto.participantId e = ParticipantShareDto.participantId s /\
      ParticipantShareDto.subtotal s
      = round (Double.or_num (Some (CustomSplitDto.amount e)) 0).
Proof.
  intros Hty H s Hs.
  apply ieee_calculateSplit_returns in H. destruct H as [Hv [_ [_ ->]]].
  cbn [SplitCalculationResultDto.shares] in Hs.
  destruct (ieee_reconciledShares_builtFrom dto s Hs) as [s0 [H0 [_ [-> [-> _]]]]].
  apply (ieee_custom_share dto Hv s0 Hty H0).
Qed.

Lemma custom_allocation_witness :
  exists res, calculateSplit Requests.seventyThirty = Returns res /\
    forall s, In s (SplitCalculationResultDto.shares res) ->
      exists e, In e (Js.or_else (CalculateSplitDto.customAmounts Requests.seventyThirty) []) /\
        CustomSplitDto.participantId e = ParticipantShareDto.participantId s /\
        ParticipantShareDto.subtotal s
        = round (Double.or_num (Some (CustomSplitDto.amount e)) 0).
Proof.
  run_calculateSplit Requests.seventyThirty E. eexists. split; [reflexivity|]. intros s Hs.
  apply (custom_allocation Requests.seventyThirty _ eq_refl E s Hs).
Defined.

(** A custom amount of 1.005 (the double below it) is charged as 1. *)
Example one_and_half_cent :
  summary (calculateSplit Requests.oneAndHalfCent)
  = inl ([("u1"%string, (1, 0, 0, 1))], 1, (-0)%float).
Proof. vm_compute. reflexivity. Qed.

End AllocationOnDoubles.

(** ** Scenarios *)

Section ScenariosOnDoubles.
Import Ieee Ieee.SplitCalculationService.
Local Open Scope float_scope.
Local Open Scope string_scope.

(** Scenario 1 of the test suite: 100 + 10 + 15 split equally between
    two. *)
Example scenario_equal :
  summary (calculateSplit Requests.twoWay)
  = inl ([("u1", (50, 5, 7.5, 62.5)); ("u2", (50, 5, 7.5, 62.5))], 125, 0).
Proof. vm_compute. reflexivity. Qed.

(** Scenario 2: 100 split equally among three; the first share absorbs
    the missing cent. *)
Example scenario_three_way :
  summary (calculateSplit Requests.threeWay)
  = inl ([("u1", (33.33, 0, 0, 33.34)); ("u2", (33.33, 0, 0, 33.33));
          ("u3", (33.33, 0, 0, 33.33))], 100, -0.01).
Proof. vm_compute. reflexivity. Qed.

(** An itemized bill with a participant on no item. *)
Example scenario_itemized :
  summary (calculateSplit Requests.itemized)
  = inl ([("u1", (30, 3, 6, 39)); ("u2", (20, 2, 4, 26)); ("u3", (0, 0, 0, 0))], 65, 0).
Proof. vm_compute. reflexivity. Qed.

(** Scenario 4: a 60/40 percentage split of 100 + 10 + 20. *)
Example scenario_percentage :
  summary (calculateSplit Requests.sixtyForty)
  = inl ([("u1", (60, 6, 12, 78)); ("u2", (40, 4, 8, 52))], 130, 0).
Proof. vm_compute. reflexivity. Qed.

(** 1.25 and a tax of 0.625 between two: the adjustment is 0.02, within one
    cent per participant, and the call returns. *)
Example scenario_two_cents :
  summary (calculateSplit (Requests.equally 1.25 (Some 0.625) None ["u1"; "u2"]))
  = inl ([("u1", (0.63, 0.32, 0, 0.93)); ("u2", (0.63, 0.32, 0, 0.95))], 1.88, 0.02).
Proof. vm_compute. reflexivity. Qed.

(** 16.06, a tax of 0.5 and a tip of 0.29 among four: the adjustment is the
    double nearest to -0.05, above four cents in magnitude, and the call
    throws. *)
Example scenario_five_cents :
  calculateSplit (Requests.equally 16.06 (Some 0.5) (Some 0.29) ["u1"; "u2"; "u3"; "u4"])
  = Throws (RoundingAdjustmentExceedsThreshold (-0.05)) /\
  Double.gt (Double.Math_abs (-0.05)) (Double.length_num ["u1"; "u2"; "u3"; "u4"] * 0.01)
  = true.
Proof. vm_compute. split; reflexivity. Qed.

(** 1e17 among three, with no tax and no tip: the three subtotals add up to
    16 less than the bill, and the call throws. *)
Example scenario_large_bill :
  calculateSplit (Requests.equally 1e17 None None ["u1"; "u2"; "u3"])
  = Throws (RoundingAdjustmentExceedsThreshold (-16)).
Proof. vm_compute. reflexivity. Qed.

(** The postcondition on a total one cent above 125: the distance of the
    doubles 125.01 and 125 is above the double 0.01. *)
Example scenario_validateResult :
  SplitValidator.validateResult Requests.twoWay 125.01 0.01
  = Throws (CalculatedTotalMismatch 125.01 125) /\
  Double.Math_abs (125.01 - 125) = 0.010000000000005116.
Proof. vm_compute. split; reflexivity. Qed.

(** [distributeTax(0.25, 12.5, 7.25)]: the proportion is the double 0.02,
    the product the double below 0.145. *)
Example scenario_distributeTax :
  distributeTax 0.25 12.5 7.25 = 0.14 /\ 7.25 * (0.25 / 12.5) = 0.14499999999999999.
Proof. vm_compute. split; reflexivity. Qed.

(** A returned result whose totals are further than 0.01 from
    [grandTotal]: the totals 45484987439432.36 and 45484987439432.38 add up
    to a double within 0.01 of the bill, while [grandTotal] is the bill
    rounded. *)
Example scenario_grandTotal :
  exists res,
    calculateSplit
      (Requests.equally 39356214157136.75 (Some 21426692823715) (Some 30187067898013)
         ["u1"; "u2"])
    = Returns res /\
    Double.gt
      (Double.Math_abs (sumOfTotals (SplitCalculationResultDto.shares res)
                        - SplitCalculationResultDto.grandTotal res))
      0.01 = true.
Proof. eexists. split; vm_compute; reflexivity. Qed.

(** A returned share that was not selected for the correction and whose
    total is not the double sum of its subtotal, tax and tip:
    270367641043162 and a tax of 0.25 among three. *)
Example scenario_unselected_total :
  summary (calculateSplit (Requests.equally 270367641043162 (Some 0.25) None
                             ["u1"; "u2"; "u3"]))
  = inl ([("u1", (90122547014387.31, 0.08, 0, 90122547014387.44));
          ("u2", (90122547014387.31, 0.08, 0, 90122547014387.4));
          ("u3", (90122547014387.31, 0.08, 0, 90122547014387.4))],
         270367641043162.25, -0.03) /\
  90122547014387.31 + 0.08 + 0 = 90122547014387.39.
Proof. vm_compute. split; reflexivity. Qed.

End ScenariosOnDoubles.

